(** * pgtoolsservice: scripting service, process entry point and node collections

    A shallow embedding of
    - [ossdbtoolsservice/scripting/scripting_service.py] (module [Scripting]),
    - [ossdbtoolsservice/ossdbtoolsservice_main.py]      (module [Main]),
    - [smo/common/node_object.py], class [NodeCollection] (module [Nodes]).

    Python values are given the types the source annotates them with; a
    Python dict is a [gmap], a Python list a [list], [None] an [option].
    A raised exception is the [Raise] outcome of a computation. *)

From Stdlib Require Import ZArith Lia Bool.
From stdpp Require Import base option list strings gmap.

Local Open Scope string_scope.
Local Open Scope list_scope.

(** ** Python exceptions and fallible results *)

Module Py.

(** The exception classes the modelled code raises or observes. All of
    them derive from [Exception], so an [except Exception] clause
    catches every one. *)
Inductive exc_class : Type :=
| ValueError
| AttributeError
| IndexError
| KeyError
| TypeError
| NameError
| UnboundLocalError
| AssertionError
| RuntimeError.

Record exc : Type := Exc { exc_type : exc_class; exc_msg : string }.

(** [str(e)] *)
Definition str (e : exc) : string := exc_msg e.

Inductive res (A : Type) : Type :=
| Ret (a : A)
| Raise (e : exc).
Arguments Ret {A} a.
Arguments Raise {A} e.

Definition bind {A B} (r : res A) (k : A -> res B) : res B :=
  match r with
  | Ret a => k a
  | Raise e => Raise e
  end.

(** [d[key]] on a dict with string keys *)
Definition dict_getitem {V} (d : gmap string V) (key : string) : res V :=
  match d !! key with
  | Some v => Ret v
  | None => Raise (Exc KeyError key)
  end.

(** [l[i]] on a list, for a non-negative index *)
Definition list_getitem {A} (l : list A) (i : nat) : res A :=
  match l !! i with
  | Some x => Ret x
  | None => Raise (Exc IndexError "list index out of range")
  end.

End Py.

Import Py.

Declare Scope res_scope.
Delimit Scope res_scope with res.
Notation "x <- r ;; k" := (Py.bind r (fun x => k))
  (at level 100, r at next level, right associativity) : res_scope.

(** ** The scripting service *)

Module Scripting.

(** *** Contracts *)

(** An element of [params.scripting_objects]: a deserialized JSON
    object, read by subscripting. *)
Abbreviation ScriptingObject := (gmap string string).

Record ScriptAsParameters : Type := {
  owner_uri : string;
  operation : string;
  scripting_objects : list ScriptingObject
}.

Record ObjectMetadata : Type := {
  metadata_type_name : string;
  schema : string;
  name : string
}.

Record ScriptAsResponse : Type := {
  response_owner_uri : string;
  response_script : string
}.

(** *** [ScriptingService.create_metadata] *)

Definition create_metadata (params : ScriptAsParameters) : res ObjectMetadata :=
  (scripting_object <- list_getitem (scripting_objects params) 0 ;;
   type_ <- dict_getitem scripting_object "type" ;;
   schema_ <- dict_getitem scripting_object "schema" ;;
   name_ <- dict_getitem scripting_object "name" ;;
   Ret {| metadata_type_name := type_; schema := schema_; name := name_ |})%res.

(** *** What the module imports

    [utils.validate], [utils.constants], the connection service, the
    [Scripter] and the connection objects are defined outside the
    modelled files. They are collaborators of the handler: each call acts
    on a world of its own and either returns or raises. *)

Record Imports : Type := {
  World : Type;
  ConnectionService : Type;
  ServerConnection : Type;
  ScripterObj : Type;
  ConnectionType : Type;
  QUERY : ConnectionType;
  CONNECTION_SERVICE_NAME : string;
  SCRIPT_AS_REQUEST : string;
  (** [utils.validate.is_not_none(name, value)] *)
  is_not_none : string -> option ScriptAsParameters -> World -> res unit * World;
  (** [service_provider[name]] *)
  provider_getitem : string -> World -> res ConnectionService * World;
  (** [connection_service.get_connection(owner_uri, type)]; may return [None] *)
  get_connection : ConnectionService -> string -> ConnectionType ->
                   World -> res (option ServerConnection) * World;
  (** [Scripter(connection)] *)
  Scripter : option ServerConnection -> World -> res ScripterObj * World;
  (** [scripter.script(operation, metadata)] *)
  script : ScripterObj -> string -> ObjectMetadata -> World -> res string * World;
  (** [connection.connection.broken] *)
  broken : ServerConnection -> World -> bool
}.

(** *** The service provider and the server's handler registry *)

Record handler_ref : Type := {
  handler_owner : string;
  handler_method : string
}.

Record ServiceProvider : Type := {
  provider : string;
  logger : option string
}.

Inductive log_record : Type :=
| log_info (msg : string)
| log_warn (msg : string)
| log_exception (msg : string).

(** Modelled from the spec: [JSONRPCServer.set_request_handler] is not
    among the modelled files. The registry maps a method name to one
    handler and registration fails with a startup error if the name is
    already present. *)
Definition set_request_handler (method : string) (h : handler_ref)
    (registry : gmap string handler_ref) : res (gmap string handler_ref) :=
  match registry !! method with
  | Some _ => Raise (Exc RuntimeError method)
  | None => Ret (<[method := h]> registry)
  end.

(** The attributes of a [ScriptingService] instance. [_provider] does not
    exist before [register] assigns it. *)
Record ScriptingService : Type := {
  _service_provider : option ServiceProvider;
  _provider : option string
}.

(** [ScriptingService.__init__] *)
Definition __init__ : ScriptingService :=
  {| _service_provider := None; _provider := None |}.

Definition _handle_script_as_request_ref : handler_ref :=
  {| handler_owner := "ScriptingService";
     handler_method := "_handle_script_as_request" |}.

(** The objects [register] mutates: the service instance, the registry of
    the provider's server and the provider's log. *)
Record reg_state : Type := {
  self : ScriptingService;
  request_handlers : gmap string handler_ref;
  reg_log : list log_record
}.

(** *** [ScriptingService.register] *)

Definition register (I : Imports) (service_provider : ServiceProvider)
    (st : reg_state) : res unit * reg_state :=
  let st1 := {| self := {| _service_provider := Some service_provider;
                           _provider := _provider (self st) |};
                request_handlers := request_handlers st;
                reg_log := reg_log st |} in
  match set_request_handler (SCRIPT_AS_REQUEST I) _handle_script_as_request_ref
          (request_handlers st1) with
  | Raise e => (Raise e, st1)
  | Ret registry =>
      let st2 := {| self := {| _service_provider := Some service_provider;
                               _provider := Some (provider service_provider) |};
                    request_handlers := registry;
                    reg_log := reg_log st1 |} in
      match logger service_provider with
      | Some _ =>
          (Ret tt,
           {| self := self st2;
              request_handlers := request_handlers st2;
              reg_log := reg_log st2 ++
                         [log_info "Scripting service successfully initialized"] |})
      | None => (Ret tt, st2)
      end
  end.

(** *** The request handler

    The handler acts on the collaborators' world, on its request context
    (the terminal actions taken on it, oldest first) and on the log. Its
    frame holds the local variable [connection], which is unbound until
    the assignment in the [try] block has run. [send_response] and
    [send_error] themselves return. *)

Inductive ctx_action : Type :=
| send_response (response : ScriptAsResponse)
| send_error (message : string) (data : option ScriptAsParameters).

Section Handler.

Context (I : Imports).

Record hstate : Type := {
  world : World I;
  request_context : list ctx_action;
  log : list log_record;
  connection : option (option (ServerConnection I))
}.

(** A computation returns, raises, or ([None]) has used up the bound on
    the depth of calls. *)
Definition M (A : Type) : Type := hstate -> option (res A) * hstate.

Definition ret {A} (a : A) : M A := fun st => (Some (Ret a), st).

Definition raise {A} (e : exc) : M A := fun st => (Some (Raise e), st).

Definition mbind {A B} (m : M A) (k : A -> M B) : M B :=
  fun st =>
    match m st with
    | (Some (Ret a), st') => k a st'
    | (Some (Raise e), st') => (Some (Raise e), st')
    | (None, st') => (None, st')
    end.

(** [try: m  except Exception as e: ...]: the outcome of [m] as a value *)
Definition catch {A} (m : M A) : M (res A) :=
  fun st =>
    match m st with
    | (Some r, st') => (Some (Ret r), st')
    | (None, st') => (None, st')
    end.

Definition lift {A} (r : res A) : M A := fun st => (Some r, st).

(** a call of a collaborator *)
Definition call {A} (f : World I -> res A * World I) : M A :=
  fun st =>
    let (r, w) := f (world st) in
    (Some r, {| world := w; request_context := request_context st;
                log := log st; connection := connection st |}).

Definition on_context (a : ctx_action) : M unit :=
  fun st =>
    (Some (Ret tt), {| world := world st;
                       request_context := request_context st ++ [a];
                       log := log st; connection := connection st |}).

Definition write_log (r : log_record) : M unit :=
  fun st =>
    (Some (Ret tt), {| world := world st; request_context := request_context st;
                       log := log st ++ [r]; connection := connection st |}).

(** [connection = c] *)
Definition assign_connection (c : option (ServerConnection I)) : M unit :=
  fun st =>
    (Some (Ret tt), {| world := world st; request_context := request_context st;
                       log := log st; connection := Some c |}).

(** reading the local [connection] *)
Definition read_connection : M (option (ServerConnection I)) :=
  fun st =>
    match connection st with
    | Some c => (Some (Ret c), st)
    | None =>
        (Some (Raise (Exc UnboundLocalError
           "cannot access local variable 'connection' where it is not associated with a value")),
         st)
    end.

Definition read_broken (c : ServerConnection I) : M bool :=
  fun st => (Some (Ret (broken I c (world st))), st).

(** a call of a function of this module: it runs in a frame of its own *)
Definition in_new_frame {A} (m : M A) : M A :=
  fun st =>
    let (r, st') := m {| world := world st; request_context := request_context st;
                         log := log st; connection := None |} in
    (r, {| world := world st'; request_context := request_context st';
           log := log st'; connection := connection st |}).

Definition out_of_fuel {A} : M A := fun st => (None, st).

End Handler.

Arguments world {I} h.
Arguments request_context {I} h.
Arguments log {I} h.
Arguments connection {I} h.
Arguments ret {I A} a.
Arguments raise {I A} e.
Arguments mbind {I A B} m k.
Arguments catch {I A} m.
Arguments lift {I A} r.
Arguments call {I A} f.
Arguments on_context {I} a.
Arguments write_log {I} r.
Arguments assign_connection {I} c.
Arguments read_connection {I}.
Arguments read_broken {I} c.
Arguments in_new_frame {I A} m.
Arguments out_of_fuel {I A}.

Declare Scope handler_scope.
Delimit Scope handler_scope with handler.
Notation "x <- m ;; k" := (mbind m (fun x => k))
  (at level 100, m at next level, right associativity) : handler_scope.
Notation "m ;; k" := (mbind m (fun _ => k))
  (at level 100, right associativity) : handler_scope.

Section Requests.

Context (I : Imports).

Local Open Scope handler_scope.

(** [ScriptingService._request_error] *)
Definition _request_error (service_provider : ServiceProvider)
    (params : option ScriptAsParameters) (message : string) : M I unit :=
  match logger service_provider with
  | Some _ => write_log (log_exception "Scripting operation failed")
  | None => ret tt
  end ;;
  on_context (send_error message params).

(** [params.operation], where [params] may be [None] *)
Definition params_object (params : option ScriptAsParameters) : M I ScriptAsParameters :=
  match params with
  | Some p => ret p
  | None => raise (Exc AttributeError "'NoneType' object has no attribute 'operation'")
  end.

(** [service_provider.logger.warn(msg)] *)
Definition logger_warn (service_provider : ServiceProvider) (msg : string) : M I unit :=
  match logger service_provider with
  | Some _ => write_log (log_warn msg)
  | None => raise (Exc AttributeError "'NoneType' object has no attribute 'warn'")
  end.

(** The [try] block of the handler, lines 54 to 62. *)
Definition script_as_body (params : option ScriptAsParameters) : M I unit :=
  p <- params_object params ;;
  let scripting_operation := operation p in
  connection_service <- call (provider_getitem I (CONNECTION_SERVICE_NAME I)) ;;
  c <- call (get_connection I connection_service (owner_uri p) (QUERY I)) ;;
  assign_connection c ;;
  object_metadata <- lift (create_metadata p) ;;
  scripter <- call (Scripter I c) ;;
  script_ <- call (script I scripter scripting_operation object_metadata) ;;
  on_context (send_response {| response_owner_uri := owner_uri p;
                               response_script := script_ |}).

(** [connection is not None and connection.connection.broken and not retry_state] *)
Definition should_retry (retry_state : bool) : M I bool :=
  c <- read_connection ;;
  match c with
  | None => ret false
  | Some conn => b <- read_broken conn ;; ret (b && negb retry_state)
  end.

(** The body of [ScriptingService._handle_script_as_request], lines 47 to
    68, run in a frame of its own. [self_call] is the call
    [self._handle_script_as_request(request_context, params, True)] of
    line 66. *)
Definition script_as_request (self_call : M I unit) (service_provider : ServiceProvider)
    (params : option ScriptAsParameters) (retry_state : bool) : M I unit :=
  in_new_frame
    (validated <- catch (call (is_not_none I "params" params)) ;;
     match validated with
     | Raise e => _request_error service_provider params (str e)
     | Ret _ =>
         outcome <- catch (script_as_body params) ;;
         match outcome with
         | Ret _ => ret tt
         | Raise e =>
             retry <- should_retry retry_state ;;
             if (retry : bool) then
               logger_warn service_provider
                 "Server closed the connection unexpectedly. Attempting to reconnect..." ;;
               self_call
             else
               _request_error service_provider params (str e)
         end
     end).

(** [ScriptingService._handle_script_as_request]. [fuel] bounds the depth
    of the recursive calls. *)
Fixpoint _handle_script_as_request (fuel : nat) (service_provider : ServiceProvider)
    (params : option ScriptAsParameters) (retry_state : bool) : M I unit :=
  match fuel with
  | O => out_of_fuel
  | S fuel' =>
      script_as_request (_handle_script_as_request fuel' service_provider params true)
        service_provider params retry_state
  end.

(** The state in which the host invokes a handler: nothing was done on
    the fresh request context yet. *)
Definition initial (w : World I) (l : list log_record) : hstate I :=
  {| world := w; request_context := []; log := l; connection := None |}.

End Requests.

(** What a run of the handler leaves on the request context: exactly one
    terminal action when the handler returns, none when an exception
    leaves it. *)
Definition settled (I : Imports) (st : hstate I) (run : option (res unit) * hstate I) : Prop :=
  connection (snd run) = connection st /\
  match fst run with
  | Some (Ret _) => exists a, request_context (snd run) = request_context st ++ [a]
  | _ => request_context (snd run) = request_context st
  end.

Arguments settled {I} st run.

Definition warning : log_record :=
  log_warn "Server closed the connection unexpectedly. Attempting to reconnect...".

(** the first attempt has failed on a connection found broken *)
Definition broken_failure (I : Imports) (params : option ScriptAsParameters) (st st2 : hstate I) : Prop :=
  exists (w1 : World I) (e1 : exc) (conn : ServerConnection I),
    is_not_none I "params" params (world st) = (Ret tt, w1) /\
    script_as_body I params {| world := w1; request_context := request_context st;
                               log := log st; connection := None |}
      = (Some (Raise e1), st2) /\
    connection st2 = Some (Some conn) /\
    broken I conn (world st2) = true.

Arguments broken_failure {I} params st st2.

End Scripting.

(** ** The process entry point *)

Module Main.

(** *** The run of the process

    A run is the sequence of the calls the script makes to the outside
    (events, oldest first) and the way it ends. *)

Inductive service_class : Type :=
| AdminService
| CapabilitiesService
| ConnectionService
| DisasterRecoveryService
| LanguageService
| MetadataService
| ObjectExplorerService
| QueryExecutionService
| ScriptingService
| WorkspaceService
| EditDataService
| TaskService.

Inductive input_stream : Type :=
| input_file (path : string)
| standard_input.

Abbreviation ConfigParser := (gmap string (gmap string string)).

Inductive event : Type :=
| open_input (path : string)
| debugpy_listen (port : Z)
| debugpy_wait_for_client
| add_file_handler (log_dir : string)
| add_null_handler
| add_console_handler
| logger_debug (msg : string)
| logger_info (msg : string)
| open_standard_input
| open_standard_output
| new_stream_server (input : input_stream)
| new_web_server (listen_address : string) (listen_port : Z)
    (disable_keep_alive debug_web_server enable_dynamic_cors : bool)
    (config : ConfigParser)
| service_register (name : string) (cls : service_class)
| service_initialize (name : string) (cls : service_class)
| generate_requests_markdown
| server_start
| server_wait_for_exit.

Inductive exit : Type :=
| parser_error (msg : string)
| uncaught (e : exc).

Inductive outcome (A : Type) : Type :=
| Done (a : A)
| Exit (x : exit).
Arguments Done {A} a.
Arguments Exit {A} x.

Definition Proc (A : Type) : Type := (list event * outcome A)%type.

Definition ret {A} (a : A) : Proc A := ([], Done a).

Definition bind {A B} (m : Proc A) (k : A -> Proc B) : Proc B :=
  match m with
  | (t, Done a) => let (t', r) := k a in (t ++ t', r)
  | (t, Exit x) => (t, Exit x)
  end.

Definition emit (e : event) : Proc unit := ([e], Done tt).

Definition stop {A} (x : exit) : Proc A := ([], Exit x).

(** a fallible pure call; an exception ends the run *)
Definition eval {A} (r : res A) : Proc A :=
  match r with
  | Ret a => ret a
  | Raise e => stop (uncaught e)
  end.

(** a call to the outside that may raise *)
Definition attempt (e : event) (raises : option exc) : Proc unit :=
  match raises with
  | None => emit e
  | Some x => ([e], Exit (uncaught x))
  end.

Definition trace {A} (m : Proc A) : list event := fst m.
Definition result {A} (m : Proc A) : outcome A := snd m.

Declare Scope proc_scope.
Delimit Scope proc_scope with proc.
Notation "x <- m ;; k" := (bind m (fun x => k))
  (at level 100, m at next level, right associativity) : proc_scope.
Notation "m ;; k" := (bind m (fun _ => k))
  (at level 100, right associativity) : proc_scope.

(** *** What the script imports and what it is run with *)

Record Imports : Type := {
  (** [ossdbtoolsservice.utils.bool.str_to_bool] *)
  str_to_bool : string -> res bool;
  (** the built-in [int] on a string *)
  int : string -> res Z;
  PG_PROVIDER_NAME : string;
  SUPPORTED_PROVIDERS : list string;
  ADMIN_SERVICE_NAME : string;
  CAPABILITIES_SERVICE_NAME : string;
  CONNECTION_SERVICE_NAME : string;
  DISASTER_RECOVERY_SERVICE_NAME : string;
  LANGUAGE_SERVICE_NAME : string;
  METADATA_SERVICE_NAME : string;
  OBJECT_EXPLORER_NAME : string;
  QUERY_EXECUTION_SERVICE_NAME : string;
  SCRIPTING_SERVICE_NAME : string;
  WORKSPACE_SERVICE_NAME : string;
  EDIT_DATA_SERVICE_NAME : string;
  TASK_SERVICE_NAME : string
}.

(** What was given on the command line: a [store_true] flag is present
    or not, an option with a value is absent or carries its raw text. *)
Record CommandLine : Type := {
  opt_generate_markdown : bool;
  opt_input : option string;
  opt_enable_web_server : bool;
  opt_listen_address : option string;
  opt_listen_port : option string;
  opt_debug_web_server : bool;
  opt_disable_keep_alive : bool;
  opt_enable_dynamic_cors : bool;
  opt_enable_remote_debugging : option (option string);
  opt_enable_remote_debugging_wait : option (option string);
  opt_log_dir : option string;
  opt_console_logging : bool;
  opt_provider : option string
}.

Record Outside : Type := {
  (** the contents of [config.ini] as read by [config.read] *)
  config : ConfigParser;
  (** [os.environ] *)
  environ : gmap string string;
  (** [os.path.dirname(sys.argv[0])] *)
  program_dir : string;
  command_line : CommandLine;
  (** which calls to the outside raise *)
  open_input_raises : string -> option exc;
  debugpy_listen_raises : Z -> option exc;
  log_file_raises : bool;
  service_register_raises : string -> service_class -> option exc;
  service_initialize_raises : string -> service_class -> option exc
}.

(** The namespace returned by [parser.parse_args()]. *)
Record Args : Type := {
  generate_markdown : bool;
  input : option string;
  enable_web_server : bool;
  listen_address : string;
  listen_port : Z;
  debug_web_server : bool;
  disable_keep_alive : bool;
  enable_dynamic_cors : bool;
  enable_remote_debugging : option Z;
  enable_remote_debugging_wait : option Z;
  log_dir : string;
  console_logging : bool;
  provider : option string
}.

(** *** Lines 81 to 125: configuration, environment, command line *)

Section Script.

Context (I : Imports) (o : Outside).

Local Open Scope proc_scope.

(** [config.get(section, option, fallback=...)] *)
Definition config_get (section option_ fallback : string) : string :=
  match config o !! section with
  | Some items => default fallback (items !! option_)
  | None => fallback
  end.

(** [os.getenv(name, default)] *)
Definition getenv (name default_ : string) : string :=
  default default_ (environ o !! name).

(** the [defaults] dict, lines 86 to 94 *)
Definition defaults (key : string) : string :=
  if String.eqb key "log_dir" then config_get "general" "log_dir" (program_dir o)
  else if String.eqb key "enable_web_server" then config_get "server" "enable_web_server" "false"
  else if String.eqb key "listen_address" then config_get "server" "listen_address" "0.0.0.0"
  else if String.eqb key "listen_port" then config_get "server" "listen_port" "8443"
  else if String.eqb key "console_logging" then config_get "server" "console_logging" "false"
  else if String.eqb key "disable_keep_alive" then config_get "server" "disable_keep_alive" "false"
  else if String.eqb key "enable_dynamic_cors" then config_get "server" "enable_dynamic_cors" "false"
  else "".

Definition log_dir_env : string := getenv "LOG_DIR" (defaults "log_dir").
Definition enable_web_server_env : string :=
  getenv "ENABLE_WEB_SERVER" (defaults "enable_web_server").
Definition listen_address_env : string :=
  getenv "LISTEN_ADDRESS" (defaults "listen_address").
Definition listen_port_env : string := getenv "LISTEN_PORT" (defaults "listen_port").
Definition console_logging_env : string :=
  getenv "CONSOLE_LOGGING" (defaults "console_logging").
Definition disable_keep_alive_env : string :=
  getenv "DISABLE_KEEP_ALIVE" (defaults "disable_keep_alive").
Definition enable_dynamic_cors_env : string :=
  getenv "ENABLE_DYNAMIC_CORS" (defaults "enable_dynamic_cors").

(** an argument declared with [action='store_true', default=d] *)
Definition store_true (present default_ : bool) : bool :=
  if present then true else default_.

(** an argument declared with [type=int]: the raw text is converted,
    a text that is no integer is a usage error *)
Definition int_argument (flag raw : string) : Proc Z :=
  match int I raw with
  | Ret z => ret z
  | Raise _ => stop (parser_error (flag +:+ ": invalid int value"))
  end.

(** an argument declared with [type=int, nargs='?', const=3000] *)
Definition optional_port (flag : string) (given : option (option string))
  : Proc (option Z) :=
  match given with
  | None => ret None
  | Some None => ret (Some 3000%Z)
  | Some (Some raw) => z <- int_argument flag raw ;; ret (Some z)
  end.

(** Lines 106 to 125. The defaults handed to [add_argument] are
    computed when the arguments are declared, before [parse_args]. *)
Definition parse_args : Proc Args :=
  let cl := command_line o in
  enable_web_server_default <- eval (str_to_bool I enable_web_server_env) ;;
  listen_port_default <- eval (int I listen_port_env) ;;
  disable_keep_alive_default <- eval (str_to_bool I disable_keep_alive_env) ;;
  enable_dynamic_cors_default <- eval (str_to_bool I enable_dynamic_cors_env) ;;
  console_logging_default <- eval (str_to_bool I console_logging_env) ;;
  listen_port_ <- match opt_listen_port cl with
                  | Some raw => int_argument "--listen-port" raw
                  | None => ret listen_port_default
                  end ;;
  remote_debugging <- optional_port "--enable-remote-debugging"
                        (opt_enable_remote_debugging cl) ;;
  remote_debugging_wait <- optional_port "--enable-remote-debugging-wait"
                             (opt_enable_remote_debugging_wait cl) ;;
  ret {| generate_markdown := store_true (opt_generate_markdown cl) false;
         input := opt_input cl;
         enable_web_server :=
           store_true (opt_enable_web_server cl) enable_web_server_default;
         listen_address := default listen_address_env (opt_listen_address cl);
         listen_port := listen_port_;
         debug_web_server := store_true (opt_debug_web_server cl) false;
         disable_keep_alive :=
           store_true (opt_disable_keep_alive cl) disable_keep_alive_default;
         enable_dynamic_cors :=
           store_true (opt_enable_dynamic_cors cl) enable_dynamic_cors_default;
         enable_remote_debugging := remote_debugging;
         enable_remote_debugging_wait := remote_debugging_wait;
         log_dir := default log_dir_env (opt_log_dir cl);
         console_logging :=
           store_true (opt_console_logging cl) console_logging_default;
         provider := opt_provider cl |}.

(** *** Lines 127 to 193: input file, debugger, provider, logging *)

(** truth value of an optional string and of an optional integer *)
Definition truthy_str (v : option string) : bool :=
  match v with
  | Some s => negb (String.eqb s "")
  | None => false
  end.

Definition truthy_int (v : option Z) : bool :=
  match v with
  | Some z => negb (Z.eqb z 0)
  | None => false
  end.

(** lines 128 and 129; the result is the variable [stdin] *)
Definition handle_input_file (args : Args) : Proc (option input_stream) :=
  if truthy_str (input args) then
    let path := default "" (input args) in
    attempt (open_input path) (open_input_raises o path) ;;
    ret (Some (input_file path))
  else ret None.

(** lines 132 to 149; the result is the variable [wait_for_debugger] *)
Definition handle_remote_debugging (args : Args) : Proc bool :=
  if truthy_int (enable_remote_debugging args)
     || truthy_int (enable_remote_debugging_wait args) then
    let port := if truthy_int (enable_remote_debugging args)
                then default 0%Z (enable_remote_debugging args)
                else default 0%Z (enable_remote_debugging_wait args) in
    match debugpy_listen_raises o port with
    | None => emit (debugpy_listen port)
    | Some _ =>
        emit (debugpy_listen port) ;;
        attempt (debugpy_listen (port + 1)) (debugpy_listen_raises o (port + 1)%Z)
    end ;;
    ret (truthy_int (enable_remote_debugging_wait args))
  else ret false.

(** lines 155 to 160; the result is the variable [provider_name] *)
Definition handle_provider (args : Args) : Proc string :=
  if truthy_str (provider args) then
    let provider_name := default "" (provider args) in
    if bool_decide (provider_name ∈ SUPPORTED_PROVIDERS I) then ret provider_name
    else stop (uncaught (Exc AssertionError
                 (provider_name +:+ " is not a supported provider")))
  else ret (PG_PROVIDER_NAME I).

(** lines 163 to 172 *)
Definition create_logger (args : Args) : Proc unit :=
  if log_file_raises o then emit add_null_handler
  else emit (add_file_handler (log_dir args)).

(** lines 175 to 180 *)
Definition add_console_logging (args : Args) : Proc unit :=
  if console_logging args then
    (if negb (enable_web_server args) then
       stop (parser_error
               "--console-logging can only be enabled if --enable-web-server is true")
     else ret tt) ;;
    emit add_console_handler
  else ret tt.

(** lines 183 to 185 *)
Definition await_debugger (wait_for_debugger : bool) : Proc unit :=
  if wait_for_debugger then
    emit (logger_debug "Waiting for a debugger to attach...") ;;
    emit debugpy_wait_for_client
  else ret tt.

(** lines 188 to 191; the result is the variable [stdin] *)
Definition wrap_streams (stdin : option input_stream) : Proc input_stream :=
  stdin' <- match stdin with
            | Some s => ret s
            | None => emit open_standard_input ;; ret standard_input
            end ;;
  emit open_standard_output ;;
  ret stdin'.

(** What the script has in hand once the log file is set up, and what it
    has in hand when it creates the server. *)
Record Configured : Type := {
  c_args : Args;
  c_stdin : option input_stream;
  c_wait_for_debugger : bool;
  c_provider_name : string
}.

Record Prepared : Type := {
  args_ : Args;
  stdin_ : input_stream;
  provider_name_ : string
}.

(** lines 75 to 172 *)
Definition configure : Proc Configured :=
  args <- parse_args ;;
  stdin <- handle_input_file args ;;
  wait_for_debugger <- handle_remote_debugging args ;;
  provider_name <- handle_provider args ;;
  create_logger args ;;
  ret {| c_args := args; c_stdin := stdin;
         c_wait_for_debugger := wait_for_debugger;
         c_provider_name := provider_name |}.

(** lines 183 to 193 *)
Definition announce (c : Configured) : Proc Prepared :=
  await_debugger (c_wait_for_debugger c) ;;
  stdin' <- wrap_streams (c_stdin c) ;;
  emit (logger_info (c_provider_name c +:+ " Tools Service is starting up...")) ;;
  ret {| args_ := c_args c; stdin_ := stdin'; provider_name_ := c_provider_name c |}.

(** lines 75 to 193 *)
Definition prepare : Proc Prepared :=
  c <- configure ;;
  add_console_logging (c_args c) ;;
  announce c.

(** *** Lines 32 to 70: creating the server *)

(** [d[key] = value] on a dict, which keeps the order of insertion *)
Fixpoint dict_setitem {V} (d : list (string * V)) (key : string) (value : V)
  : list (string * V) :=
  match d with
  | [] => [(key, value)]
  | (k, v) :: d' =>
      if String.eqb k key then (k, value) :: d'
      else (k, v) :: dict_setitem d' key value
  end.

(** a dict display [{k1: v1, k2: v2, ...}] *)
Definition dict_display {V} (items : list (string * V)) : list (string * V) :=
  fold_left (fun d kv => dict_setitem d (fst kv) (snd kv)) items [].

(** the [services] dict of [_create_server_init] *)
Definition services : list (string * service_class) :=
  dict_display [
    (ADMIN_SERVICE_NAME I, AdminService);
    (CAPABILITIES_SERVICE_NAME I, CapabilitiesService);
    (CONNECTION_SERVICE_NAME I, ConnectionService);
    (DISASTER_RECOVERY_SERVICE_NAME I, DisasterRecoveryService);
    (LANGUAGE_SERVICE_NAME I, LanguageService);
    (METADATA_SERVICE_NAME I, MetadataService);
    (OBJECT_EXPLORER_NAME I, ObjectExplorerService);
    (QUERY_EXECUTION_SERVICE_NAME I, QueryExecutionService);
    (SCRIPTING_SERVICE_NAME I, ScriptingService);
    (WORKSPACE_SERVICE_NAME I, WorkspaceService);
    (EDIT_DATA_SERVICE_NAME I, EditDataService);
    (TASK_SERVICE_NAME I, TaskService)
  ].

(** one phase of the start-up: the same call on every service, in map
    order; a call that raises ends the phase *)
Fixpoint phase (call : string -> service_class -> event)
    (raises : string -> service_class -> option exc)
    (entries : list (string * service_class)) : Proc unit :=
  match entries with
  | [] => ret tt
  | (name, cls) :: rest =>
      attempt (call name cls) (raises name cls) ;;
      phase call raises rest
  end.

(** Modelled from the spec: [ServiceProvider.initialize] is not among
    the modelled files. The start-up has two phases over the service
    map: [register(provider)] is called on every service, in map order,
    and after every service has registered, [initialize()] runs; a
    failure in either phase is fatal. *)
Definition ServiceProvider_initialize (entries : list (string * service_class))
  : Proc unit :=
  phase service_register (service_register_raises o) entries ;;
  phase service_initialize (service_initialize_raises o) entries.

Definition _create_server_init : Proc unit :=
  ServiceProvider_initialize services.

Definition _create_server (input_stream_ : input_stream) : Proc unit :=
  emit (new_stream_server input_stream_) ;;
  _create_server_init.

Definition _create_web_server (listen_address_ : string) (listen_port_ : Z)
    (disable_keep_alive_ debug_web_server_ enable_dynamic_cors_ : bool)
    (config_ : ConfigParser) : Proc unit :=
  emit (new_web_server listen_address_ listen_port_ disable_keep_alive_
          debug_web_server_ enable_dynamic_cors_ config_) ;;
  _create_server_init.

(** lines 196 to 208 *)
Definition create_server (p : Prepared) : Proc unit :=
  if enable_web_server (args_ p) then
    _create_web_server (listen_address (args_ p)) (listen_port (args_ p))
      (disable_keep_alive (args_ p)) (debug_web_server (args_ p))
      (enable_dynamic_cors (args_ p)) (config o)
  else
    _create_server (stdin_ p).

(** lines 211 to 216 *)
Definition serve (p : Prepared) : Proc unit :=
  if generate_markdown (args_ p) then
    emit generate_requests_markdown
  else
    emit server_start ;;
    emit server_wait_for_exit.

(** lines 75 to 208 *)
Definition startup : Proc Prepared :=
  p <- prepare ;;
  create_server p ;;
  ret p.

(** the script *)
Definition main : Proc unit :=
  p <- startup ;;
  serve p.

(** the calls of the two phases, as the run of a completed start-up shows them *)
Definition phases : list event :=
  map (fun entry => service_register (fst entry) (snd entry)) services ++
  map (fun entry => service_initialize (fst entry) (snd entry)) services.

End Script.

(** *** The configuration surface in the words of the specification *)

(** A value sourced with precedence command line, environment variable,
    config file, built-in default. [convert] turns the text of the three
    lower sources into the value. *)
Definition by_precedence {A} (convert : string -> res A) (on_command_line : option A)
    (in_environment in_config_file : option string) (built_in : string) : res A :=
  match on_command_line with
  | Some v => Ret v
  | None =>
      match in_environment with
      | Some s => convert s
      | None =>
          match in_config_file with
          | Some s => convert s
          | None => convert built_in
          end
      end
  end.

(** a flag given on the command line supplies the value [True] *)
Definition flag_value (present : bool) : option bool :=
  if present then Some true else None.

Definition in_config (o : Outside) (section option_ : string) : option string :=
  items ← config o !! section; items !! option_.

(** the integer given as [--listen-port] *)
Definition port_on_command_line (I : Imports) (o : Outside) : option Z :=
  raw ← opt_listen_port (command_line o);
  match int I raw with
  | Ret z => Some z
  | Raise _ => None
  end.

(** The seven items that have all four sources. *)
Record sourced_by_precedence (I : Imports) (o : Outside) (args : Args) : Prop := {
  listen_address_sourced :
    by_precedence Ret (opt_listen_address (command_line o))
      (environ o !! "LISTEN_ADDRESS") (in_config o "server" "listen_address")
      "0.0.0.0" = Ret (listen_address args);
  listen_port_sourced :
    by_precedence (int I) (port_on_command_line I o)
      (environ o !! "LISTEN_PORT") (in_config o "server" "listen_port")
      "8443" = Ret (listen_port args);
  enable_web_server_sourced :
    by_precedence (str_to_bool I) (flag_value (opt_enable_web_server (command_line o)))
      (environ o !! "ENABLE_WEB_SERVER") (in_config o "server" "enable_web_server")
      "false" = Ret (enable_web_server args);
  disable_keep_alive_sourced :
    by_precedence (str_to_bool I) (flag_value (opt_disable_keep_alive (command_line o)))
      (environ o !! "DISABLE_KEEP_ALIVE") (in_config o "server" "disable_keep_alive")
      "false" = Ret (disable_keep_alive args);
  enable_dynamic_cors_sourced :
    by_precedence (str_to_bool I) (flag_value (opt_enable_dynamic_cors (command_line o)))
      (environ o !! "ENABLE_DYNAMIC_CORS") (in_config o "server" "enable_dynamic_cors")
      "false" = Ret (enable_dynamic_cors args);
  console_logging_sourced :
    by_precedence (str_to_bool I) (flag_value (opt_console_logging (command_line o)))
      (environ o !! "CONSOLE_LOGGING") (in_config o "server" "console_logging")
      "false" = Ret (console_logging args);
  log_dir_sourced :
    by_precedence Ret (opt_log_dir (command_line o))
      (environ o !! "LOG_DIR") (in_config o "general" "log_dir")
      (program_dir o) = Ret (log_dir args)
}.

(** The debug-web-server flag sourced in the same way, from the variable
    [variable] of the environment and the option [option_] of the section
    [section] of the config file. *)
Definition debug_web_server_sourced (I : Imports) (variable section option_ : string)
    (o : Outside) (args : Args) : Prop :=
  by_precedence (str_to_bool I) (flag_value (opt_debug_web_server (command_line o)))
    (environ o !! variable) (in_config o section option_)
    "false" = Ret (debug_web_server args).

(** The configuration surface as the specification words it: every one of
    the eight items has the four sources, whenever the arguments resolve. *)
Definition configuration_by_precedence (I : Imports) : Prop :=
  exists variable section option_ : string,
    forall (o : Outside) (t : list event) (args : Args),
      parse_args I o = (t, Done args) ->
      sourced_by_precedence I o args /\
      debug_web_server_sourced I variable section option_ o args.

(** *** Kinds of events *)

(** the construction of a host server *)
Definition constructs_server (e : event) : bool :=
  match e with
  | new_stream_server _ | new_web_server _ _ _ _ _ _ => true
  | _ => false
  end.

(** the calls of the two phases of the start-up *)
Definition phase_call (e : event) : bool :=
  match e with
  | service_register _ _ | service_initialize _ _ => true
  | _ => false
  end.

(** the construction that lines 196 to 208 choose *)
Definition server_of (o : Outside) (p : Prepared) : event :=
  if enable_web_server (args_ p) then
    new_web_server (listen_address (args_ p)) (listen_port (args_ p))
      (disable_keep_alive (args_ p)) (debug_web_server (args_ p))
      (enable_dynamic_cors (args_ p)) (config o)
  else
    new_stream_server (stdin_ p).

(** the stream that [--input] selects *)
Definition input_of (o : Outside) : input_stream :=
  if truthy_str (opt_input (command_line o))
  then input_file (default "" (opt_input (command_line o)))
  else standard_input.

(** serving, or documenting, lines 211 to 216 *)
Definition serving (e : event) : bool :=
  match e with
  | generate_requests_markdown | server_start | server_wait_for_exit => true
  | _ => false
  end.

(** the calls made from the creation of the server on *)
Definition concerns_server (e : event) : bool :=
  match e with
  | new_stream_server _ | new_web_server _ _ _ _ _ _
  | service_register _ _ | service_initialize _ _
  | generate_requests_markdown | server_start | server_wait_for_exit => true
  | _ => false
  end.

(** the texts that become defaults of arguments can be converted *)
Definition defaults_convert (I : Imports) (o : Outside) : Prop :=
  (exists b, str_to_bool I (enable_web_server_env o) = Ret b) /\
  (exists z, int I (listen_port_env o) = Ret z) /\
  (exists b, str_to_bool I (disable_keep_alive_env o) = Ret b) /\
  (exists b, str_to_bool I (enable_dynamic_cors_env o) = Ret b) /\
  (exists b, str_to_bool I (console_logging_env o) = Ret b).

(** the texts given for the arguments of type [int] can be converted *)
Definition given_integers_convert (I : Imports) (o : Outside) : Prop :=
  forall raw,
    opt_listen_port (command_line o) = Some raw \/
    opt_enable_remote_debugging (command_line o) = Some (Some raw) \/
    opt_enable_remote_debugging_wait (command_line o) = Some (Some raw) ->
    exists z, int I raw = Ret z.

(** the same run, but for whether the log file can be opened *)
Definition with_log_file (o : Outside) (raises : bool) : Outside :=
  {| config := config o;
     environ := environ o;
     program_dir := program_dir o;
     command_line := command_line o;
     open_input_raises := open_input_raises o;
     debugpy_listen_raises := debugpy_listen_raises o;
     log_file_raises := raises;
     service_register_raises := service_register_raises o;
     service_initialize_raises := service_initialize_raises o |}.

(** the null handler in the place of the file handler *)
Definition null_for_file (e : event) : event :=
  match e with
  | add_file_handler _ => add_null_handler
  | _ => e
  end.

(** a run with every event replaced by its image *)
Definition relabel {A} (f : event -> event) (m : Proc A) : Proc A :=
  (map f (trace m), result m).

(** a log handler is attached *)
Definition attaches_handler (e : event) : bool :=
  match e with
  | add_file_handler _ | add_null_handler | add_console_handler => true
  | _ => false
  end.

(** the events of lines 75 to 193 other than the attachment of the
    console handler *)
Definition plain (e : event) : Prop :=
  concerns_server e = false /\ e <> add_console_handler.

End Main.

(** ** Node collections *)

Module Nodes.

(** The basic properties of a [NodeObject] that a collection looks at. *)
Record NodeObject : Type := {
  name : string;
  oid : option Z
}.

(** The values a collection can be indexed with. [bool] is a subclass of
    [int]; [other] stands for an object of any further class. *)
Inductive value : Type :=
| int_ (z : Z)
| bool_ (b : bool)
| str_ (s : string)
| none_
| float_ (significand exponent : Z)
| other (repr : string).

(** [isinstance(index, int)], with the integer the index compares as *)
Definition as_int (index : value) : option Z :=
  match index with
  | int_ z => Some z
  | bool_ b => Some (Z.b2z b)
  | _ => None
  end.

(** [isinstance(index, str)] *)
Definition as_str (index : value) : option string :=
  match index with
  | str_ s => Some s
  | _ => None
  end.

(** A collection: the generator, the items once loaded, and how often
    the generator has been invoked so far. The generator may answer
    differently from one invocation to the next. *)
Record NodeCollection : Type := {
  _generator : nat -> res (list NodeObject);
  _items_impl : option (list NodeObject);
  invocations : nat
}.

(** [NodeCollection.__init__] *)
Definition __init__ (generator : nat -> res (list NodeObject)) : NodeCollection :=
  {| _generator := generator; _items_impl := None; invocations := 0 |}.

(** the property [NodeCollection._items] *)
Definition _items (c : NodeCollection) : res (list NodeObject) * NodeCollection :=
  match _items_impl c with
  | Some items => (Ret items, c)
  | None =>
      match _generator c (invocations c) with
      | Ret items =>
          (Ret items, {| _generator := _generator c; _items_impl := Some items;
                         invocations := S (invocations c) |})
      | Raise e =>
          (Raise e, {| _generator := _generator c; _items_impl := None;
                       invocations := S (invocations c) |})
      end
  end.

(** the loop of [__getitem__], lines 330 to 335 *)
Fixpoint look_up (lookup : NodeObject -> bool) (items : list NodeObject)
  : res NodeObject :=
  match items with
  | [] => Raise (Exc NameError "An item with the provided index does not exist")
  | item :: rest => if lookup item then Ret item else look_up lookup rest
  end.

(** lines 320 to 327: how the item is looked up, or [TypeError] *)
Definition lookup_by (index : value) : res (NodeObject -> bool) :=
  match as_int index with
  | Some z => Ret (fun x => bool_decide (oid x = Some z))
  | None =>
      match as_str index with
      | Some s => Ret (fun x => bool_decide (name x = s))
      | None => Raise (Exc TypeError "Index must be either a string or int")
      end
  end.

(** [NodeCollection.__getitem__] *)
Definition __getitem__ (c : NodeCollection) (index : value)
  : res NodeObject * NodeCollection :=
  match lookup_by index with
  | Raise e => (Raise e, c)
  | Ret lookup =>
      match _items c with
      | (Ret items, c') => (look_up lookup items, c')
      | (Raise e, c') => (Raise e, c')
      end
  end.

(** [NodeCollection.reset] *)
Definition reset (c : NodeCollection) : NodeCollection :=
  {| _generator := _generator c; _items_impl := None; invocations := invocations c |}.

(** [NodeCollection.refresh] *)
Definition refresh (c : NodeCollection) : NodeCollection := reset c.

(** [NodeCollection.__len__] *)
Definition __len__ (c : NodeCollection) : res nat * NodeCollection :=
  match _items c with
  | (Ret items, c') => (Ret (length items), c')
  | (Raise e, c') => (Raise e, c')
  end.

(** [NodeCollection.__iter__]: the items the iterator yields, in order *)
Definition __iter__ (c : NodeCollection) : res (list NodeObject) * NodeCollection :=
  _items c.

(** the collection after it was indexed with each of [indexes] in turn *)
Definition indexed (c : NodeCollection) (indexes : list value) : NodeCollection :=
  fold_left (fun c index => snd (__getitem__ c index)) indexes c.

(** [x] is the first item of [items] that satisfies [P]. *)
Definition first_such (P : NodeObject -> Prop) (items : list NodeObject)
    (x : NodeObject) : Prop :=
  exists before after,
    items = before ++ x :: after /\ P x /\ Forall (fun y => ~ P y) before.

(** What indexing does once the way of looking up is fixed: it returns
    the first item that satisfies [P], and raises [NameError] when no
    item does. *)
Definition finds (c c' : NodeCollection) (index : value)
    (items : list NodeObject) (P : NodeObject -> Prop) : Prop :=
  (forall x, first_such P items x -> __getitem__ c index = (Ret x, c')) /\
  (Forall (fun y => ~ P y) items ->
   exists msg, __getitem__ c index = (Raise (Exc NameError msg), c')).

End Nodes.

(** ** Lazy property collections *)

Module LazyProperties.

(** A row of properties, [Dict[str, Optional[Union[str, int, bool]]]]. *)
Abbreviation properties := (gmap string Nodes.value).

(** A collection of properties: the generator, the properties once
    loaded, and how often the generator has been invoked so far. The
    generator returns a dict, or [None] as [_property_generator] does when
    its query has no row. *)
Record NodeLazyPropertyCollection : Type := {
  _generator : nat -> res (option properties);
  _items_impl : option properties;
  invocations : nat
}.

(** [NodeLazyPropertyCollection.__init__] *)
Definition __init__ (generator : nat -> res (option properties))
  : NodeLazyPropertyCollection :=
  {| _generator := generator; _items_impl := None; invocations := 0 |}.

(** the property [NodeLazyPropertyCollection._items] *)
Definition _items (c : NodeLazyPropertyCollection)
  : res (option properties) * NodeLazyPropertyCollection :=
  match _items_impl c with
  | Some items => (Ret (Some items), c)
  | None =>
      match _generator c (invocations c) with
      | Ret items =>
          (Ret items, {| _generator := _generator c; _items_impl := items;
                         invocations := S (invocations c) |})
      | Raise e =>
          (Raise e, {| _generator := _generator c; _items_impl := None;
                       invocations := S (invocations c) |})
      end
  end.

(** [NodeLazyPropertyCollection.__getitem__] *)
Definition __getitem__ (c : NodeLazyPropertyCollection) (index : Nodes.value)
  : res Nodes.value * NodeLazyPropertyCollection :=
  match Nodes.as_str index with
  | None => (Raise (Exc TypeError "Index must be a string"), c)
  | Some key =>
      match _items c with
      | (Ret (Some items), c') => (dict_getitem items key, c')
      | (Ret None, c') =>
          (Raise (Exc TypeError "'NoneType' object is not subscriptable"), c')
      | (Raise e, c') => (Raise e, c')
      end
  end.

(** [NodeLazyPropertyCollection.__len__] *)
Definition __len__ (c : NodeLazyPropertyCollection)
  : res nat * NodeLazyPropertyCollection :=
  match _items c with
  | (Ret (Some items), c') => (Ret (size items), c')
  | (Ret None, c') => (Raise (Exc TypeError "object of type 'NoneType' has no len()"), c')
  | (Raise e, c') => (Raise e, c')
  end.

(** [NodeLazyPropertyCollection.get] *)
Definition get (c : NodeLazyPropertyCollection) (item : string) (default_ : Nodes.value)
  : res Nodes.value * NodeLazyPropertyCollection :=
  match _items c with
  | (Ret (Some items), c') => (Ret (default default_ (items !! item)), c')
  | (Ret None, c') =>
      (Raise (Exc AttributeError "'NoneType' object has no attribute 'get'"), c')
  | (Raise e, c') => (Raise e, c')
  end.

(** the collection after each of [keys] was looked up in turn *)
Definition looked_up (c : NodeLazyPropertyCollection) (keys : list string)
  : NodeLazyPropertyCollection :=
  fold_left (fun c key => snd (__getitem__ c (Nodes.str_ key))) keys c.

(** [NodeLazyPropertyCollection.reset] *)
Definition reset (c : NodeLazyPropertyCollection) : NodeLazyPropertyCollection :=
  {| _generator := _generator c; _items_impl := None; invocations := invocations c |}.

End LazyProperties.

(** ** Node objects *)

Module Objects.

(** A node of the object model, with what the methods below look at: the
    name of its class, its name, its object id and its parent. *)
#[warnings="-register-all"]
Inductive NodeObject : Type :=
  Node (class_name : string) (_name : string) (_oid : option Z)
       (_parent : option NodeObject).

Definition class_name (self : NodeObject) : string :=
  match self with Node c _ _ _ => c end.

(** the property [NodeObject.oid] *)
Definition oid (self : NodeObject) : option Z :=
  match self with Node _ _ o _ => o end.

(** the property [NodeObject.parent] *)
Definition parent (self : NodeObject) : option NodeObject :=
  match self with Node _ _ _ p => p end.

(** [NodeObject.get_database_node] *)
Fixpoint get_database_node (self : NodeObject) : option NodeObject :=
  match self with
  | Node cls _ _ None => if String.eqb cls "Database" then Some self else None
  | Node _ _ _ (Some p) => get_database_node p
  end.

(** the node at the top of the chain of parents *)
Fixpoint root (self : NodeObject) : NodeObject :=
  match self with
  | Node _ _ _ None => self
  | Node _ _ _ (Some p) => root p
  end.

(** an object id as a template variable *)
Definition oid_value (o : option Z) : Nodes.value :=
  match o with
  | Some z => Nodes.int_ z
  | None => Nodes.none_
  end.

(** What the queries of a node class go through, all of it outside the
    modelled file: the rendering of a template with its variables (with
    [_template_root], [_macro_root], [get_template_path] and the server
    version), the execution of the SQL on a connection, which returns the
    rows as dicts, the connections of the server and of a database node,
    [_from_node_query] and [extended_vars] of the class. *)
Record Backend : Type := {
  Connection : Type;
  Built : Type;
  render_nodes : gmap string Nodes.value -> res string;
  render_properties : gmap string Nodes.value -> res string;
  execute_dict : Connection -> string -> res (list LazyProperties.properties);
  server_connection : Connection;
  connection_of : NodeObject -> Connection;
  _from_node_query : option NodeObject -> LazyProperties.properties -> res Built;
  extended_vars : NodeObject -> gmap string Nodes.value
}.

(** [[f(row) for row in rows]], where [f] may raise *)
Fixpoint comprehension {A B} (f : A -> res B) (rows : list A) : res (list B) :=
  match rows with
  | [] => Ret []
  | row :: rest =>
      match f row with
      | Raise e => Raise e
      | Ret b =>
          match comprehension f rest with
          | Raise e => Raise e
          | Ret bs => Ret (b :: bs)
          end
      end
  end.

(** the template variables of [get_nodes_for_parent], lines 30 to 34 *)
Definition nodes_template_vars (parent_obj : option NodeObject)
    (context_args : option (gmap string Nodes.value)) : gmap string Nodes.value :=
  match parent_obj with
  | Some p => <["parent_id" := oid_value (oid p)]> ∅
  | None =>
      match context_args with
      | Some args => if bool_decide (args = ∅) then ∅ else args
      | None => ∅
      end
  end.

(** [NodeObject.get_nodes_for_parent]: the result, and the queries
    executed with the connection each ran on *)
Definition get_nodes_for_parent (B : Backend) (parent_obj : option NodeObject)
    (context_args : option (gmap string Nodes.value))
  : res (list (Built B)) * list (Connection B * string) :=
  match render_nodes B (nodes_template_vars parent_obj context_args) with
  | Raise e => (Raise e, [])
  | Ret sql =>
      match parent_obj with
      | None =>
          match execute_dict B (server_connection B) sql with
          | Raise e => (Raise e, [(server_connection B, sql)])
          | Ret rows =>
              (comprehension (_from_node_query B parent_obj) rows,
               [(server_connection B, sql)])
          end
      | Some p =>
          match get_database_node p with
          | None =>
              (Raise (Exc AttributeError "'NoneType' object has no attribute 'connection'"),
               [])
          | Some database_node =>
              match execute_dict B (connection_of B database_node) sql with
              | Raise e => (Raise e, [(connection_of B database_node, sql)])
              | Ret rows =>
                  (comprehension (_from_node_query B parent_obj) rows,
                   [(connection_of B database_node, sql)])
              end
          end
      end
  end.

(** the property [NodeObject.template_vars]; the entries of
    [extended_vars] win *)
Definition template_vars (B : Backend) (self : NodeObject) : gmap string Nodes.value :=
  extended_vars B self ∪ <["oid" := oid_value (oid self)]> ∅.

(** [NodeObject._property_generator]: the first row of the properties
    query, [None] when it has no row *)
Definition _property_generator (B : Backend) (self : NodeObject)
  : res (option LazyProperties.properties) * list (Connection B * string) :=
  match render_properties B (template_vars B self) with
  | Raise e => (Raise e, [])
  | Ret sql =>
      match execute_dict B (server_connection B) sql with
      | Raise e => (Raise e, [(server_connection B, sql)])
      | Ret rows => (Ret (head rows), [(server_connection B, sql)])
      end
  end.

(** the full properties of a node, as [NodeObject.__init__] registers
    them; [B k] is the backend as it answers at the invocation number [k]
    of the generator *)
Definition _full_properties (B : nat -> Backend) (self : NodeObject)
  : LazyProperties.NodeLazyPropertyCollection :=
  LazyProperties.__init__ (fun k => fst (_property_generator (B k) self)).

(** The collections a node has registered. *)
Record Collections : Type := {
  _child_collections : gmap string Nodes.NodeCollection;
  _property_collections : list LazyProperties.NodeLazyPropertyCollection
}.

(** the collections set up by [NodeObject.__init__]: no child collection,
    and the full properties of the node *)
Definition __init__ (property_generator : nat -> res (option LazyProperties.properties))
  : Collections :=
  {| _child_collections := ∅;
     _property_collections := [LazyProperties.__init__ property_generator] |}.

(** [NodeObject._register_child_collection], for the class named [class_] *)
Definition _register_child_collection (class_ : string)
    (generator : nat -> res (list Nodes.NodeObject)) (self : Collections)
  : Nodes.NodeCollection * Collections :=
  let collection := Nodes.__init__ generator in
  (collection,
   {| _child_collections := <[class_ := collection]> (_child_collections self);
      _property_collections := _property_collections self |}).

(** [NodeObject._register_property_collection] *)
Definition _register_property_collection
    (generator : nat -> res (option LazyProperties.properties)) (self : Collections)
  : LazyProperties.NodeLazyPropertyCollection * Collections :=
  let collection := LazyProperties.__init__ generator in
  (collection,
   {| _child_collections := _child_collections self;
      _property_collections := _property_collections self ++ [collection] |}).

(** [NodeObject._refresh_child_collections] *)
Definition _refresh_child_collections (self : Collections) : Collections :=
  {| _child_collections := Nodes.reset <$> _child_collections self;
     _property_collections := LazyProperties.reset <$> _property_collections self |}.

(** [NodeObject.refresh] *)
Definition refresh (self : Collections) : Collections :=
  _refresh_child_collections self.

End Objects.

(** ** Sample inputs *)

Module Samples.

Definition view : Nodes.NodeObject := {| Nodes.name := "viewname"; Nodes.oid := Some 123%Z |}.
Definition table : Nodes.NodeObject := {| Nodes.name := "tablename"; Nodes.oid := Some 7%Z |}.
Definition shadow : Nodes.NodeObject := {| Nodes.name := "viewname"; Nodes.oid := Some 123%Z |}.

(** a collection that was not loaded yet *)
Definition views : Nodes.NodeCollection :=
  Nodes.__init__ (fun _ => Ret [table; view; shadow]).

Definition views_loaded : Nodes.NodeCollection :=
  {| Nodes._generator := Nodes._generator views;
     Nodes._items_impl := Some [table; view; shadow];
     Nodes.invocations := 1 |}.

(** A request for the script of one table. *)
Definition script_table : Scripting.ScriptAsParameters :=
  {| Scripting.owner_uri := "file:///query.sql";
     Scripting.operation := "Create";
     Scripting.scripting_objects :=
       [ <["type" := "Table"]> (<["schema" := "public"]> (<["name" := "person"]> ∅));
         <["type" := "View"]> ∅ ] |}.

Definition no_objects : Scripting.ScriptAsParameters :=
  {| Scripting.owner_uri := "file:///query.sql";
     Scripting.operation := "Create";
     Scripting.scripting_objects := [] |}.

(** Collaborators of the scripting handler. The world counts the calls of
    [get_connection]; a scenario says which calls raise and whether the
    connection is found broken. *)
Record scenario : Type := {
  validation_raises : bool;
  connecting_raises : nat -> bool;
  scripting_raises : nat -> bool;
  found_broken : bool
}.

Definition collaborators (sc : scenario) : Scripting.Imports :=
  {| Scripting.World := nat;
     Scripting.ConnectionService := unit;
     Scripting.ServerConnection := nat;
     Scripting.ScripterObj := nat;
     Scripting.ConnectionType := unit;
     Scripting.QUERY := tt;
     Scripting.CONNECTION_SERVICE_NAME := "connection";
     Scripting.SCRIPT_AS_REQUEST := "scripting/script";
     Scripting.is_not_none := fun _ value w =>
       (if validation_raises sc || bool_decide (value = None)
        then Raise (Exc ValueError "Invalid value for params")
        else Ret tt, w);
     Scripting.provider_getitem := fun _ w => (Ret tt, w);
     Scripting.get_connection := fun _ _ _ w =>
       (if connecting_raises sc w
        then Raise (Exc ValueError "could not connect to the server")
        else Ret (Some w), S w);
     Scripting.Scripter := fun c w => (Ret (default 0 c), w);
     Scripting.script := fun _ _ _ w =>
       (if scripting_raises sc w
        then Raise (Exc RuntimeError "server closed the connection")
        else Ret "CREATE TABLE public.person();", w);
     Scripting.broken := fun _ _ => found_broken sc |}.

(** every collaborator answers *)
Definition all_well : scenario :=
  {| validation_raises := false; connecting_raises := fun _ => false;
     scripting_raises := fun _ => false; found_broken := false |}.

(** no connection can be obtained for the owner URI *)
Definition no_connection : scenario :=
  {| validation_raises := false; connecting_raises := fun _ => true;
     scripting_raises := fun _ => false; found_broken := false |}.

(** the server goes away while the script is made, and is back for the retry *)
Definition server_restarted : scenario :=
  {| validation_raises := false; connecting_raises := fun _ => false;
     scripting_raises := fun calls => bool_decide (calls = 1); found_broken := true |}.

(** the server goes away while the script is made, and stays away *)
Definition server_gone : scenario :=
  {| validation_raises := false; connecting_raises := fun calls => bool_decide (calls = 1);
     scripting_raises := fun _ => true; found_broken := true |}.

(** the connection is broken and scripting fails on every attempt *)
Definition scripting_keeps_failing : scenario :=
  {| validation_raises := false; connecting_raises := fun _ => false;
     scripting_raises := fun _ => true; found_broken := true |}.

(** scripting fails on a connection that is in order *)
Definition scripting_fails : scenario :=
  {| validation_raises := false; connecting_raises := fun _ => false;
     scripting_raises := fun _ => true; found_broken := false |}.

(** a request whose first object has no schema *)
Definition view_without_schema : Scripting.ScriptAsParameters :=
  {| Scripting.owner_uri := "file:///query.sql";
     Scripting.operation := "Create";
     Scripting.scripting_objects := [ <["type" := "View"]> (<["name" := "v"]> ∅) ] |}.

Definition with_logger : Scripting.ServiceProvider :=
  {| Scripting.provider := "PGSQL"; Scripting.logger := Some "ossdbtoolsservice" |}.

Definition without_logger : Scripting.ServiceProvider :=
  {| Scripting.provider := "PGSQL"; Scripting.logger := None |}.

Definition fresh_registration : Scripting.reg_state :=
  {| Scripting.self := Scripting.__init__;
     Scripting.request_handlers := ∅;
     Scripting.reg_log := [] |}.

(** a request handled from the start, with room for two nested calls *)
Definition handle (sc : scenario) (sp : Scripting.ServiceProvider)
    (params : option Scripting.ScriptAsParameters) :=
  Scripting._handle_script_as_request (collaborators sc) 2 sp params false
    (Scripting.initial (collaborators sc) 0 []).

(** What the entry point imports: decimal digits for [int], the usual
    spellings of truth for [str_to_bool]. *)
Fixpoint digits (s : string) (acc : Z) : option Z :=
  match s with
  | EmptyString => Some acc
  | String c rest =>
      let n := Z.of_nat (Ascii.nat_of_ascii c) in
      if (48 <=? n)%Z && (n <=? 57)%Z then digits rest (10 * acc + (n - 48))%Z
      else None
  end.

Definition decimal (s : string) : res Z :=
  match s with
  | EmptyString => Raise (Exc ValueError "invalid literal for int()")
  | _ => match digits s 0 with
         | Some z => Ret z
         | None => Raise (Exc ValueError "invalid literal for int()")
         end
  end.

Definition truth (s : string) : res bool :=
  Ret (String.eqb s "true" || String.eqb s "1").

Definition imports : Main.Imports :=
  {| Main.str_to_bool := truth;
     Main.int := decimal;
     Main.PG_PROVIDER_NAME := "PGSQL";
     Main.SUPPORTED_PROVIDERS := ["PGSQL"];
     Main.ADMIN_SERVICE_NAME := "admin";
     Main.CAPABILITIES_SERVICE_NAME := "capabilities";
     Main.CONNECTION_SERVICE_NAME := "connection";
     Main.DISASTER_RECOVERY_SERVICE_NAME := "disaster_recovery";
     Main.LANGUAGE_SERVICE_NAME := "language_service";
     Main.METADATA_SERVICE_NAME := "metadata";
     Main.OBJECT_EXPLORER_NAME := "object_explorer";
     Main.QUERY_EXECUTION_SERVICE_NAME := "query_execution";
     Main.SCRIPTING_SERVICE_NAME := "scripting";
     Main.WORKSPACE_SERVICE_NAME := "workspace";
     Main.EDIT_DATA_SERVICE_NAME := "edit_data";
     Main.TASK_SERVICE_NAME := "tasks" |}.

Definition no_options : Main.CommandLine :=
  {| Main.opt_generate_markdown := false;
     Main.opt_input := None;
     Main.opt_enable_web_server := false;
     Main.opt_listen_address := None;
     Main.opt_listen_port := None;
     Main.opt_debug_web_server := false;
     Main.opt_disable_keep_alive := false;
     Main.opt_enable_dynamic_cors := false;
     Main.opt_enable_remote_debugging := None;
     Main.opt_enable_remote_debugging_wait := None;
     Main.opt_log_dir := None;
     Main.opt_console_logging := false;
     Main.opt_provider := None |}.

(** a run in which no call to the outside raises *)
Definition run_with (config_ : Main.ConfigParser) (environ_ : gmap string string)
    (command_line_ : Main.CommandLine) : Main.Outside :=
  {| Main.config := config_;
     Main.environ := environ_;
     Main.program_dir := "/opt/ossdbtoolsservice";
     Main.command_line := command_line_;
     Main.open_input_raises := fun _ => None;
     Main.debugpy_listen_raises := fun _ => None;
     Main.log_file_raises := false;
     Main.service_register_raises := fun _ _ => None;
     Main.service_initialize_raises := fun _ _ => None |}.

(** [ossdbtoolsservice_main.py] with no argument, no variable, no config file *)
Definition plain_run : Main.Outside := run_with ∅ ∅ no_options.

(** [--input session.json] *)
Definition replay_run : Main.Outside :=
  run_with ∅ ∅
    {| Main.opt_generate_markdown := false;
       Main.opt_input := Some "session.json";
       Main.opt_enable_web_server := false;
       Main.opt_listen_address := None;
       Main.opt_listen_port := None;
       Main.opt_debug_web_server := false;
       Main.opt_disable_keep_alive := false;
       Main.opt_enable_dynamic_cors := false;
       Main.opt_enable_remote_debugging := None;
       Main.opt_enable_remote_debugging_wait := None;
       Main.opt_log_dir := None;
       Main.opt_console_logging := false;
       Main.opt_provider := None |}.

(** [--generate-markdown] *)
Definition markdown_run : Main.Outside :=
  run_with ∅ ∅
    {| Main.opt_generate_markdown := true;
       Main.opt_input := None;
       Main.opt_enable_web_server := false;
       Main.opt_listen_address := None;
       Main.opt_listen_port := None;
       Main.opt_debug_web_server := false;
       Main.opt_disable_keep_alive := false;
       Main.opt_enable_dynamic_cors := false;
       Main.opt_enable_remote_debugging := None;
       Main.opt_enable_remote_debugging_wait := None;
       Main.opt_log_dir := None;
       Main.opt_console_logging := false;
       Main.opt_provider := None |}.

(** [--console-logging], the web server not enabled anywhere *)
Definition console_only_run : Main.Outside :=
  run_with ∅ ∅
    {| Main.opt_generate_markdown := false;
       Main.opt_input := None;
       Main.opt_enable_web_server := false;
       Main.opt_listen_address := None;
       Main.opt_listen_port := None;
       Main.opt_debug_web_server := false;
       Main.opt_disable_keep_alive := false;
       Main.opt_enable_dynamic_cors := false;
       Main.opt_enable_remote_debugging := None;
       Main.opt_enable_remote_debugging_wait := None;
       Main.opt_log_dir := None;
       Main.opt_console_logging := true;
       Main.opt_provider := None |}.

(** [ENABLE_WEB_SERVER=true LISTEN_PORT=9000], [--listen-port 8080 --console-logging],
    and a config file that sets the address and the port *)
Definition web_run : Main.Outside :=
  run_with
    {[ "server" := {[ "listen_address" := "127.0.0.1"; "listen_port" := "7000" ]} ]}
    {[ "ENABLE_WEB_SERVER" := "true"; "LISTEN_PORT" := "9000" ]}
    {| Main.opt_generate_markdown := false;
       Main.opt_input := None;
       Main.opt_enable_web_server := false;
       Main.opt_listen_address := None;
       Main.opt_listen_port := Some "8080";
       Main.opt_debug_web_server := false;
       Main.opt_disable_keep_alive := false;
       Main.opt_enable_dynamic_cors := false;
       Main.opt_enable_remote_debugging := None;
       Main.opt_enable_remote_debugging_wait := None;
       Main.opt_log_dir := None;
       Main.opt_console_logging := true;
       Main.opt_provider := None |}.

(** every variable of the environment that the script could read for the
    debug flag says yes *)
Definition debug_in_environment (variable : string) : Main.Outside :=
  run_with ∅ {[ variable := "1" ]} no_options.

(** a command line with [--listen-port raw] and nothing else *)
Definition only_listen_port (raw : string) : Main.CommandLine :=
  {| Main.opt_generate_markdown := false;
     Main.opt_input := None;
     Main.opt_enable_web_server := false;
     Main.opt_listen_address := None;
     Main.opt_listen_port := Some raw;
     Main.opt_debug_web_server := false;
     Main.opt_disable_keep_alive := false;
     Main.opt_enable_dynamic_cors := false;
     Main.opt_enable_remote_debugging := None;
     Main.opt_enable_remote_debugging_wait := None;
     Main.opt_log_dir := None;
     Main.opt_console_logging := false;
     Main.opt_provider := None |}.

(** [LISTEN_PORT=80a0] and [--listen-port 8080] *)
Definition bad_port_run : Main.Outside :=
  run_with ∅ {[ "LISTEN_PORT" := "80a0" ]} (only_listen_port "8080").

(** [--listen-port http] *)
Definition bad_argument_run : Main.Outside := run_with ∅ ∅ (only_listen_port "http").

(** [--input session.json --provider MYSQL] *)
Definition other_provider_run : Main.Outside :=
  run_with ∅ ∅
    {| Main.opt_generate_markdown := false;
       Main.opt_input := Some "session.json";
       Main.opt_enable_web_server := false;
       Main.opt_listen_address := None;
       Main.opt_listen_port := None;
       Main.opt_debug_web_server := false;
       Main.opt_disable_keep_alive := false;
       Main.opt_enable_dynamic_cors := false;
       Main.opt_enable_remote_debugging := None;
       Main.opt_enable_remote_debugging_wait := None;
       Main.opt_log_dir := None;
       Main.opt_console_logging := false;
       Main.opt_provider := Some "MYSQL" |}.

(** a collection whose generator fails at its first invocation *)
Definition views_after_outage : Nodes.NodeCollection :=
  Nodes.__init__ (fun k => match k with
                           | 0 => Raise (Exc RuntimeError "connection lost")
                           | _ => Ret [table; view]
                           end).

(** a loaded collection whose generator would now list one more item *)
Definition views_outdated : Nodes.NodeCollection :=
  {| Nodes._generator := fun k => match k with
                                  | 0 => Ret [table]
                                  | _ => Ret [table; view]
                                  end;
     Nodes._items_impl := Some [table];
     Nodes.invocations := 1 |}.

(** the properties of a table; it has no comment *)
Definition person_properties : LazyProperties.properties :=
  {[ "name" := Nodes.str_ "person"; "oid" := Nodes.int_ 7; "comment" := Nodes.none_ ]}.

Definition full_properties : LazyProperties.NodeLazyPropertyCollection :=
  LazyProperties.__init__ (fun _ => Ret (Some person_properties)).

Definition full_properties_loaded : LazyProperties.NodeLazyPropertyCollection :=
  {| LazyProperties._generator := fun _ => Ret (Some person_properties);
     LazyProperties._items_impl := Some person_properties;
     LazyProperties.invocations := 1 |}.

(** the properties of an object that is gone *)
Definition no_properties : LazyProperties.NodeLazyPropertyCollection :=
  LazyProperties.__init__ (fun _ => Ret None).

(** a table of a schema of a database, and a role, which has no parent *)
Definition database : Objects.NodeObject :=
  Objects.Node "Database" "postgres" (Some 5%Z) None.
Definition schema : Objects.NodeObject :=
  Objects.Node "Schema" "public" (Some 2200%Z) (Some database).
Definition person : Objects.NodeObject :=
  Objects.Node "Table" "person" (Some 7%Z) (Some schema).
Definition role : Objects.NodeObject :=
  Objects.Node "Role" "admin" (Some 10%Z) None.
Definition role_setting : Objects.NodeObject :=
  Objects.Node "Setting" "search_path" None (Some role).

(** A backend whose queries answer with [rows]; a connection is known by
    the name of its database, a row is accepted when it has a name that
    is a string and an object id that is an integer. *)
Definition answering (rows : list LazyProperties.properties) : Objects.Backend :=
  {| Objects.Connection := string;
     Objects.Built := Nodes.NodeObject;
     Objects.render_nodes := fun vars =>
       Ret (match vars !! "parent_id" with
            | Some _ => "SELECT oid, name FROM nodes WHERE parent = %s"
            | None => "SELECT oid, name FROM nodes"
            end);
     Objects.render_properties := fun _ => Ret "SELECT * FROM properties";
     Objects.execute_dict := fun _ _ => Ret rows;
     Objects.server_connection := "maintenance";
     Objects.connection_of := fun node =>
       match node with Objects.Node _ name_ _ _ => name_ end;
     Objects._from_node_query := fun _ row =>
       match row !! "name", row !! "oid" with
       | Some (Nodes.str_ name_), Some (Nodes.int_ oid_) =>
           Ret {| Nodes.name := name_; Nodes.oid := Some oid_ |}
       | _, _ => Raise (Exc KeyError "name")
       end;
     Objects.extended_vars := fun _ => ∅ |}.

Definition view_row : LazyProperties.properties :=
  {[ "name" := Nodes.str_ "viewname"; "oid" := Nodes.int_ 123 ]}.
Definition table_row : LazyProperties.properties :=
  {[ "name" := Nodes.str_ "tablename"; "oid" := Nodes.int_ 7 ]}.
Definition nameless_row : LazyProperties.properties := {[ "oid" := Nodes.int_ 8 ]}.

(** the collections of a node with one child collection, all loaded *)
Definition loaded_collections : Objects.Collections :=
  {| Objects._child_collections := {[ "View" := views_loaded ]};
     Objects._property_collections := [full_properties_loaded] |}.

End Samples.

(** * Properties *)

Module NodesFacts.

Import Nodes.

Lemma look_up_first (lookup : NodeObject -> bool) (items : list NodeObject) (x : NodeObject) :
  first_such (fun y => lookup y = true) items x -> look_up lookup items = Ret x.
Proof.
  intros (before & after & -> & Hx & Hbefore).
  induction Hbefore as [|y before Hy _ IH]; simpl.
  - now rewrite Hx.
  - destruct (lookup y) eqn:E; [contradiction|exact IH].
Qed.

Lemma look_up_none (lookup : NodeObject -> bool) (items : list NodeObject) :
  Forall (fun y => lookup y <> true) items ->
  look_up lookup items = Raise (Exc NameError "An item with the provided index does not exist").
Proof.
  induction 1 as [|y items Hy _ IH]; simpl; [reflexivity|].
  destruct (lookup y); [contradiction|exact IH].
Qed.

(** Whatever [look_up] returns is the first match, so the two lemmas
    above describe every outcome of the loop. *)
Lemma look_up_total (lookup : NodeObject -> bool) (items : list NodeObject) :
  (exists x, first_such (fun y => lookup y = true) items x) \/
  Forall (fun y => lookup y <> true) items.
Proof.
  induction items as [|y items [[x (b & a & -> & Hx & Hb)]|IH]].
  - right. constructor.
  - destruct (lookup y) eqn:E.
    + left. exists y, [], (b ++ x :: a). repeat split; auto.
    + left. exists x, (y :: b), a. repeat split; auto.
      constructor; [congruence|exact Hb].
  - destruct (lookup y) eqn:E.
    + left. exists y, [], items. repeat split; auto.
    + right. constructor; [congruence|exact IH].
Qed.

(** C10. For every collection and every index: an index that is neither
    an [int] nor a [str] raises [TypeError] and leaves the collection as
    it was, so the generator is not invoked; and when the items of the
    collection are [items] (loaded before, or returned by the generator
    now), an [int] index returns the first item of [items] whose [oid]
    equals it, a [str] index the first item whose [name] equals it, and
    [NameError] is raised when no item matches. *)
Theorem getitem_by_oid_or_name (c : NodeCollection) (index : value) :
  (as_int index = None -> as_str index = None ->
   exists msg, __getitem__ c index = (Raise (Exc TypeError msg), c)) /\
  (forall items c', _items c = (Ret items, c') ->
     (forall z, as_int index = Some z ->
        finds c c' index items (fun x => oid x = Some z)) /\
     (forall s, as_int index = None -> as_str index = Some s ->
        finds c c' index items (fun x => name x = s))).
Proof.
  split.
  - intros Hi Hs. unfold __getitem__, lookup_by. rewrite Hi, Hs. eauto.
  - intros items c' Hitems. split.
    + intros z Hz. unfold finds, __getitem__, lookup_by. rewrite Hz, Hitems. split.
      * intros x Hx. f_equal. apply look_up_first.
        destruct Hx as (b & a & -> & Hx & Hb). exists b, a. repeat split.
        -- now apply bool_decide_eq_true.
        -- eapply Forall_impl; [exact Hb|]. intros y Hy Hd.
           now apply bool_decide_eq_true in Hd.
      * intros Hnone. eexists. f_equal. apply look_up_none.
        eapply Forall_impl; [exact Hnone|]. intros y Hy Hd.
        now apply bool_decide_eq_true in Hd.
    + intros s Hi Hs. unfold finds, __getitem__, lookup_by. rewrite Hi, Hs, Hitems. split.
      * intros x Hx. f_equal. apply look_up_first.
        destruct Hx as (b & a & -> & Hx & Hb). exists b, a. repeat split.
        -- now apply bool_decide_eq_true.
        -- eapply Forall_impl; [exact Hb|]. intros y Hy Hd.
           now apply bool_decide_eq_true in Hd.
      * intros Hnone. eexists. f_equal. apply look_up_none.
        eapply Forall_impl; [exact Hnone|]. intros y Hy Hd.
        now apply bool_decide_eq_true in Hd.
Qed.

Lemma getitem_by_oid_or_name_witness :
  __getitem__ Samples.views (int_ 123) = (Ret Samples.view, Samples.views_loaded) /\
  __getitem__ Samples.views_loaded (str_ "tablename") = (Ret Samples.table, Samples.views_loaded) /\
  (exists msg, __getitem__ Samples.views (int_ 5) = (Raise (Exc NameError msg), Samples.views_loaded)) /\
  (exists msg, __getitem__ Samples.views none_ = (Raise (Exc TypeError msg), Samples.views)).
Proof.
  pose (items := [Samples.table; Samples.view; Samples.shadow]).
  split; [|split; [|split]].
  - destruct (proj2 (getitem_by_oid_or_name Samples.views (int_ 123))
                items Samples.views_loaded eq_refl) as [Hint _].
    apply (proj1 (Hint 123%Z eq_refl)).
    exists [Samples.table], [Samples.shadow]. repeat split.
    constructor; [discriminate|constructor].
  - destruct (proj2 (getitem_by_oid_or_name Samples.views_loaded (str_ "tablename"))
                items Samples.views_loaded eq_refl) as [_ Hstr].
    apply (proj1 (Hstr "tablename" eq_refl eq_refl)).
    exists [], [Samples.view; Samples.shadow]. repeat split. constructor.
  - destruct (proj2 (getitem_by_oid_or_name Samples.views (int_ 5))
                items Samples.views_loaded eq_refl) as [Hint _].
    apply (proj2 (Hint 5%Z eq_refl)).
    repeat constructor; discriminate.
  - apply (proj1 (getitem_by_oid_or_name Samples.views none_)); reflexivity.
Defined.

End NodesFacts.

Module ScriptingFacts.

Import Scripting.

Section HandlerFacts.

Context (I : Imports).

Local Open Scope handler_scope.

(** The [try] block always comes to an end; a terminal action is taken
    exactly when it returns, and then it is the response. *)
Lemma script_as_body_outcome (params : option ScriptAsParameters) (st : hstate I) :
  exists r st',
    script_as_body I params st = (Some r, st') /\
    log st' = log st /\
    match r with
    | Ret _ => exists response,
        request_context st' = request_context st ++ [send_response response]
    | Raise _ => request_context st' = request_context st
    end.
Proof.
  unfold script_as_body, params_object, mbind, call, lift, assign_connection, on_context, raise, ret.
  destruct params as [p|]; simpl; [|eauto 6].
  destruct (provider_getitem I _ _) as [[cs|e] w1]; simpl; [|eauto 6].
  destruct (get_connection I _ _ _ _) as [[c|e] w2]; simpl; [|eauto 6].
  destruct (create_metadata p) as [md|e]; simpl; [|eauto 6].
  destruct (Scripter I _ _) as [[sc|e] w3]; simpl; [|eauto 6].
  destruct (script I _ _ _ _) as [[sql|e] w4]; simpl; [|eauto 6].
  eauto 8.
Qed.

Lemma request_error_outcome (sp : ServiceProvider) (params : option ScriptAsParameters)
    (message : string) (st : hstate I) :
  exists st',
    _request_error I sp params message st = (Some (Ret tt), st') /\
    request_context st' = request_context st ++ [send_error message params] /\
    world st' = world st /\ connection st' = connection st.
Proof.
  unfold _request_error, mbind, write_log, on_context, ret.
  destruct (logger sp); simpl; eauto.
Qed.

(** With [retry_state] set the condition of the retry never holds. *)
Lemma should_retry_true (st : hstate I) :
  (exists e, should_retry I true st = (Some (Raise e), st)) \/
  should_retry I true st = (Some (Ret false), st).
Proof.
  unfold should_retry, mbind, read_connection, read_broken, ret.
  destruct (connection st) as [[c|]|]; simpl; eauto.
  right. now rewrite andb_false_r.
Qed.

Lemma should_retry_state (retry_state : bool) (st : hstate I) :
  exists r, should_retry I retry_state st = (Some r, st).
Proof.
  unfold should_retry, mbind, read_connection, read_broken, ret.
  destruct (connection st) as [[c|]|]; simpl; eauto.
Qed.

Ltac open_request :=
  unfold script_as_request, in_new_frame, mbind, catch, call;
  cbn [world request_context log connection].

Ltac run_validation st :=
  let e := fresh "e" in
  let w := fresh "w" in
  match goal with
  | |- context [is_not_none I "params" ?p (world st)] =>
      destruct (is_not_none I "params" p (world st)) as [[[]|e] w]; cbn [world request_context log connection]
  end.

Ltac run_body :=
  match goal with
  | |- context [script_as_body I ?params ?s] =>
      let r := fresh "r" in
      let st := fresh "st" in
      let Heq := fresh "Hbody" in
      let Hlog := fresh "Hlog" in
      let Hr := fresh "Hr" in
      destruct (script_as_body_outcome params s) as (r & st & Heq & Hlog & Hr);
      rewrite Heq; cbn [world request_context log connection]
  end.

Ltac run_error :=
  match goal with
  | |- context [_request_error I ?sp ?params ?m ?s] =>
      let st := fresh "st" in
      let Heq := fresh "Herror" in
      let Hctx := fresh "Hctx" in
      destruct (request_error_outcome sp params m s) as (st & Heq & Hctx & _);
      rewrite Heq; cbn [world request_context log connection]
  end.

Lemma script_as_request_settled (self_call : M I unit) (sp : ServiceProvider)
    (params : option ScriptAsParameters) (retry_state : bool) :
  (forall st, settled st (self_call st)) ->
  forall st, settled st (script_as_request I self_call sp params retry_state st).
Proof.
  intros Hself st. open_request. run_validation st.
  - run_body. destruct r as [[]|e].
    + destruct Hr as [a Ha]. split; simpl; eauto.
    + destruct (should_retry_state retry_state st0) as [[b|e'] ->]; cbn [world request_context log connection].
      * destruct b.
        -- unfold logger_warn, write_log, raise.
           destruct (logger sp); [|split; simpl; auto].
           match goal with |- context [self_call ?s] =>
             specialize (Hself s); destruct (self_call s) as [r3 st3] end.
           destruct Hself as [_ Hself]. simpl in *. split; [reflexivity|].
           destruct r3 as [[[]|]|]; simpl; rewrite Hr in Hself; exact Hself.
        -- run_error. split; simpl; [reflexivity|]. rewrite Hctx, Hr. eauto.
      * split; simpl; auto.
  - run_error. split; simpl; [reflexivity|]. rewrite Hctx. eauto.
Qed.

Lemma handler_settled (fuel : nat) (sp : ServiceProvider)
    (params : option ScriptAsParameters) :
  forall (retry_state : bool) (st : hstate I),
    settled st (_handle_script_as_request I fuel sp params retry_state st).
Proof.
  induction fuel as [|fuel IH]; intros retry_state st.
  - split; reflexivity.
  - simpl. apply script_as_request_settled. intros s. apply IH.
Qed.

Lemma handler_call (fuel : nat) (sp : ServiceProvider)
    (params : option ScriptAsParameters) (retry_state : bool) :
  _handle_script_as_request I (S fuel) sp params retry_state =
  script_as_request I (_handle_script_as_request I fuel sp params true)
    sp params retry_state.
Proof. reflexivity. Qed.

(** The flag prevents a second retry: with [retry_state] set the handler
    does not call itself. *)
Lemma retry_makes_no_call (self_call self_call' : M I unit) (sp : ServiceProvider)
    (params : option ScriptAsParameters) (st : hstate I) :
  script_as_request I self_call sp params true st =
  script_as_request I self_call' sp params true st.
Proof.
  open_request. run_validation st; [|reflexivity].
  run_body. destruct r as [[]|e]; [reflexivity|].
  destruct (should_retry_true st0) as [[e' ->]| ->]; reflexivity.
Qed.

(** Without the flag the handler calls itself at most once, with the flag
    set: two nested calls suffice. *)
Lemma first_call_needs_two (fuel : nat) (sp : ServiceProvider)
    (params : option ScriptAsParameters) (retry_state : bool) (st : hstate I) :
  _handle_script_as_request I (S (S fuel)) sp params retry_state st =
  _handle_script_as_request I 2 sp params retry_state st.
Proof.
  rewrite (handler_call (S fuel)), (handler_call 1).
  destruct retry_state; [apply retry_makes_no_call|].
  open_request. run_validation st; [|reflexivity].
  run_body. destruct r as [[]|e]; [reflexivity|].
  destruct (should_retry_state false st0) as [[[|]|e'] ->]; try reflexivity.
  cbn [world request_context log connection]. unfold logger_warn, write_log, raise.
  destruct (logger sp); [|reflexivity].
  cbn [world request_context log connection].
  rewrite !handler_call.
  match goal with |- context [script_as_request I ?a sp params true ?s] =>
    rewrite (retry_makes_no_call a out_of_fuel sp params s) end.
  reflexivity.
Qed.

Lemma retry_ends (self_call : M I unit) (sp : ServiceProvider)
    (params : option ScriptAsParameters) (st : hstate I) :
  exists r st', script_as_request I self_call sp params true st = (Some r, st').
Proof.
  open_request. run_validation st.
  - run_body. destruct r as [[]|e]; [unfold ret; eauto|].
    destruct (should_retry_true st0) as [[e' ->]| ->];
      cbn [world request_context log connection]; [eauto|].
    run_error. eauto.
  - run_error. eauto.
Qed.

(** Termination: two nested calls are enough for the handler to come to
    an end, returning or raising. *)
Lemma handler_ends (fuel : nat) (sp : ServiceProvider)
    (params : option ScriptAsParameters) (retry_state : bool) (st : hstate I) :
  exists r st',
    _handle_script_as_request I (S (S fuel)) sp params retry_state st = (Some r, st').
Proof.
  rewrite handler_call.
  destruct retry_state; [apply retry_ends|].
  open_request. run_validation st.
  - run_body. destruct r as [[]|e]; [unfold ret; eauto|].
    destruct (should_retry_state false st0) as [[[|]|e'] ->];
      cbn [world request_context log connection]; [| |eauto].
    + unfold logger_warn, write_log, raise.
      destruct (logger sp); [|eauto].
      rewrite handler_call.
      match goal with |- context [script_as_request I ?a sp params true ?s] =>
        destruct (retry_ends a sp params s) as (r3 & st3 & ->) end.
      eauto.
    + run_error. eauto.
  - run_error. eauto.
Qed.

(** An exception raised in the [try] block before [connection] is
    assigned leaves the handler as an [UnboundLocalError]: the [except]
    clause reads the unbound variable. Nothing is done on the context. *)
Lemma unbound_connection_escapes (self_call : M I unit) (sp : ServiceProvider)
    (params : option ScriptAsParameters) (retry_state : bool) (st st2 : hstate I)
    (w1 : World I) (e : exc) :
  is_not_none I "params" params (world st) = (Ret tt, w1) ->
  script_as_body I params {| world := w1; request_context := request_context st;
                             log := log st; connection := None |}
    = (Some (Raise e), st2) ->
  connection st2 = None ->
  exists msg,
    script_as_request I self_call sp params retry_state st =
    (Some (Raise (Exc UnboundLocalError msg)),
     {| world := world st2; request_context := request_context st2;
        log := log st2; connection := connection st |}).
Proof.
  intros Hvalid Hbody Hunbound. open_request. rewrite Hvalid, Hbody.
  unfold should_retry, mbind, read_connection. rewrite Hunbound. eauto.
Qed.

(** The [try] block when the connection cannot be obtained. *)
Lemma body_without_connection (p : ScriptAsParameters) (st : hstate I)
    (cs : ConnectionService I) (w2 w3 : World I) (e : exc) :
  provider_getitem I (CONNECTION_SERVICE_NAME I) (world st) = (Ret cs, w2) ->
  get_connection I cs (owner_uri p) (QUERY I) w2 = (Raise e, w3) ->
  script_as_body I (Some p) st =
  (Some (Raise e), {| world := w3; request_context := request_context st;
                      log := log st; connection := connection st |}).
Proof.
  intros Hcs Hconn.
  unfold script_as_body, params_object, mbind, call, ret. simpl.
  rewrite Hcs. simpl. rewrite Hconn. reflexivity.
Qed.

(** The first attempt, when the [try] block fails with [connection] bound
    to a connection that is found broken and a logger is present: the
    warning is logged and the handler calls itself. *)
Lemma broken_connection_retried (self_call : M I unit) (sp : ServiceProvider)
    (params : option ScriptAsParameters) (st st2 : hstate I) (w1 : World I)
    (e1 : exc) (conn : ServerConnection I) (name : string) :
  logger sp = Some name ->
  is_not_none I "params" params (world st) = (Ret tt, w1) ->
  script_as_body I params {| world := w1; request_context := request_context st;
                             log := log st; connection := None |}
    = (Some (Raise e1), st2) ->
  connection st2 = Some (Some conn) ->
  broken I conn (world st2) = true ->
  script_as_request I self_call sp params false st =
  let (r, st') :=
    self_call {| world := world st2; request_context := request_context st2;
                 log := log st2 ++
                   [log_warn "Server closed the connection unexpectedly. Attempting to reconnect..."];
                 connection := connection st2 |} in
  (r, {| world := world st'; request_context := request_context st';
         log := log st'; connection := connection st |}).
Proof.
  intros Hlogger Hvalid Hbody Hbound Hbroken. open_request. rewrite Hvalid, Hbody.
  unfold should_retry, mbind, read_connection, read_broken, ret. rewrite Hbound.
  rewrite Hbroken. cbn [andb negb].
  unfold logger_warn, write_log. rewrite Hlogger.
  cbn [world request_context log connection]. rewrite Hbound. reflexivity.
Qed.

(** When the retry fails after the connection was obtained again, the
    error sent carries the message of the second failure. *)
Lemma second_failure_reported (self_call : M I unit) (sp : ServiceProvider)
    (params : option ScriptAsParameters) (st st2 : hstate I) (w1 : World I)
    (e2 : exc) (c : option (ServerConnection I)) :
  is_not_none I "params" params (world st) = (Ret tt, w1) ->
  script_as_body I params {| world := w1; request_context := request_context st;
                             log := log st; connection := None |}
    = (Some (Raise e2), st2) ->
  connection st2 = Some c ->
  exists st',
    script_as_request I self_call sp params true st = (Some (Ret tt), st') /\
    request_context st' = request_context st ++ [send_error (str e2) params].
Proof.
  intros Hvalid Hbody Hbound.
  destruct (script_as_body_outcome params
              {| world := w1; request_context := request_context st;
                 log := log st; connection := None |}) as (r & s & Heq & _ & Hr).
  rewrite Hbody in Heq. injection Heq as <- <-. cbn in Hr.
  open_request. rewrite Hvalid, Hbody.
  unfold should_retry, mbind, read_connection, read_broken, ret. rewrite Hbound.
  destruct c as [conn|]; cbn [world request_context log connection];
    rewrite ?andb_false_r; run_error; eexists; (split; [reflexivity|]);
    cbn [request_context]; now rewrite Hctx, Hr.
Qed.

(** Without a logger the warning of line 65 cannot be written: the
    handler is left by an [AttributeError] before it calls itself. *)
Lemma missing_logger_escapes (self_call : M I unit) (sp : ServiceProvider)
    (params : option ScriptAsParameters) (st st2 : hstate I) (w1 : World I)
    (e1 : exc) (conn : ServerConnection I) :
  logger sp = None ->
  is_not_none I "params" params (world st) = (Ret tt, w1) ->
  script_as_body I params {| world := w1; request_context := request_context st;
                             log := log st; connection := None |}
    = (Some (Raise e1), st2) ->
  connection st2 = Some (Some conn) ->
  broken I conn (world st2) = true ->
  exists msg st',
    script_as_request I self_call sp params false st =
      (Some (Raise (Exc AttributeError msg)), st') /\
    request_context st' = request_context st2.
Proof.
  intros Hlogger Hvalid Hbody Hbound Hbroken. open_request. rewrite Hvalid, Hbody.
  unfold should_retry, mbind, read_connection, read_broken, ret. rewrite Hbound.
  rewrite Hbroken. cbn [andb negb].
  unfold logger_warn, raise. rewrite Hlogger.
  cbn [world request_context log connection]. eauto.
Qed.

(** C1, where the code departs from the claim. When the validation passes
    and the connection lookup raises, the [except] clause reads the local
    [connection] that was never assigned: the handler is left by an
    [UnboundLocalError] and no terminal action, neither [send_response]
    nor [send_error], is taken on the request context. *)
Theorem connection_lookup_failure_unanswered (fuel : nat) (sp : ServiceProvider)
    (p : ScriptAsParameters) (retry_state : bool) (st : hstate I)
    (w1 w2 w3 : World I) (cs : ConnectionService I) (e : exc) :
  is_not_none I "params" (Some p) (world st) = (Ret tt, w1) ->
  provider_getitem I (CONNECTION_SERVICE_NAME I) w1 = (Ret cs, w2) ->
  get_connection I cs (owner_uri p) (QUERY I) w2 = (Raise e, w3) ->
  exists msg st',
    _handle_script_as_request I (S fuel) sp (Some p) retry_state st =
      (Some (Raise (Exc UnboundLocalError msg)), st') /\
    request_context st' = request_context st.
Proof.
  intros Hvalid Hcs Hconn. rewrite handler_call.
  pose proof (body_without_connection p
                {| world := w1; request_context := request_context st;
                   log := log st; connection := None |} cs w2 w3 e Hcs Hconn) as Hbody.
  destruct (unbound_connection_escapes (_handle_script_as_request I fuel sp (Some p) true)
              sp (Some p) retry_state st _ w1 e Hvalid Hbody eq_refl) as [msg ->].
  eauto.
Qed.

(** C2, where the code departs from the claim. The first attempt fails
    with the connection found broken and the handler retries once; when
    the retry fails because the connection cannot be obtained again, the
    handler is left by an [UnboundLocalError] and no error response is
    sent: the second failure does not reach the client. *)
Theorem failed_reconnect_unanswered (fuel : nat) (sp : ServiceProvider)
    (p : ScriptAsParameters) (st st2 : hstate I) (name : string)
    (w1 w3 w4 w5 : World I) (e1 e2 : exc) (conn : ServerConnection I)
    (cs : ConnectionService I) :
  logger sp = Some name ->
  is_not_none I "params" (Some p) (world st) = (Ret tt, w1) ->
  script_as_body I (Some p) {| world := w1; request_context := request_context st;
                               log := log st; connection := None |}
    = (Some (Raise e1), st2) ->
  connection st2 = Some (Some conn) ->
  broken I conn (world st2) = true ->
  is_not_none I "params" (Some p) (world st2) = (Ret tt, w3) ->
  provider_getitem I (CONNECTION_SERVICE_NAME I) w3 = (Ret cs, w4) ->
  get_connection I cs (owner_uri p) (QUERY I) w4 = (Raise e2, w5) ->
  exists msg st',
    _handle_script_as_request I (S (S fuel)) sp (Some p) false st =
      (Some (Raise (Exc UnboundLocalError msg)), st') /\
    request_context st' = request_context st.
Proof.
  intros Hlogger Hvalid Hbody Hbound Hbroken Hvalid2 Hcs Hconn.
  destruct (script_as_body_outcome (Some p)
              {| world := w1; request_context := request_context st;
                 log := log st; connection := None |}) as (r & s & Heq & _ & Hr).
  rewrite Hbody in Heq. injection Heq as <- <-. cbn in Hr.
  rewrite handler_call.
  rewrite (broken_connection_retried _ sp (Some p) st st2 w1 e1 conn name) by assumption.
  rewrite handler_call.
  match goal with |- context [script_as_request I ?self sp (Some p) true ?s] =>
    pose proof (body_without_connection p
                  {| world := w3; request_context := request_context s;
                     log := log s; connection := None |} cs w4 w5 e2 Hcs Hconn) as Hbody2;
    destruct (unbound_connection_escapes self sp (Some p) true s _ w3 e2
                Hvalid2 Hbody2 eq_refl) as [msg ->]
  end.
  do 2 eexists. split; [reflexivity|]. exact Hr.
Qed.

End HandlerFacts.

Lemma connection_lookup_failure_unanswered_witness :
  exists msg st',
    _handle_script_as_request (Samples.collaborators Samples.no_connection) 2
      Samples.with_logger (Some Samples.script_table) false
      (initial (Samples.collaborators Samples.no_connection) 0 []) =
      (Some (Raise (Exc UnboundLocalError msg)), st') /\
    request_context st' = [].
Proof.
  apply (connection_lookup_failure_unanswered (Samples.collaborators Samples.no_connection)
           1 Samples.with_logger Samples.script_table false
           (initial (Samples.collaborators Samples.no_connection) 0 [])
           0 0 1 tt (Exc ValueError "could not connect to the server"));
    reflexivity.
Defined.

Lemma failed_reconnect_unanswered_witness :
  exists msg st',
    _handle_script_as_request (Samples.collaborators Samples.server_gone) 2
      Samples.with_logger (Some Samples.script_table) false
      (initial (Samples.collaborators Samples.server_gone) 0 []) =
      (Some (Raise (Exc UnboundLocalError msg)), st') /\
    request_context st' = [].
Proof.
  pose (I := Samples.collaborators Samples.server_gone).
  apply (failed_reconnect_unanswered I 0 Samples.with_logger Samples.script_table
           (initial I 0 [])
           {| world := (1 : World I); request_context := []; log := [];
              connection := Some (Some (0 : ServerConnection I)) |}
           "ossdbtoolsservice" 0 1 1 2
           (Exc RuntimeError "server closed the connection")
           (Exc ValueError "could not connect to the server")
           (0 : ServerConnection I) tt);
    reflexivity.
Defined.

End ScriptingFacts.

Module ServiceFacts.

Import Scripting.

(** A missing key of the first object is a [KeyError]. *)
Lemma create_metadata_missing_type (params : ScriptAsParameters)
    (first : ScriptingObject) (rest : list ScriptingObject) :
  scripting_objects params = first :: rest ->
  first !! "type" = None ->
  create_metadata params = Raise (Exc KeyError "type").
Proof.
  intros Hobjects Htype. unfold create_metadata, list_getitem, dict_getitem.
  rewrite Hobjects. simpl. now rewrite Htype.
Qed.

(** C9. [create_metadata] reads the first element of
    [params.scripting_objects] only: when the list is not empty the
    indexing succeeds and the metadata returned carries the type, the
    schema and the name of the first element; for an empty list an
    [IndexError] is raised; and the result is the same for any two
    parameters with the same first element. *)
Theorem create_metadata_first_object (params : ScriptAsParameters) :
  (forall (first : ScriptingObject) (rest : list ScriptingObject)
          (type_ schema_ name_ : string),
      scripting_objects params = first :: rest ->
      first !! "type" = Some type_ ->
      first !! "schema" = Some schema_ ->
      first !! "name" = Some name_ ->
      list_getitem (scripting_objects params) 0 = Ret first /\
      create_metadata params =
        Ret {| metadata_type_name := type_; schema := schema_; name := name_ |}) /\
  (scripting_objects params = [] ->
   exists msg, create_metadata params = Raise (Exc IndexError msg)) /\
  (forall params' : ScriptAsParameters,
      head (scripting_objects params') = head (scripting_objects params) ->
      create_metadata params' = create_metadata params).
Proof.
  split; [|split].
  - intros first rest type_ schema_ name_ Hobjects Htype Hschema Hname.
    unfold create_metadata, list_getitem, dict_getitem. rewrite Hobjects. simpl.
    now rewrite Htype, Hschema, Hname.
  - intros Hempty. unfold create_metadata, list_getitem. rewrite Hempty. simpl. eauto.
  - intros params' Hhead. unfold create_metadata, list_getitem.
    rewrite <- !head_lookup, Hhead. reflexivity.
Qed.

Lemma create_metadata_first_object_witness :
  create_metadata Samples.script_table =
    Ret {| metadata_type_name := "Table"; schema := "public"; name := "person" |} /\
  (exists msg, create_metadata Samples.no_objects = Raise (Exc IndexError msg)).
Proof.
  split.
  - apply (proj1 (create_metadata_first_object Samples.script_table)
             (<["type" := "Table"]> (<["schema" := "public"]> (<["name" := "person"]> ∅)))
             [ <["type" := "View"]> ∅ ] "Table" "public" "person");
      reflexivity.
  - apply (proj1 (proj2 (create_metadata_first_object Samples.no_objects))).
    reflexivity.
Defined.

(** When the method is taken already, [register] fails with the error of
    the registry, after it stored the provider; the registry is left as
    it was. *)
Lemma register_collision (I : Imports) (sp : ServiceProvider) (st : reg_state)
    (h : handler_ref) :
  request_handlers st !! SCRIPT_AS_REQUEST I = Some h ->
  exists e st',
    register I sp st = (Raise e, st') /\
    request_handlers st' = request_handlers st /\
    _service_provider (self st') = Some sp /\
    _provider (self st') = _provider (self st).
Proof.
  intros Htaken. unfold register, set_request_handler. simpl. rewrite Htaken. eauto 8.
Qed.

(** C6. For every service provider whose server has no handler for the
    script-as request yet, [register] returns, and within the call it has
    registered [_handle_script_as_request] for that method, this one method
    and no other, and stored the provider and the provider's identity
    string on the service instance. *)
Theorem register_script_as (I : Imports) (sp : ServiceProvider) (st : reg_state) :
  request_handlers st !! SCRIPT_AS_REQUEST I = None ->
  exists st',
    register I sp st = (Ret tt, st') /\
    request_handlers st' =
      <[SCRIPT_AS_REQUEST I := _handle_script_as_request_ref]> (request_handlers st) /\
    request_handlers st' !! SCRIPT_AS_REQUEST I = Some _handle_script_as_request_ref /\
    (forall method : string,
        method <> SCRIPT_AS_REQUEST I ->
        request_handlers st' !! method = request_handlers st !! method) /\
    _service_provider (self st') = Some sp /\
    _provider (self st') = Some (provider sp).
Proof.
  intros Hfree. unfold register, set_request_handler. simpl. rewrite Hfree.
  destruct (logger sp); eexists; (split; [reflexivity|]); simpl;
    (split; [reflexivity|]);
    (split; [apply lookup_insert_eq|]);
    (split; [intros method Hne; now apply lookup_insert_ne|]); auto.
Qed.

Lemma register_script_as_witness :
  exists st',
    register (Samples.collaborators Samples.all_well) Samples.with_logger
      Samples.fresh_registration = (Ret tt, st') /\
    request_handlers st' !! "scripting/script" = Some _handle_script_as_request_ref /\
    _service_provider (self st') = Some Samples.with_logger /\
    _provider (self st') = Some "PGSQL".
Proof.
  destruct (register_script_as (Samples.collaborators Samples.all_well)
              Samples.with_logger Samples.fresh_registration eq_refl)
    as (st' & Hrun & _ & Hhandler & _ & Hsp & Hprovider).
  exists st'. auto.
Defined.

End ServiceFacts.

Module MainFacts.

Import Main.

Local Open Scope proc_scope.

#[local] Arguments by_precedence : simpl never.

(** *** Runs of composed computations *)

Lemma bind_done {A B} (m : Proc A) (k : A -> Proc B) (t : list event) (a : A) :
  m = (t, Done a) -> bind m k = (t ++ trace (k a), result (k a)).
Proof. intros ->. unfold bind, trace, result. now destruct (k a). Qed.

Lemma bind_exit {A B} (m : Proc A) (k : A -> Proc B) (t : list event) (x : exit) :
  m = (t, Exit x) -> bind m k = (t, Exit x).
Proof. now intros ->. Qed.

Lemma bind_inv_done {A B} (m : Proc A) (k : A -> Proc B) (t : list event) (b : B) :
  bind m k = (t, Done b) ->
  exists t1 a t2, m = (t1, Done a) /\ k a = (t2, Done b) /\ t = t1 ++ t2.
Proof.
  destruct m as [t1 [a|x]]; simpl; [|discriminate].
  destruct (k a) as [t2 r] eqn:E. intros [= <- ->]. eauto 6.
Qed.

Lemma bind_inv_exit {A B} (m : Proc A) (k : A -> Proc B) (t : list event) (x : exit) :
  bind m k = (t, Exit x) ->
  m = (t, Exit x) \/
  exists t1 a t2, m = (t1, Done a) /\ k a = (t2, Exit x) /\ t = t1 ++ t2.
Proof.
  destruct m as [t1 [a|y]]; simpl.
  - destruct (k a) as [t2 r] eqn:E. intros [= <- ->]. right. eauto 6.
  - intros [= <- <-]. now left.
Qed.

(** a property of every event of a run is kept by composition *)
Lemma all_bind {A B} (P : event -> Prop) (m : Proc A) (k : A -> Proc B) :
  Forall P (trace m) -> (forall a, Forall P (trace (k a))) ->
  Forall P (trace (bind m k)).
Proof.
  intros Hm Hk. destruct m as [t [a|x]]; simpl in *; [|exact Hm].
  specialize (Hk a). destruct (k a) as [t2 r]. simpl in *.
  apply Forall_app. split; assumption.
Qed.

Lemma all_ret {A} (P : event -> Prop) (a : A) : Forall P (trace (ret a)).
Proof. constructor. Qed.

Lemma all_stop {A} (P : event -> Prop) (x : exit) : Forall P (trace (@stop A x)).
Proof. constructor. Qed.

Lemma all_eval {A} (P : event -> Prop) (r : res A) : Forall P (trace (eval r)).
Proof. destruct r; constructor. Qed.

Lemma all_emit (P : event -> Prop) (e : event) : P e -> Forall P (trace (emit e)).
Proof. intros H. repeat constructor. exact H. Qed.

Lemma all_attempt (P : event -> Prop) (e : event) (raises : option exc) :
  P e -> Forall P (trace (attempt e raises)).
Proof. intros H. destruct raises; repeat constructor; exact H. Qed.

(** *** Lines 75 to 193 make no call that concerns the server *)

Section Script.

Context (I : Imports) (o : Outside).

Lemma parse_args_silent : trace (parse_args I o) = [].
Proof.
  unfold parse_args, optional_port, int_argument.
  destruct (str_to_bool I (enable_web_server_env o)); [|reflexivity].
  destruct (int I (listen_port_env o)); [|reflexivity].
  destruct (str_to_bool I (disable_keep_alive_env o)); [|reflexivity].
  destruct (str_to_bool I (enable_dynamic_cors_env o)); [|reflexivity].
  destruct (str_to_bool I (console_logging_env o)); [|reflexivity].
  simpl.
  destruct (opt_listen_port (command_line o)) as [raw|]; simpl;
    [destruct (int I raw); [|reflexivity]|]; simpl;
    (destruct (opt_enable_remote_debugging (command_line o)) as [[raw1|]|]; simpl;
      [destruct (int I raw1); [|reflexivity]| |]); simpl;
    (destruct (opt_enable_remote_debugging_wait (command_line o)) as [[raw2|]|]; simpl;
      [destruct (int I raw2); [|reflexivity]| |]); reflexivity.
Qed.

Lemma configure_quiet (P : event -> Prop) :
  (forall e, plain e -> P e) ->
  Forall P (trace (configure I o)).
Proof.
  intros HP. unfold configure.
  apply all_bind; [rewrite parse_args_silent; constructor|intros args].
  apply all_bind; [|intros stdin].
  { unfold handle_input_file. destruct (truthy_str _); [|apply all_ret].
    apply all_bind; [apply all_attempt, HP; now split|intros; apply all_ret]. }
  apply all_bind; [|intros wait].
  { unfold handle_remote_debugging. destruct (_ || _); [|apply all_ret].
    apply all_bind; [|intros; apply all_ret].
    destruct (debugpy_listen_raises o _).
    - apply all_bind; [apply all_emit, HP; now split|intros].
      apply all_attempt, HP; now split.
    - apply all_emit, HP; now split. }
  apply all_bind; [|intros provider_name].
  { unfold handle_provider. destruct (truthy_str _); [|apply all_ret].
    destruct (bool_decide _); [apply all_ret|apply all_stop]. }
  apply all_bind; [|intros; apply all_ret].
  unfold create_logger. destruct (log_file_raises o); apply all_emit, HP; now split.
Qed.

Lemma announce_quiet (P : event -> Prop) (c : Configured) :
  (forall e, plain e -> P e) ->
  Forall P (trace (announce c)).
Proof.
  intros HP. unfold announce.
  apply all_bind; [|intros].
  { unfold await_debugger. destruct (c_wait_for_debugger c); [|apply all_ret].
    apply all_bind; [|intros]; apply all_emit, HP; now split. }
  apply all_bind; [|intros stdin'].
  { unfold wrap_streams. apply all_bind; [|intros].
    - destruct (c_stdin c); [apply all_ret|].
      apply all_bind; [apply all_emit, HP; now split|intros; apply all_ret].
    - apply all_bind; [apply all_emit, HP; now split|intros; apply all_ret]. }
  apply all_bind; [apply all_emit, HP; now split|intros; apply all_ret].
Qed.

Lemma add_console_logging_run (args : Args) :
  add_console_logging args =
  if console_logging args then
    if enable_web_server args then ([add_console_handler], Done tt)
    else ([], Exit (parser_error
                      "--console-logging can only be enabled if --enable-web-server is true"))
  else ([], Done tt).
Proof.
  unfold add_console_logging.
  destruct (console_logging args), (enable_web_server args); reflexivity.
Qed.

Lemma prepare_quiet (P : event -> Prop) :
  (forall e, concerns_server e = false -> P e) ->
  Forall P (trace (prepare I o)).
Proof.
  intros HP. unfold prepare.
  apply all_bind; [apply configure_quiet; intros e [He _]; auto|intros c].
  apply all_bind; [|intros; apply announce_quiet; intros e [He _]; auto].
  rewrite add_console_logging_run.
  destruct (console_logging (c_args c)), (enable_web_server (c_args c));
    repeat constructor.
  now apply HP.
Qed.

(** *** The two phases and the creation of the server *)

Lemma phase_done (call : string -> service_class -> event)
    (raises : string -> service_class -> option exc)
    (entries : list (string * service_class)) (t : list event) (u : unit) :
  phase call raises entries = (t, Done u) ->
  t = map (fun entry => call (fst entry) (snd entry)) entries.
Proof.
  destruct u. revert t. induction entries as [|[name cls] rest IH]; intros t; simpl.
  - now intros [= <-].
  - unfold attempt. destruct (raises name cls); simpl; [discriminate|].
    destruct (phase call raises rest) as [t' [[]|x]] eqn:E; simpl; [|discriminate].
    intros [= <-]. f_equal. now apply IH.
Qed.

Lemma phase_calls (P : event -> Prop) (call : string -> service_class -> event)
    (raises : string -> service_class -> option exc)
    (entries : list (string * service_class)) :
  (forall name cls, P (call name cls)) ->
  Forall P (trace (phase call raises entries)).
Proof.
  intros HP. induction entries as [|[name cls] rest IH]; simpl.
  - constructor.
  - apply all_bind; [apply all_attempt, HP|intros _; exact IH].
Qed.

Lemma initialize_done (entries : list (string * service_class)) (t : list event) (u : unit) :
  ServiceProvider_initialize o entries = (t, Done u) ->
  t = map (fun entry => service_register (fst entry) (snd entry)) entries ++
      map (fun entry => service_initialize (fst entry) (snd entry)) entries.
Proof.
  unfold ServiceProvider_initialize. intros H.
  apply bind_inv_done in H as (t1 & [] & t2 & H1 & H2 & ->).
  apply phase_done in H1 as ->. apply phase_done in H2 as ->. reflexivity.
Qed.

Lemma initialize_calls (entries : list (string * service_class)) :
  Forall (fun e => phase_call e = true) (trace (ServiceProvider_initialize o entries)).
Proof.
  unfold ServiceProvider_initialize.
  apply all_bind; [|intros _]; now apply phase_calls.
Qed.

Lemma create_server_run (p : Prepared) :
  exists r out,
    create_server I o p = (server_of o p :: r, out) /\
    Forall (fun e => phase_call e = true) r /\
    (forall u, out = Done u -> r = phases I).
Proof.
  pose proof (initialize_calls (services I)) as Hcalls.
  pose proof (initialize_done (services I)) as Hdone.
  unfold create_server, server_of, _create_web_server, _create_server,
    _create_server_init, phases.
  destruct (ServiceProvider_initialize o (services I)) as [r out].
  destruct (enable_web_server (args_ p)); simpl;
    (exists r, out; split; [reflexivity|split; [exact Hcalls|]];
     intros u ->; now apply (Hdone r u)).
Qed.

Lemma serve_run (p : Prepared) :
  serve p =
  (if generate_markdown (args_ p) then [generate_requests_markdown]
   else [server_start; server_wait_for_exit], Done tt).
Proof. unfold serve. now destruct (generate_markdown (args_ p)). Qed.

(** The three ways a run of the script can go: it ends before the server
    is created; it ends in one of the two phases; or the start-up
    completes and the script serves. *)
Lemma main_cases :
  (exists x,
      prepare I o = (trace (prepare I o), Exit x) /\
      startup I o = (trace (prepare I o), Exit x) /\
      main I o = (trace (prepare I o), Exit x)) \/
  (exists tp p r x,
      prepare I o = (tp, Done p) /\
      Forall (fun e => phase_call e = true) r /\
      startup I o = (tp ++ server_of o p :: r, Exit x) /\
      main I o = (tp ++ server_of o p :: r, Exit x)) \/
  (exists tp p,
      prepare I o = (tp, Done p) /\
      startup I o = (tp ++ server_of o p :: phases I, Done p) /\
      main I o = ((tp ++ server_of o p :: phases I) ++ trace (serve p), Done tt)).
Proof.
  unfold main, startup.
  destruct (prepare I o) as [tp [p|x]] eqn:Hprepare.
  - destruct (create_server_run p) as (r & out & Hcreate & Hcalls & Hdone).
    destruct out as [[]|x].
    + right. right. exists tp, p. rewrite (Hdone tt eq_refl) in Hcreate.
      split; [reflexivity|]. simpl. rewrite Hcreate. simpl.
      rewrite app_nil_r. split; [reflexivity|].
      rewrite serve_run. reflexivity.
    + right. left. exists tp, p, r, x. simpl. rewrite Hcreate. simpl. auto.
  - left. exists x. simpl. auto.
Qed.

(** *** What [parse_args] returns *)

Lemma source_text {A} (convert : string -> res A) (variable section option_ built_in : string) :
  by_precedence convert None (environ o !! variable) (in_config o section option_) built_in =
  convert (getenv o variable (config_get o section option_ built_in)).
Proof.
  unfold by_precedence, getenv, config_get, in_config.
  destruct (environ o !! variable); [reflexivity|]. simpl.
  destruct (config o !! section) as [items|]; [|reflexivity]. simpl.
  now destruct (items !! option_).
Qed.

Lemma flag_sourced (present d : bool) (variable section option_ : string) :
  str_to_bool I (getenv o variable (config_get o section option_ "false")) = Ret d ->
  by_precedence (str_to_bool I) (flag_value present) (environ o !! variable)
    (in_config o section option_) "false" = Ret (store_true present d).
Proof.
  intros Hd. destruct present; [reflexivity|].
  unfold flag_value. now rewrite source_text.
Qed.

Lemma parse_args_done (t : list event) (args : Args) :
  parse_args I o = (t, Done args) ->
  sourced_by_precedence I o args /\
  generate_markdown args = opt_generate_markdown (command_line o) /\
  input args = opt_input (command_line o) /\
  debug_web_server args = opt_debug_web_server (command_line o) /\
  provider args = opt_provider (command_line o).
Proof.
  unfold parse_args, optional_port, int_argument.
  destruct (str_to_bool I (enable_web_server_env o)) as [web|] eqn:Hweb; [|discriminate].
  destruct (int I (listen_port_env o)) as [port|] eqn:Hport; [|discriminate].
  destruct (str_to_bool I (disable_keep_alive_env o)) as [keep|] eqn:Hkeep; [|discriminate].
  destruct (str_to_bool I (enable_dynamic_cors_env o)) as [cors|] eqn:Hcors; [|discriminate].
  destruct (str_to_bool I (console_logging_env o)) as [console|] eqn:Hconsole; [|discriminate].
  simpl.
  assert (Hsources : forall z,
            match opt_listen_port (command_line o) with
            | Some raw => int I raw = Ret z
            | None => z = port
            end ->
            by_precedence (int I) (port_on_command_line I o) (environ o !! "LISTEN_PORT")
              (in_config o "server" "listen_port") "8443" = Ret z).
  { intros z Hz. unfold port_on_command_line.
    destruct (opt_listen_port (command_line o)) as [raw|]; simpl.
    - now rewrite Hz.
    - subst z. rewrite source_text. exact Hport. }
  destruct (opt_listen_port (command_line o)) as [raw|] eqn:Hraw; simpl;
    [destruct (int I raw) as [z|] eqn:Hz; [|discriminate]|]; simpl;
    (destruct (opt_enable_remote_debugging (command_line o)) as [[raw1|]|]; simpl;
      [destruct (int I raw1); [|discriminate]| |]); simpl;
    (destruct (opt_enable_remote_debugging_wait (command_line o)) as [[raw2|]|]; simpl;
      [destruct (int I raw2); [|discriminate]| |]); simpl;
    intros [= <- <-]; simpl;
    (split; [|destruct (opt_generate_markdown (command_line o)),
                       (opt_debug_web_server (command_line o)); auto]);
    (constructor; simpl;
     [ destruct (opt_listen_address (command_line o)); [reflexivity|];
       simpl; now rewrite source_text
     | now apply Hsources
     | now apply flag_sourced
     | now apply flag_sourced
     | now apply flag_sourced
     | now apply flag_sourced
     | destruct (opt_log_dir (command_line o)); [reflexivity|];
       simpl; now rewrite source_text ]).
Qed.

Lemma configure_done (t : list event) (c : Configured) :
  configure I o = (t, Done c) ->
  parse_args I o = ([], Done (c_args c)) /\
  default standard_input (c_stdin c) = input_of o.
Proof.
  unfold configure. intros H.
  apply bind_inv_done in H as (t1 & args & t2 & Hparse & H & ->).
  apply bind_inv_done in H as (t3 & stdin & t4 & Hinput & H & ->).
  apply bind_inv_done in H as (t5 & wait & t6 & _ & H & ->).
  apply bind_inv_done in H as (t7 & provider_name & t8 & _ & H & ->).
  apply bind_inv_done in H as (t9 & [] & t10 & _ & H & ->).
  injection H as <- <-. simpl.
  pose proof parse_args_silent as Hsilent. rewrite Hparse in Hsilent.
  simpl in Hsilent. subst t1. split; [exact Hparse|].
  apply parse_args_done in Hparse as (_ & _ & Hin & _).
  unfold input_of. rewrite <- Hin.
  unfold handle_input_file in Hinput.
  destruct (truthy_str (input args)); [|now injection Hinput as <- <-].
  apply bind_inv_done in Hinput as (? & [] & ? & _ & Hret & _).
  now injection Hret as <- <-.
Qed.

Lemma announce_done (c : Configured) (t : list event) (p : Prepared) :
  announce c = (t, Done p) ->
  args_ p = c_args c /\ stdin_ p = default standard_input (c_stdin c).
Proof.
  unfold announce. intros H.
  apply bind_inv_done in H as (t1 & [] & t2 & _ & H & ->).
  apply bind_inv_done in H as (t3 & stdin' & t4 & Hwrap & H & ->).
  apply bind_inv_done in H as (t5 & [] & t6 & _ & H & ->).
  injection H as <- <-. simpl. split; [reflexivity|].
  unfold wrap_streams in Hwrap.
  apply bind_inv_done in Hwrap as (t7 & s & t8 & Hs & H & _).
  apply bind_inv_done in H as (t9 & [] & t10 & _ & H & _).
  injection H as <- <-.
  destruct (c_stdin c); simpl in *; [now injection Hs as <- <-|].
  now injection Hs as <- <-.
Qed.

Lemma prepare_done (t : list event) (p : Prepared) :
  prepare I o = (t, Done p) ->
  parse_args I o = ([], Done (args_ p)) /\
  stdin_ p = input_of o /\
  (console_logging (args_ p) = true -> enable_web_server (args_ p) = true).
Proof.
  unfold prepare. intros H.
  apply bind_inv_done in H as (tc & c & t2 & Hc & H & ->).
  apply bind_inv_done in H as (t3 & [] & t4 & Hconsole & H & ->).
  apply announce_done in H as [-> ->].
  apply configure_done in Hc as [Hparse Hstdin].
  split; [exact Hparse|]. split; [exact Hstdin|].
  rewrite add_console_logging_run in Hconsole.
  destruct (console_logging (c_args c)), (enable_web_server (c_args c));
    auto; discriminate.
Qed.

(** *** The order of the calls that concern the server *)

Lemma split_at (x : event) (a b a' b' : list event) :
  a ++ x :: b = a' ++ x :: b' ->
  Forall (fun e => e <> x) a' -> Forall (fun e => e <> x) b' ->
  a = a' /\ b = b'.
Proof.
  revert a'. induction a as [|y a IH]; intros [|z a'] Heq Ha' Hb'; simpl in Heq.
  - injection Heq as <-. auto.
  - injection Heq as <- _. apply Forall_cons in Ha' as [Hz _]. now destruct Hz.
  - injection Heq as -> <-. apply Forall_app in Hb' as [_ Hb'].
    apply Forall_cons in Hb' as [Hx _]. now destruct Hx.
  - injection Heq as <- Heq. apply Forall_cons in Ha' as [_ Ha'].
    destruct (IH a' Heq Ha' Hb') as [-> ->]. auto.
Qed.

Lemma absent (x : event) (pre post : list event) :
  Forall (fun e => e <> x) (pre ++ x :: post) -> False.
Proof.
  intros H. apply Forall_app in H as [_ H]. apply Forall_cons in H as [H _]. now apply H.
Qed.

Lemma filter_none (f : event -> bool) (l : list event) :
  Forall (fun e => f e = false) l -> List.filter f l = [].
Proof.
  induction 1 as [|e l He _ IH]; simpl; [reflexivity|]. now rewrite He.
Qed.

Lemma phases_calls : Forall (fun e => phase_call e = true) (phases I).
Proof.
  unfold phases. apply Forall_app. split.
  - induction (services I) as [|[name cls] rest IH]; simpl; constructor; auto.
  - induction (services I) as [|[name cls] rest IH]; simpl; constructor; auto.
Qed.

Lemma phases_members (name : string) (cls : service_class) :
  (name, cls) ∈ services I ->
  service_register name cls ∈ phases I /\ service_initialize name cls ∈ phases I.
Proof.
  intros Hin. apply list_elem_of_In in Hin. unfold phases.
  split; apply list_elem_of_In, in_or_app; [left|right];
    apply (in_map (fun entry => _ (fst entry) (snd entry)) _ _ Hin).
Qed.

Lemma server_of_constructs (p : Prepared) : constructs_server (server_of o p) = true.
Proof. unfold server_of. now destruct (enable_web_server (args_ p)). Qed.

Lemma main_of_configure_exit (tc : list event) (x : exit) :
  configure I o = (tc, Exit x) -> main I o = (tc, Exit x).
Proof. intros H. unfold main, startup, prepare. now rewrite H. Qed.

(** every event of a run after those of [prepare] concerns the server *)
Lemma main_after_prepare :
  exists rest,
    trace (main I o) = trace (prepare I o) ++ rest /\
    Forall (fun e => concerns_server e = true) rest.
Proof.
  destruct main_cases as [(x & Hp & _ & ->)|[(tp & p & r & x & Hp & Hr & _ & ->)
                                           |(tp & p & Hp & _ & ->)]].
  - exists []. simpl. rewrite app_nil_r. split; [reflexivity|constructor].
  - exists (server_of o p :: r). rewrite Hp. simpl. split; [reflexivity|].
    constructor.
    + pose proof (server_of_constructs p) as H. now destruct (server_of o p).
    + eapply Forall_impl; [exact Hr|]. intros e He. now destruct e.
  - exists (server_of o p :: phases I ++ trace (serve p)). rewrite Hp. simpl.
    split; [now rewrite <- app_assoc|].
    constructor.
    + pose proof (server_of_constructs p) as H. now destruct (server_of o p).
    + apply Forall_app. split.
      * eapply Forall_impl; [exact phases_calls|]. intros e He. now destruct e.
      * rewrite serve_run. destruct (generate_markdown (args_ p)); repeat constructor.
Qed.

(** C3. In every run of the script in which [start()] is invoked, the
    calls made before it end with the two phases of the service provider
    over the service map, [register] on every service and then
    [initialize] on every service; so every service of the map has
    registered and initialized before the server starts to read, and the
    only call after [start()] is [wait_for_exit()]. *)
Theorem startup_precedes_start (pre post : list event) :
  trace (main I o) = pre ++ server_start :: post ->
  (exists before, pre = before ++ phases I) /\
  (forall name cls, (name, cls) ∈ services I ->
     service_register name cls ∈ pre /\ service_initialize name cls ∈ pre) /\
  post = [server_wait_for_exit].
Proof.
  intros Htrace.
  assert (Hquiet : Forall (fun e => e <> server_start) (trace (prepare I o))).
  { apply prepare_quiet. now intros e He ->. }
  destruct main_cases as [(x & Hp & _ & Hmain)|[(tp & p & r & x & Hp & Hr & _ & Hmain)
                                              |(tp & p & Hp & _ & Hmain)]];
    rewrite Hmain in Htrace; simpl in Htrace.
  - rewrite Htrace in Hquiet. now apply absent in Hquiet.
  - rewrite Hp in Hquiet. simpl in Hquiet. exfalso.
    apply (absent server_start pre post). rewrite <- Htrace.
    apply Forall_app. split; [exact Hquiet|]. constructor.
    + pose proof (server_of_constructs p) as H. now intros E; rewrite E in H.
    + eapply Forall_impl; [exact Hr|]. now intros e He ->.
  - rewrite Hp in Hquiet. simpl in Hquiet.
    assert (Hstartup : Forall (fun e => e <> server_start)
                         (tp ++ server_of o p :: phases I)).
    { apply Forall_app. split; [exact Hquiet|]. constructor.
      - pose proof (server_of_constructs p) as H. now intros E; rewrite E in H.
      - eapply Forall_impl; [exact phases_calls|]. now intros e He ->. }
    rewrite serve_run in Htrace.
    destruct (generate_markdown (args_ p)); simpl in Htrace.
    + exfalso. apply (absent server_start pre post). rewrite <- Htrace.
      apply Forall_app. split; [exact Hstartup|]. now repeat constructor.
    + symmetry in Htrace. apply split_at in Htrace as [-> ->];
        [|exact Hstartup|now repeat constructor].
      split; [exists (tp ++ [server_of o p]); now rewrite <- app_assoc|].
      split; [|reflexivity].
      intros name cls Hin. destruct (phases_members name cls Hin) as [Hr Hi].
      split; apply elem_of_app; right; apply elem_of_cons; right; assumption.
Qed.

Lemma startup_quiet :
  Forall (fun e => serving e = false) (trace (startup I o)).
Proof.
  assert (Hquiet : Forall (fun e => serving e = false) (trace (prepare I o))).
  { apply prepare_quiet. intros e He. now destruct e. }
  assert (Hserver : forall p, serving (server_of o p) = false).
  { intros p. pose proof (server_of_constructs p) as H. now destruct (server_of o p). }
  destruct main_cases as [(x & Hp & -> & _)|[(tp & p & r & x & Hp & Hr & -> & _)
                                           |(tp & p & Hp & -> & _)]]; simpl.
  - exact Hquiet.
  - rewrite Hp in Hquiet. apply Forall_app. split; [exact Hquiet|].
    constructor; [apply Hserver|].
    eapply Forall_impl; [exact Hr|]. intros e He. now destruct e.
  - rewrite Hp in Hquiet. apply Forall_app. split; [exact Hquiet|].
    constructor; [apply Hserver|].
    eapply Forall_impl; [exact phases_calls|]. intros e He. now destruct e.
Qed.

Lemma startup_done (t : list event) (p : Prepared) :
  startup I o = (t, Done p) ->
  exists tp,
    prepare I o = (tp, Done p) /\
    t = tp ++ server_of o p :: phases I /\
    main I o = (t ++ trace (serve p), Done tt).
Proof.
  intros H.
  destruct main_cases as [(x & _ & Hs & _)|[(tp & p' & r & x & _ & _ & Hs & _)
                                          |(tp & p' & Hp & Hs & Hm)]];
    rewrite Hs in H; try discriminate.
  injection H as <- <-. eauto.
Qed.

(** C5. With [--generate-markdown] no run of the script invokes [start()],
    without it no run generates the documentation; and whenever the
    start-up completes, its calls end with the two phases over the service
    map and the script goes on with exactly one thing: with the flag it
    generates the Markdown documentation, without it it invokes [start()]
    followed by [wait_for_exit()]. *)
Theorem markdown_or_serve :
  (opt_generate_markdown (command_line o) = true ->
   Forall (fun e => e <> server_start) (trace (main I o))) /\
  (opt_generate_markdown (command_line o) = false ->
   Forall (fun e => e <> generate_requests_markdown) (trace (main I o))) /\
  (forall (t : list event) (p : Prepared),
      startup I o = (t, Done p) ->
      (exists before, t = before ++ phases I) /\
      main I o =
        (t ++ (if opt_generate_markdown (command_line o)
               then [generate_requests_markdown]
               else [server_start; server_wait_for_exit]),
         Done tt)).
Proof.
  assert (Hflag : forall t p, startup I o = (t, Done p) ->
            generate_markdown (args_ p) = opt_generate_markdown (command_line o)).
  { intros t p H. apply startup_done in H as (tp & Hp & _).
    apply prepare_done in Hp as (Hparse & _).
    now apply parse_args_done in Hparse as (_ & Hflag & _). }
  split; [|split].
  - intros Hgiven. unfold main. pose proof startup_quiet as Hquiet.
    destruct (startup I o) as [t [p|y]] eqn:Hs; simpl in *.
    + rewrite serve_run, (Hflag t p eq_refl), Hgiven. simpl.
      apply Forall_app. split; [|now repeat constructor].
      eapply Forall_impl; [exact Hquiet|]. now intros e He ->.
    + eapply Forall_impl; [exact Hquiet|]. now intros e He ->.
  - intros Habsent. unfold main. pose proof startup_quiet as Hquiet.
    destruct (startup I o) as [t [p|y]] eqn:Hs; simpl in *.
    + rewrite serve_run, (Hflag t p eq_refl), Habsent. simpl.
      apply Forall_app. split; [|now repeat constructor].
      eapply Forall_impl; [exact Hquiet|]. now intros e He ->.
    + eapply Forall_impl; [exact Hquiet|]. now intros e He ->.
  - intros t p Hs. pose proof (Hflag t p Hs) as Hf.
    apply startup_done in Hs as (tp & Hp & -> & ->).
    split; [exists (tp ++ [server_of o p]); now rewrite <- app_assoc|].
    rewrite serve_run, Hf. now destruct (opt_generate_markdown (command_line o)).
Qed.

(** C7. No run of the script constructs more than one host server, and a
    run that comes to line 196 constructs exactly one, selected by the
    flag [enable_web_server]: with the flag the host in network mode, given
    the listen address, the listen port, the keep-alive, debug and dynamic
    CORS flags and the config; without it the host in stream mode, given
    the standard output and, as its input, the file of [--input] when one
    is named and the standard input otherwise. *)
Theorem one_server_by_flag :
  length (List.filter constructs_server (trace (main I o))) <= 1 /\
  (forall (t : list event) (p : Prepared),
      prepare I o = (t, Done p) ->
      List.filter constructs_server (trace (main I o)) =
        [ if enable_web_server (args_ p) then
            new_web_server (listen_address (args_ p)) (listen_port (args_ p))
              (disable_keep_alive (args_ p)) (debug_web_server (args_ p))
              (enable_dynamic_cors (args_ p)) (config o)
          else
            new_stream_server
              (if truthy_str (opt_input (command_line o))
               then input_file (default "" (opt_input (command_line o)))
               else standard_input) ]).
Proof.
  assert (Hquiet : Forall (fun e => constructs_server e = false) (trace (prepare I o))).
  { apply prepare_quiet. intros e He. now destruct e. }
  assert (Hcalls : forall r, Forall (fun e => phase_call e = true) r ->
                             List.filter constructs_server r = []).
  { intros r Hr. apply filter_none. eapply Forall_impl; [exact Hr|].
    intros e He. now destruct e. }
  assert (Hone : forall tp p rest,
            prepare I o = (tp, Done p) ->
            List.filter constructs_server rest = [] ->
            List.filter constructs_server (tp ++ server_of o p :: rest) = [server_of o p]).
  { intros tp p rest Hp Hrest. rewrite Hp in Hquiet. simpl in Hquiet.
    rewrite List.filter_app, (filter_none _ _ Hquiet). simpl.
    now rewrite server_of_constructs, Hrest. }
  assert (Hserve : forall p, List.filter constructs_server (phases I ++ trace (serve p)) = []).
  { intros p. rewrite List.filter_app, (Hcalls _ phases_calls), serve_run.
    now destruct (generate_markdown (args_ p)). }
  split.
  - destruct main_cases as [(x & Hp & _ & ->)|[(tp & p & r & x & Hp & Hr & _ & ->)
                                             |(tp & p & Hp & _ & ->)]]; simpl.
    + rewrite (filter_none _ _ Hquiet). simpl. lia.
    + rewrite (Hone tp p r Hp (Hcalls r Hr)). simpl. lia.
    + rewrite <- app_assoc. simpl. rewrite (Hone tp p _ Hp (Hserve p)). simpl. lia.
  - intros t p Hp.
    assert (Hserver : server_of o p =
              if enable_web_server (args_ p) then
                new_web_server (listen_address (args_ p)) (listen_port (args_ p))
                  (disable_keep_alive (args_ p)) (debug_web_server (args_ p))
                  (enable_dynamic_cors (args_ p)) (config o)
              else new_stream_server (input_of o)).
    { unfold server_of. apply prepare_done in Hp as (_ & -> & _). reflexivity. }
    unfold input_of in Hserver. rewrite <- Hserver.
    destruct main_cases as [(x & Hp' & _ & _)|[(tp & p' & r & x & Hp' & Hr & _ & ->)
                                             |(tp & p' & Hp' & _ & ->)]];
      rewrite Hp in Hp'; try discriminate; injection Hp' as <- <-; simpl.
    + apply (Hone t p r Hp (Hcalls r Hr)).
    + rewrite <- app_assoc. simpl. apply (Hone t p _ Hp (Hserve p)).
Qed.

(** C8. When the arguments resolve with [console_logging] true and
    [enable_web_server] false, the run ends in failure and makes no call
    that concerns the server: none is constructed, none is started. The
    script ends at line 177 with the parser's error, unless a step before
    it (the input file, the debugger, the provider) has ended the run
    already. And the console handler is attached only in runs in which
    both flags resolve to true. *)
Theorem console_logging_needs_web_server :
  (forall (t : list event) (args : Args),
      parse_args I o = (t, Done args) ->
      console_logging args = true ->
      enable_web_server args = false ->
      (exists x, result (main I o) = Exit x) /\
      Forall (fun e => concerns_server e = false) (trace (main I o)) /\
      (forall tc c, configure I o = (tc, Done c) ->
         main I o =
           (tc, Exit (parser_error
                        "--console-logging can only be enabled if --enable-web-server is true"))) /\
      (forall tc x, configure I o = (tc, Exit x) -> main I o = (tc, Exit x))) /\
  (add_console_handler ∈ trace (main I o) ->
   exists (t : list event) (args : Args),
     parse_args I o = (t, Done args) /\
     console_logging args = true /\ enable_web_server args = true).
Proof.
  split.
  - intros t args Hparse Hconsole Hweb.
    assert (Hquiet : Forall (fun e => concerns_server e = false) (trace (configure I o))).
    { apply configure_quiet. now intros e [He _]. }
    assert (Hstop : forall tc c, configure I o = (tc, Done c) ->
              main I o =
                (tc, Exit (parser_error
                   "--console-logging can only be enabled if --enable-web-server is true"))).
    { intros tc c Hc. pose proof (configure_done tc c Hc) as [Hparse' _].
      rewrite Hparse in Hparse'. injection Hparse' as -> ->.
      unfold main, startup, prepare. rewrite Hc. simpl.
      rewrite add_console_logging_run, Hconsole, Hweb. simpl.
      now rewrite app_nil_r. }
    destruct (configure I o) as [tc [c|x]] eqn:Hc.
    + rewrite (Hstop tc c eq_refl). simpl.
      split; [eauto|]. split; [exact Hquiet|]. split; [|discriminate].
      now intros tc' c' [= <- <-].
    + rewrite (main_of_configure_exit tc x Hc). simpl.
      split; [eauto|]. split; [exact Hquiet|]. split; [discriminate|].
      now intros tc' x' [= <- <-].
  - intros Hin.
    destruct main_after_prepare as (rest & Htrace & Hrest).
    rewrite Htrace in Hin. apply elem_of_app in Hin as [Hin|Hin].
    2:{ rewrite Forall_forall in Hrest. specialize (Hrest _ Hin). discriminate. }
    unfold prepare in Hin.
    pose proof (configure_quiet (fun e => e <> add_console_handler)
                  (fun e He => proj2 He)) as Hquiet.
    rewrite Forall_forall in Hquiet.
    destruct (configure I o) as [tc [c|x]] eqn:Hc; simpl in *.
    2:{ exfalso. now apply (Hquiet _ Hin). }
    apply configure_done in Hc as [Hparse _].
    rewrite add_console_logging_run in Hin.
    assert (Hannounce : add_console_handler ∈ tc ++ trace (announce c) -> False).
    { pose proof (announce_quiet (fun e => e <> add_console_handler) c
                    (fun e He => proj2 He)) as Hannounce.
      rewrite Forall_forall in Hannounce.
      intros Hi. apply elem_of_app in Hi as [Hi|Hi].
      - now apply (Hquiet _ Hi).
      - now apply (Hannounce _ Hi). }
    destruct (console_logging (c_args c)) eqn:Hconsole,
             (enable_web_server (c_args c)) eqn:Hweb.
    + exists [], (c_args c). auto.
    + exfalso. simpl in Hin. rewrite app_nil_r in Hin. now apply (Hquiet _ Hin).
    + exfalso. apply Hannounce. simpl in Hin. now destruct (announce c).
    + exfalso. apply Hannounce. simpl in Hin. now destruct (announce c).
Qed.

(** [parse_args] returns as soon as the texts it converts are well formed. *)
Lemma parse_args_returns :
  (forall s, s ∈ [enable_web_server_env o; disable_keep_alive_env o;
                  enable_dynamic_cors_env o; console_logging_env o] ->
             exists b, str_to_bool I s = Ret b) ->
  (exists z, int I (listen_port_env o) = Ret z) ->
  (forall raw, raw ∈ [opt_listen_port (command_line o);
                      opt_enable_remote_debugging (command_line o) ≫= id;
                      opt_enable_remote_debugging_wait (command_line o) ≫= id] ->
               forall s, raw = Some s -> exists z, int I s = Ret z) ->
  exists args, parse_args I o = ([], Done args).
Proof.
  intros Hbool [port Hport] Hint. unfold parse_args, optional_port, int_argument.
  destruct (Hbool (enable_web_server_env o)) as [b1 ->]; [set_solver|].
  rewrite Hport.
  destruct (Hbool (disable_keep_alive_env o)) as [b2 ->]; [set_solver|].
  destruct (Hbool (enable_dynamic_cors_env o)) as [b3 ->]; [set_solver|].
  destruct (Hbool (console_logging_env o)) as [b4 ->]; [set_solver|].
  simpl.
  destruct (opt_listen_port (command_line o)) as [raw|] eqn:E1; simpl.
  1: destruct (Hint (Some raw) ltac:(set_solver) raw eq_refl) as [z1 ->]; simpl.
  all: destruct (opt_enable_remote_debugging (command_line o)) as [[raw1|]|] eqn:E2; simpl.
  all: try (destruct (Hint (Some raw1) ltac:(set_solver) raw1 eq_refl) as [z2 ->]; simpl).
  all: destruct (opt_enable_remote_debugging_wait (command_line o)) as [[raw2|]|] eqn:E3; simpl.
  all: try (destruct (Hint (Some raw2) ltac:(set_solver) raw2 eq_refl) as [z3 ->]; simpl).
  all: eauto.
Qed.

(** C4, as amended. Whenever the arguments resolve, the listen address,
    the listen port, the enable-web-server, disable-keep-alive,
    enable-dynamic-CORS and console-logging flags and the log directory
    have the value given on the command line, else the value of their
    environment variable, else the value in the config file, else the
    built-in default; the debug-web-server flag is true exactly when it is
    given on the command line, whatever the environment and the config
    file hold. *)
Theorem configuration_sources (t : list event) (args : Args) :
  parse_args I o = (t, Done args) ->
  sourced_by_precedence I o args /\
  debug_web_server args = opt_debug_web_server (command_line o).
Proof.
  intros H. apply parse_args_done in H as (Hsourced & _ & _ & Hdebug & _). auto.
Qed.

End Script.

(** The debug flag follows no variable of the environment, as soon as
    [str_to_bool] takes some text that [int] accepts to [True]. *)
Lemma debug_flag_ignores_environment (I : Imports) (yes : string) (z : Z) :
  (forall s, exists b, str_to_bool I s = Ret b) ->
  str_to_bool I yes = Ret true ->
  int I yes = Ret z ->
  int I "8443" = Ret 8443%Z ->
  ~ configuration_by_precedence I.
Proof.
  intros Htotal Hyes Hint Hbuiltin (variable & section & option_ & Hclaim).
  pose (o := {| config := ∅; environ := {[ variable := yes ]};
                program_dir := ""; command_line := Samples.no_options;
                open_input_raises := fun _ => None;
                debugpy_listen_raises := fun _ => None;
                log_file_raises := false;
                service_register_raises := fun _ _ => None;
                service_initialize_raises := fun _ _ => None |}).
  assert (Hparse : exists args, parse_args I o = ([], Done args)).
  { unfold parse_args, optional_port.
    destruct (Htotal (enable_web_server_env o)) as [b1 ->].
    assert (exists port, int I (listen_port_env o) = Ret port) as [port ->].
    { unfold listen_port_env, getenv. simpl.
      destruct (decide (variable = "LISTEN_PORT")) as [->|Hne].
      - rewrite lookup_singleton_eq. simpl. eauto.
      - rewrite lookup_singleton_ne by exact Hne. simpl. eauto. }
    destruct (Htotal (disable_keep_alive_env o)) as [b2 ->].
    destruct (Htotal (enable_dynamic_cors_env o)) as [b3 ->].
    destruct (Htotal (console_logging_env o)) as [b4 ->].
    simpl. eauto. }
  destruct Hparse as [args Hparse].
  destruct (Hclaim o [] args Hparse) as [_ Hdebug].
  apply parse_args_done in Hparse as (_ & _ & _ & Hd & _).
  unfold debug_web_server_sourced in Hdebug. rewrite Hd in Hdebug.
  simpl in Hdebug. unfold by_precedence in Hdebug. simpl in Hdebug.
  rewrite lookup_singleton_eq in Hdebug. congruence.
Qed.

(** C4 as stated does not hold: no environment variable and no option of
    the config file is a source of the debug-web-server flag. *)
Lemma debug_web_server_not_sourced : ~ configuration_by_precedence Samples.imports.
Proof.
  apply (debug_flag_ignores_environment Samples.imports "1" 1%Z);
    [intros s; eexists; reflexivity|reflexivity..].
Qed.

Lemma startup_precedes_start_witness :
  exists before,
    take 29 (trace (main Samples.imports Samples.plain_run)) =
    before ++ phases Samples.imports.
Proof.
  assert (Hrun : trace (main Samples.imports Samples.plain_run) =
                 take 29 (trace (main Samples.imports Samples.plain_run)) ++
                 server_start :: [server_wait_for_exit]) by (vm_compute; reflexivity).
  exact (proj1 (startup_precedes_start Samples.imports Samples.plain_run _ _ Hrun)).
Defined.

Lemma configuration_sources_witness :
  exists args,
    parse_args Samples.imports Samples.web_run = ([], Done args) /\
    sourced_by_precedence Samples.imports Samples.web_run args /\
    listen_port args = 8080%Z /\ listen_address args = "127.0.0.1" /\
    enable_web_server args = true /\ debug_web_server args = false.
Proof.
  destruct (parse_args Samples.imports Samples.web_run) as [t out] eqn:Hparse.
  pose proof Hparse as Hrun. vm_compute in Hrun. injection Hrun as <- <-.
  eexists. split; [reflexivity|].
  destruct (configuration_sources Samples.imports Samples.web_run _ _ Hparse) as [Hs Hd].
  split; [exact Hs|]. split; [reflexivity|]. split; [reflexivity|].
  split; [reflexivity|exact Hd].
Defined.

Lemma markdown_or_serve_witness :
  (exists t,
      main Samples.imports Samples.markdown_run =
        (t ++ [generate_requests_markdown], Done tt) /\
      exists before, t = before ++ phases Samples.imports) /\
  (exists t,
      main Samples.imports Samples.plain_run =
        (t ++ [server_start; server_wait_for_exit], Done tt)) /\
  Forall (fun e => e <> server_start) (trace (main Samples.imports Samples.markdown_run)).
Proof.
  split; [|split].
  - destruct (startup Samples.imports Samples.markdown_run) as [t out] eqn:Hstartup.
    pose proof Hstartup as Hrun. vm_compute in Hrun. injection Hrun as <- <-.
    destruct (markdown_or_serve Samples.imports Samples.markdown_run) as (_ & _ & H).
    destruct (H _ _ Hstartup) as [Hphases Hmain].
    eexists. split; [exact Hmain|exact Hphases].
  - destruct (startup Samples.imports Samples.plain_run) as [t out] eqn:Hstartup.
    pose proof Hstartup as Hrun. vm_compute in Hrun. injection Hrun as <- <-.
    destruct (markdown_or_serve Samples.imports Samples.plain_run) as (_ & _ & H).
    destruct (H _ _ Hstartup) as [_ Hmain].
    eexists. exact Hmain.
  - exact (proj1 (markdown_or_serve Samples.imports Samples.markdown_run) eq_refl).
Defined.

Lemma one_server_by_flag_witness :
  List.filter constructs_server (trace (main Samples.imports Samples.web_run)) =
    [new_web_server "127.0.0.1" 8080 false false false (config Samples.web_run)] /\
  List.filter constructs_server (trace (main Samples.imports Samples.replay_run)) =
    [new_stream_server (input_file "session.json")] /\
  List.filter constructs_server (trace (main Samples.imports Samples.plain_run)) =
    [new_stream_server standard_input].
Proof.
  split; [|split].
  - destruct (prepare Samples.imports Samples.web_run) as [t out] eqn:Hprepare.
    pose proof Hprepare as Hrun. vm_compute in Hrun. injection Hrun as <- <-.
    exact (proj2 (one_server_by_flag Samples.imports Samples.web_run) _ _ Hprepare).
  - destruct (prepare Samples.imports Samples.replay_run) as [t out] eqn:Hprepare.
    pose proof Hprepare as Hrun. vm_compute in Hrun. injection Hrun as <- <-.
    exact (proj2 (one_server_by_flag Samples.imports Samples.replay_run) _ _ Hprepare).
  - destruct (prepare Samples.imports Samples.plain_run) as [t out] eqn:Hprepare.
    pose proof Hprepare as Hrun. vm_compute in Hrun. injection Hrun as <- <-.
    exact (proj2 (one_server_by_flag Samples.imports Samples.plain_run) _ _ Hprepare).
Defined.

Lemma console_logging_needs_web_server_witness :
  main Samples.imports Samples.console_only_run =
    ([add_file_handler "/opt/ossdbtoolsservice"],
     Exit (parser_error
             "--console-logging can only be enabled if --enable-web-server is true")).
Proof.
  destruct (parse_args Samples.imports Samples.console_only_run) as [t out] eqn:Hparse.
  pose proof Hparse as Hrun. vm_compute in Hrun. injection Hrun as <- <-.
  destruct (proj1 (console_logging_needs_web_server Samples.imports Samples.console_only_run)
              _ _ Hparse eq_refl eq_refl) as (_ & _ & Hstop & _).
  destruct (configure Samples.imports Samples.console_only_run) as [tc outc] eqn:Hconfigure.
  pose proof Hconfigure as Hrun. vm_compute in Hrun. injection Hrun as <- <-.
  exact (Hstop _ _ Hconfigure).
Defined.

End MainFacts.

(** * Further properties of the scripting service *)

Module ScriptingExtras.

Import Scripting ScriptingFacts.

Section Handler.

Context (I : Imports).

Local Open Scope handler_scope.

Ltac open_request :=
  unfold script_as_request, in_new_frame, mbind, catch, call;
  cbn [world request_context log connection].

(** X1. Whatever the collaborators do, the handler comes to an end and
    takes at most one terminal action on its request context: exactly one
    when it returns, none when an exception leaves it. *)
Theorem terminal_action_at_most_once (fuel : nat) (sp : ServiceProvider)
    (params : option ScriptAsParameters) (retry_state : bool) (st : hstate I) :
  exists r st' actions,
    _handle_script_as_request I (S (S fuel)) sp params retry_state st = (Some r, st') /\
    request_context st' = request_context st ++ actions /\
    length actions <= 1 /\
    (length actions = 1 <-> exists u, r = Ret u).
Proof.
  destruct (handler_ends I fuel sp params retry_state st) as (r & st' & Hrun).
  pose proof (handler_settled I (S (S fuel)) sp params retry_state st) as [_ Hctx].
  rewrite Hrun in Hctx. simpl in Hctx. exists r, st'.
  destruct r as [u|e].
  - destruct Hctx as [a Ha]. exists [a].
    split; [exact Hrun|]. split; [exact Ha|]. split; [simpl; lia|].
    split; [eauto|reflexivity].
  - exists []. rewrite app_nil_r.
    split; [exact Hrun|]. split; [exact Hctx|]. split; [simpl; lia|].
    split; [intros H; discriminate H|intros [u Hu]; discriminate Hu].
Qed.

(** X2. When the validation of the parameters raises, the handler answers
    with [send_error] carrying the message of that exception and the
    parameters, and returns at once: no other collaborator is called, the
    world is as the validation left it, whatever [retry_state] is. *)
Theorem invalid_params_reported (fuel : nat) (sp : ServiceProvider)
    (params : option ScriptAsParameters) (retry_state : bool) (st : hstate I)
    (e : exc) (w1 : World I) :
  is_not_none I "params" params (world st) = (Raise e, w1) ->
  _handle_script_as_request I (S fuel) sp params retry_state st =
  (Some (Ret tt),
   {| world := w1;
      request_context := request_context st ++ [send_error (str e) params];
      log := log st ++ match logger sp with
                       | Some _ => [log_exception "Scripting operation failed"]
                       | None => []
                       end;
      connection := connection st |}).
Proof.
  intros Hvalid. rewrite handler_call. open_request. rewrite Hvalid.
  unfold _request_error, mbind, write_log, on_context, ret.
  destruct (logger sp); cbn [world request_context log connection];
    rewrite ?app_nil_r; reflexivity.
Qed.

Lemma attempt_sends_script (self_call : M I unit) (sp : ServiceProvider)
    (p : ScriptAsParameters) (retry_state : bool) (st : hstate I)
    (w1 w2 w3 w4 w5 : World I) (cs : ConnectionService I)
    (c : option (ServerConnection I)) (md : ObjectMetadata)
    (scripter : ScripterObj I) (sql : string) :
  is_not_none I "params" (Some p) (world st) = (Ret tt, w1) ->
  provider_getitem I (CONNECTION_SERVICE_NAME I) w1 = (Ret cs, w2) ->
  get_connection I cs (owner_uri p) (QUERY I) w2 = (Ret c, w3) ->
  create_metadata p = Ret md ->
  Scripter I c w3 = (Ret scripter, w4) ->
  script I scripter (operation p) md w4 = (Ret sql, w5) ->
  script_as_request I self_call sp (Some p) retry_state st =
  (Some (Ret tt),
   {| world := w5;
      request_context := request_context st ++
        [send_response {| response_owner_uri := owner_uri p; response_script := sql |}];
      log := log st;
      connection := connection st |}).
Proof.
  intros Hvalid Hcs Hconn Hmd Hscripter Hscript.
  open_request. rewrite Hvalid.
  unfold script_as_body, params_object, mbind, call, lift, assign_connection,
    on_context, ret.
  cbn [world request_context log connection].
  rewrite Hcs. cbn [world request_context log connection].
  rewrite Hconn. cbn [world request_context log connection].
  rewrite Hmd. cbn [world request_context log connection].
  rewrite Hscripter. cbn [world request_context log connection].
  rewrite Hscript. reflexivity.
Qed.

Lemma attempt_reports_failure (self_call : M I unit) (sp : ServiceProvider)
    (params : option ScriptAsParameters) (retry_state : bool) (st st2 : hstate I)
    (w1 : World I) (e : exc) (c : option (ServerConnection I)) :
  is_not_none I "params" params (world st) = (Ret tt, w1) ->
  script_as_body I params {| world := w1; request_context := request_context st;
                             log := log st; connection := None |}
    = (Some (Raise e), st2) ->
  connection st2 = Some c ->
  match c with
  | Some conn => broken I conn (world st2) && negb retry_state = false
  | None => True
  end ->
  exists st',
    script_as_request I self_call sp params retry_state st = (Some (Ret tt), st') /\
    request_context st' = request_context st ++ [send_error (str e) params] /\
    world st' = world st2 /\
    log st' = log st ++ match logger sp with
                        | Some _ => [log_exception "Scripting operation failed"]
                        | None => []
                        end.
Proof.
  intros Hvalid Hbody Hbound Hnothing.
  destruct (script_as_body_outcome I params
              {| world := w1; request_context := request_context st;
                 log := log st; connection := None |}) as (r & s & Heq & Hlog & Hr).
  rewrite Hbody in Heq. injection Heq as <- <-. cbn in Hr, Hlog.
  open_request. rewrite Hvalid, Hbody.
  unfold should_retry, mbind, read_connection, read_broken, ret. rewrite Hbound.
  unfold _request_error, mbind, write_log, on_context, ret.
  destruct c as [conn|]; cbn [world request_context log connection] in *;
    [rewrite Hnothing|];
    (destruct (logger sp); cbn [world request_context log connection];
     eexists; (split; [reflexivity|]); cbn [world request_context log];
     rewrite Hr, Hlog, ?app_nil_r; auto).
Qed.

(** X3. When the validation passes and every collaborator returns, the
    handler sends exactly one response, which carries the owner URI of the
    request and the script the scripter made for the operation and the
    metadata of the first scripting object; it writes nothing to the log. *)
Theorem script_sent_once (fuel : nat) (sp : ServiceProvider)
    (p : ScriptAsParameters) (retry_state : bool) (st : hstate I)
    (w1 w2 w3 w4 w5 : World I) (cs : ConnectionService I)
    (c : option (ServerConnection I)) (md : ObjectMetadata)
    (scripter : ScripterObj I) (sql : string) :
  is_not_none I "params" (Some p) (world st) = (Ret tt, w1) ->
  provider_getitem I (CONNECTION_SERVICE_NAME I) w1 = (Ret cs, w2) ->
  get_connection I cs (owner_uri p) (QUERY I) w2 = (Ret c, w3) ->
  create_metadata p = Ret md ->
  Scripter I c w3 = (Ret scripter, w4) ->
  script I scripter (operation p) md w4 = (Ret sql, w5) ->
  _handle_script_as_request I (S fuel) sp (Some p) retry_state st =
  (Some (Ret tt),
   {| world := w5;
      request_context := request_context st ++
        [send_response {| response_owner_uri := owner_uri p; response_script := sql |}];
      log := log st;
      connection := connection st |}).
Proof.
  intros. rewrite handler_call. now apply (attempt_sends_script _ sp p retry_state st w1 w2 w3 w4 w5 cs c md scripter).
Qed.

(** X4. When the [try] block fails after [connection] was assigned and
    there is nothing to retry, because no connection was returned, or the
    connection is not broken, or this is the retry already, the handler
    answers with [send_error] carrying the message of that failure and
    returns. *)
Theorem failure_reported_without_retry (fuel : nat) (sp : ServiceProvider)
    (params : option ScriptAsParameters) (retry_state : bool) (st st2 : hstate I)
    (w1 : World I) (e : exc) (c : option (ServerConnection I)) :
  is_not_none I "params" params (world st) = (Ret tt, w1) ->
  script_as_body I params {| world := w1; request_context := request_context st;
                             log := log st; connection := None |}
    = (Some (Raise e), st2) ->
  connection st2 = Some c ->
  match c with
  | Some conn => broken I conn (world st2) && negb retry_state = false
  | None => True
  end ->
  exists st',
    _handle_script_as_request I (S fuel) sp params retry_state st = (Some (Ret tt), st') /\
    request_context st' = request_context st ++ [send_error (str e) params] /\
    world st' = world st2.
Proof.
  intros Hvalid Hbody Hbound Hnothing. rewrite handler_call.
  destruct (attempt_reports_failure (_handle_script_as_request I fuel sp params true)
              sp params retry_state st st2 w1 e c Hvalid Hbody Hbound Hnothing)
    as (st' & Hrun & Hctx & Hw & _).
  eauto.
Qed.

Lemma broken_failure_retried (fuel : nat) (sp : ServiceProvider)
    (params : option ScriptAsParameters) (st st2 : hstate I) (name : string) :
  logger sp = Some name ->
  broken_failure params st st2 ->
  request_context st2 = request_context st /\ log st2 = log st /\
  _handle_script_as_request I (S (S fuel)) sp params false st =
  let (r, st') :=
    script_as_request I (_handle_script_as_request I fuel sp params true) sp params true
      {| world := world st2; request_context := request_context st2;
         log := log st2 ++ [warning]; connection := connection st2 |} in
  (r, {| world := world st'; request_context := request_context st';
         log := log st'; connection := connection st |}).
Proof.
  intros Hlogger (w1 & e1 & conn & Hvalid & Hbody & Hbound & Hbroken).
  destruct (script_as_body_outcome I params
              {| world := w1; request_context := request_context st;
                 log := log st; connection := None |}) as (r & s & Heq & Hlog & Hr).
  rewrite Hbody in Heq. injection Heq as <- <-. cbn in Hr, Hlog.
  split; [exact Hr|]. split; [exact Hlog|].
  rewrite handler_call.
  rewrite (broken_connection_retried I _ sp params st st2 w1 e1 conn name) by assumption.
  rewrite handler_call. reflexivity.
Qed.

(** X5. After a first failure on a connection found broken, the handler
    logs the warning and retries; when the retry fails too, after the
    connection was obtained again, the one terminal action is [send_error]
    with the message of the second failure, not of the first. *)
Theorem second_failure_reaches_client (fuel : nat) (sp : ServiceProvider)
    (params : option ScriptAsParameters) (st st2 st4 : hstate I) (name : string)
    (w3 : World I) (e2 : exc) (c : option (ServerConnection I)) :
  logger sp = Some name ->
  broken_failure params st st2 ->
  is_not_none I "params" params (world st2) = (Ret tt, w3) ->
  script_as_body I params {| world := w3; request_context := request_context st2;
                             log := log st2 ++ [warning]; connection := None |}
    = (Some (Raise e2), st4) ->
  connection st4 = Some c ->
  exists st',
    _handle_script_as_request I (S (S fuel)) sp params false st = (Some (Ret tt), st') /\
    request_context st' = request_context st ++ [send_error (str e2) params] /\
    log st' = log st ++ [warning; log_exception "Scripting operation failed"].
Proof.
  intros Hlogger Hfirst Hvalid Hbody Hbound.
  destruct (broken_failure_retried fuel sp params st st2 name Hlogger Hfirst)
    as (Hctx2 & Hlog2 & ->).
  destruct (attempt_reports_failure (_handle_script_as_request I fuel sp params true)
              sp params true
              {| world := world st2; request_context := request_context st2;
                 log := log st2 ++ [warning]; connection := connection st2 |}
              st4 w3 e2 c Hvalid Hbody Hbound) as (st' & -> & Hctx & _ & Hlog).
  { destruct c; [apply andb_false_r|exact Logic.I]. }
  eexists. split; [reflexivity|]. cbn [request_context log] in *.
  rewrite Hctx, Hlog, Hctx2, Hlog2, Hlogger, <- app_assoc. auto.
Qed.

(** X6. After a first failure on a connection found broken, when every
    collaborator returns in the retry, the one terminal action is the
    response with the script made in the retry; no error is sent for the
    first failure, of which only the warning in the log remains. *)
Theorem retry_answers_the_request (fuel : nat) (sp : ServiceProvider)
    (p : ScriptAsParameters) (st st2 : hstate I) (name : string)
    (w3 w4 w5 w6 w7 : World I) (cs : ConnectionService I)
    (c : option (ServerConnection I)) (md : ObjectMetadata)
    (scripter : ScripterObj I) (sql : string) :
  logger sp = Some name ->
  broken_failure (Some p) st st2 ->
  is_not_none I "params" (Some p) (world st2) = (Ret tt, w3) ->
  provider_getitem I (CONNECTION_SERVICE_NAME I) w3 = (Ret cs, w4) ->
  get_connection I cs (owner_uri p) (QUERY I) w4 = (Ret c, w5) ->
  create_metadata p = Ret md ->
  Scripter I c w5 = (Ret scripter, w6) ->
  script I scripter (operation p) md w6 = (Ret sql, w7) ->
  _handle_script_as_request I (S (S fuel)) sp (Some p) false st =
  (Some (Ret tt),
   {| world := w7;
      request_context := request_context st ++
        [send_response {| response_owner_uri := owner_uri p; response_script := sql |}];
      log := log st ++ [warning];
      connection := connection st |}).
Proof.
  intros Hlogger Hfirst Hvalid Hcs Hconn Hmd Hscripter Hscript.
  destruct (broken_failure_retried fuel sp (Some p) st st2 name Hlogger Hfirst)
    as (Hctx2 & Hlog2 & ->).
  rewrite (attempt_sends_script _ sp p true _ w3 w4 w5 w6 w7 cs c md scripter sql)
    by assumption.
  cbn [world request_context log connection]. now rewrite Hctx2, Hlog2.
Qed.

(** X7. The flag [retry_state] bounds the recursion: a call with the flag
    set never calls the handler again, so a request is attempted at most
    twice and two nested calls always suffice, whatever depth is allowed. *)
Theorem retry_state_bounds_recursion (fuel : nat) (sp : ServiceProvider)
    (params : option ScriptAsParameters) (st : hstate I) :
  _handle_script_as_request I (S fuel) sp params true st =
    _handle_script_as_request I 1 sp params true st /\
  _handle_script_as_request I (S (S fuel)) sp params false st =
    _handle_script_as_request I 2 sp params false st /\
  fst (_handle_script_as_request I 1 sp params true st) <> None /\
  fst (_handle_script_as_request I 2 sp params false st) <> None.
Proof.
  split; [rewrite !handler_call; apply retry_makes_no_call|].
  split; [apply first_call_needs_two|].
  split.
  - destruct (handler_ends I 0 sp params true st) as (r & st' & Hrun).
    rewrite (handler_call I 1), (retry_makes_no_call I _ out_of_fuel) in Hrun.
    rewrite handler_call. cbn [_handle_script_as_request]. now rewrite Hrun.
  - destruct (handler_ends I 0 sp params false st) as (r & st' & ->). discriminate.
Qed.

(** X8. Without a logger the retry cannot be announced: after a first
    failure on a connection found broken the handler is left by an
    [AttributeError] and takes no terminal action, although
    [_request_error] and [register] allow for a provider without logger. *)
Theorem retry_needs_a_logger (fuel : nat) (sp : ServiceProvider)
    (params : option ScriptAsParameters) (st st2 : hstate I) :
  logger sp = None ->
  broken_failure params st st2 ->
  exists msg st',
    _handle_script_as_request I (S fuel) sp params false st =
      (Some (Raise (Exc AttributeError msg)), st') /\
    request_context st' = request_context st.
Proof.
  intros Hlogger (w1 & e1 & conn & Hvalid & Hbody & Hbound & Hbroken).
  destruct (script_as_body_outcome I params
              {| world := w1; request_context := request_context st;
                 log := log st; connection := None |}) as (r & s & Heq & _ & Hr).
  rewrite Hbody in Heq. injection Heq as <- <-. cbn in Hr.
  rewrite handler_call.
  destruct (missing_logger_escapes I (_handle_script_as_request I fuel sp params true)
              sp params st st2 w1 e1 conn Hlogger Hvalid Hbody Hbound Hbroken)
    as (msg & st' & -> & Hctx).
  exists msg, st'. split; [reflexivity|]. now rewrite Hctx.
Qed.

End Handler.

(** X9. [create_metadata] returns exactly when the first scripting object
    has the three keys type, schema and name; when one of them is missing
    it raises [KeyError]. Further keys of the first object and all further
    objects play no part. *)
Theorem create_metadata_needs_three_keys (params : ScriptAsParameters)
    (first : ScriptingObject) (rest : list ScriptingObject) :
  scripting_objects params = first :: rest ->
  ((exists md, create_metadata params = Ret md) <->
   is_Some (first !! "type") /\ is_Some (first !! "schema") /\ is_Some (first !! "name")) /\
  ((exists md, create_metadata params = Ret md) \/
   (exists msg, create_metadata params = Raise (Exc KeyError msg))) /\
  (forall (key value : string) (others : list ScriptingObject),
      key <> "type" -> key <> "schema" -> key <> "name" ->
      create_metadata {| owner_uri := owner_uri params; operation := operation params;
                         scripting_objects := <[key := value]> first :: others |} =
      create_metadata params).
Proof.
  intros Hobjects. unfold create_metadata, list_getitem, dict_getitem.
  rewrite Hobjects. simpl.
  split; [|split].
  - destruct (first !! "type"), (first !! "schema"), (first !! "name"); simpl;
      (split; [intros [md Hmd]; try discriminate; eauto
              |intros (H1 & H2 & H3); eauto;
               try (destruct H1 as [? H1]; discriminate H1);
               try (destruct H2 as [? H2]; discriminate H2);
               try (destruct H3 as [? H3]; discriminate H3)]).
  - destruct (first !! "type"), (first !! "schema"), (first !! "name"); simpl; eauto.
  - intros key value others Ht Hs Hn.
    rewrite !lookup_insert_ne by assumption. reflexivity.
Qed.

Lemma create_metadata_needs_three_keys_witness :
  (exists msg, create_metadata Samples.view_without_schema = Raise (Exc KeyError msg)) /\
  (exists md, create_metadata Samples.script_table = Ret md).
Proof.
  split.
  - destruct (create_metadata_needs_three_keys Samples.view_without_schema
                (<["type" := "View"]> (<["name" := "v"]> ∅)) [] eq_refl)
      as (Hiff & [[md Hmd]|Hkey] & _); [|exact Hkey].
    exfalso. destruct (proj1 Hiff (ex_intro _ md Hmd)) as (_ & [v Hv] & _).
    vm_compute in Hv. discriminate Hv.
  - apply (proj1 (create_metadata_needs_three_keys Samples.script_table
                    (<["type" := "Table"]> (<["schema" := "public"]> (<["name" := "person"]> ∅)))
                    [ <["type" := "View"]> ∅ ] eq_refl)).
    repeat split; eexists; reflexivity.
Defined.

Lemma invalid_params_reported_witness :
  fst (Samples.handle Samples.all_well Samples.with_logger None) = Some (Ret tt) /\
  request_context (snd (Samples.handle Samples.all_well Samples.with_logger None)) =
    [send_error "Invalid value for params" None].
Proof.
  unfold Samples.handle. set (I := Samples.collaborators Samples.all_well).
  rewrite (invalid_params_reported I 1 Samples.with_logger None false (initial I 0 [])
             (Exc ValueError "Invalid value for params") (0 : World I) eq_refl).
  split; reflexivity.
Defined.

Lemma script_sent_once_witness :
  fst (Samples.handle Samples.all_well Samples.with_logger (Some Samples.script_table)) =
    Some (Ret tt) /\
  request_context
    (snd (Samples.handle Samples.all_well Samples.with_logger (Some Samples.script_table))) =
    [send_response {| response_owner_uri := "file:///query.sql";
                      response_script := "CREATE TABLE public.person();" |}].
Proof.
  unfold Samples.handle. set (I := Samples.collaborators Samples.all_well).
  rewrite (script_sent_once I 1 Samples.with_logger Samples.script_table false
             (initial I 0 []) 0 0 1 1 1 tt (Some (0 : ServerConnection I))
             {| metadata_type_name := "Table"; schema := "public"; name := "person" |}
             (0 : ScripterObj I) "CREATE TABLE public.person();"
             eq_refl eq_refl eq_refl eq_refl eq_refl eq_refl).
  split; reflexivity.
Defined.

Lemma failure_reported_without_retry_witness :
  exists st',
    Samples.handle Samples.scripting_fails Samples.with_logger (Some Samples.script_table) =
      (Some (Ret tt), st') /\
    request_context st' =
      [send_error "server closed the connection" (Some Samples.script_table)].
Proof.
  pose (I := Samples.collaborators Samples.scripting_fails).
  destruct (failure_reported_without_retry I 1 Samples.with_logger
              (Some Samples.script_table) false (initial I 0 [])
              {| world := (1 : World I); request_context := []; log := [];
                 connection := Some (Some (0 : ServerConnection I)) |}
              0 (Exc RuntimeError "server closed the connection")
              (Some (0 : ServerConnection I)) eq_refl eq_refl eq_refl eq_refl)
    as (st' & Hrun & Hctx & _).
  exists st'. split; [exact Hrun|exact Hctx].
Defined.

Lemma first_attempt_on_broken_connection (sc : Samples.scenario) :
  Samples.validation_raises sc = false ->
  Samples.connecting_raises sc 0 = false ->
  Samples.scripting_raises sc 1 = true ->
  Samples.found_broken sc = true ->
  broken_failure (Some Samples.script_table)
    (initial (Samples.collaborators sc) 0 [])
    {| world := (1 : World (Samples.collaborators sc)); request_context := []; log := [];
       connection := Some (Some (0 : ServerConnection (Samples.collaborators sc))) |}.
Proof.
  intros Hv Hc Hs Hb.
  exists (0 : World (Samples.collaborators sc)),
         (Exc RuntimeError "server closed the connection"),
         (0 : ServerConnection (Samples.collaborators sc)).
  repeat split.
  - simpl. now rewrite Hv.
  - unfold script_as_body, params_object, mbind, call, lift, assign_connection,
      on_context, ret. simpl. rewrite Hc. simpl. now rewrite Hs.
  - exact Hb.
Qed.

Lemma second_failure_reaches_client_witness :
  exists st',
    Samples.handle Samples.scripting_keeps_failing Samples.with_logger
      (Some Samples.script_table) = (Some (Ret tt), st') /\
    request_context st' =
      [send_error "server closed the connection" (Some Samples.script_table)].
Proof.
  pose (I := Samples.collaborators Samples.scripting_keeps_failing).
  destruct (second_failure_reaches_client I 0 Samples.with_logger
              (Some Samples.script_table) (initial I 0 [])
              {| world := (1 : World I); request_context := []; log := [];
                 connection := Some (Some (0 : ServerConnection I)) |}
              {| world := (2 : World I); request_context := []; log := [warning];
                 connection := Some (Some (1 : ServerConnection I)) |}
              "ossdbtoolsservice" 1
              (Exc RuntimeError "server closed the connection")
              (Some (1 : ServerConnection I)) eq_refl
              (first_attempt_on_broken_connection Samples.scripting_keeps_failing
                 eq_refl eq_refl eq_refl eq_refl)
              eq_refl eq_refl eq_refl)
    as (st' & Hrun & Hctx & _).
  exists st'. split; [exact Hrun|exact Hctx].
Defined.

Lemma retry_answers_the_request_witness :
  request_context
    (snd (Samples.handle Samples.server_restarted Samples.with_logger
            (Some Samples.script_table))) =
    [send_response {| response_owner_uri := "file:///query.sql";
                      response_script := "CREATE TABLE public.person();" |}] /\
  log (snd (Samples.handle Samples.server_restarted Samples.with_logger
              (Some Samples.script_table))) = [warning].
Proof.
  unfold Samples.handle. set (I := Samples.collaborators Samples.server_restarted).
  rewrite (retry_answers_the_request I 0 Samples.with_logger Samples.script_table
             (initial I 0 [])
             {| world := (1 : World I); request_context := []; log := [];
                connection := Some (Some (0 : ServerConnection I)) |}
             "ossdbtoolsservice" 1 1 2 2 2 tt
             (Some (1 : ServerConnection I))
             {| metadata_type_name := "Table"; schema := "public"; name := "person" |}
             (1 : ScripterObj I) "CREATE TABLE public.person();" eq_refl
             (first_attempt_on_broken_connection Samples.server_restarted
                eq_refl eq_refl eq_refl eq_refl)
             eq_refl eq_refl eq_refl eq_refl eq_refl eq_refl).
  split; reflexivity.
Defined.

Lemma retry_needs_a_logger_witness :
  exists msg st',
    Samples.handle Samples.scripting_keeps_failing Samples.without_logger
      (Some Samples.script_table) = (Some (Raise (Exc AttributeError msg)), st') /\
    request_context st' = [].
Proof.
  pose (I := Samples.collaborators Samples.scripting_keeps_failing).
  exact (retry_needs_a_logger I 1
           Samples.without_logger (Some Samples.script_table) (initial I 0 [])
           {| world := (1 : World I); request_context := []; log := [];
              connection := Some (Some (0 : ServerConnection I)) |} eq_refl
           (first_attempt_on_broken_connection Samples.scripting_keeps_failing
              eq_refl eq_refl eq_refl eq_refl)).
Defined.

End ScriptingExtras.

(** * Further properties of node collections *)

Module NodesExtras.

Import Nodes.

Lemma look_up_found (lookup : NodeObject -> bool) (items : list NodeObject) (y : NodeObject) :
  look_up lookup items = Ret y -> lookup y = true /\ y ∈ items.
Proof.
  induction items as [|x items IH]; simpl; [discriminate|].
  destruct (lookup x) eqn:Hx.
  - intros [= <-]. split; [exact Hx|]. apply elem_of_cons. now left.
  - intros H. destruct (IH H) as [Hy Hin]. split; [exact Hy|].
    apply elem_of_cons. now right.
Qed.

Lemma look_up_some (lookup : NodeObject -> bool) (items : list NodeObject) (x : NodeObject) :
  x ∈ items -> lookup x = true -> exists y, look_up lookup items = Ret y.
Proof.
  induction 1 as [x items|x z items _ IH]; intros Hx; simpl.
  - rewrite Hx. eauto.
  - destruct (lookup z); eauto.
Qed.

Lemma getitem_state (c : NodeCollection) (index : value) :
  snd (__getitem__ c index) = c \/ snd (__getitem__ c index) = snd (_items c).
Proof.
  unfold __getitem__. destruct (lookup_by index); [|now left].
  right. now destruct (_items c) as [[l|e] c'].
Qed.

(** X10. The generator of a collection is invoked lazily and at most
    once: when its first invocation returns a list, then however often and
    with whatever indexes the collection is indexed afterwards, the
    generator has been invoked at most that once and the collection is
    either still unloaded or holds exactly that list. *)
Theorem generator_invoked_at_most_once (c : NodeCollection) (items : list NodeObject)
    (indexes : list value) :
  _items_impl c = None ->
  _generator c (invocations c) = Ret items ->
  (_items_impl (indexed c indexes) = None /\
   invocations (indexed c indexes) = invocations c) \/
  (_items_impl (indexed c indexes) = Some items /\
   invocations (indexed c indexes) = S (invocations c)).
Proof.
  intros Hunloaded Hgen.
  assert (Hloaded : forall (l : list value) (d : NodeCollection),
            _items_impl d = Some items ->
            indexed d l = d).
  { induction l as [|i l IH]; intros d Hd; [reflexivity|].
    unfold indexed in *. simpl.
    assert (Hsame : snd (__getitem__ d i) = d).
    { destruct (getitem_state d i) as [->| ->]; [reflexivity|].
      unfold _items. now rewrite Hd. }
    rewrite Hsame. now apply IH. }
  revert c Hunloaded Hgen. induction indexes as [|i l IH]; intros c Hunloaded Hgen.
  - left. auto.
  - unfold indexed. simpl. fold (indexed (snd (__getitem__ c i)) l).
    destruct (getitem_state c i) as [->| ->].
    + now apply IH.
    + unfold _items. rewrite Hunloaded, Hgen. simpl. right.
      rewrite Hloaded by reflexivity. auto.
Qed.

(** X11. A failed load is not remembered: when the generator raises, the
    exception leaves [__getitem__] (for an [int] or [str] index) and
    [__len__], the collection stays unloaded, and the next access invokes
    the generator again and answers from what it returns then. *)
Theorem failed_load_is_retried (c : NodeCollection) (e : exc) (index : value)
    (lookup : NodeObject -> bool) :
  _items_impl c = None ->
  _generator c (invocations c) = Raise e ->
  lookup_by index = Ret lookup ->
  exists c',
    __getitem__ c index = (Raise e, c') /\
    __len__ c = (Raise e, c') /\
    _items_impl c' = None /\
    invocations c' = S (invocations c) /\
    (forall items, _generator c (S (invocations c)) = Ret items ->
       fst (__getitem__ c' index) = look_up lookup items /\
       fst (__len__ c') = Ret (length items)).
Proof.
  intros Hunloaded Hgen Hlookup.
  unfold __getitem__, __len__, _items. rewrite Hlookup, Hunloaded, Hgen. simpl.
  eexists. repeat (split; [reflexivity|]).
  intros items Hnext. simpl. rewrite Hnext. auto.
Qed.

(** X12. [reset] (and [refresh]) forgets the loaded items without invoking
    the generator; the next access invokes it and answers from the list it
    returns then, not from the items held before. *)
Theorem reset_reloads (c : NodeCollection) (items : list NodeObject) (index : value)
    (lookup : NodeObject -> bool) :
  _generator c (invocations c) = Ret items ->
  lookup_by index = Ret lookup ->
  invocations (reset c) = invocations c /\
  refresh c = reset c /\
  __getitem__ (reset c) index =
    (look_up lookup items,
     {| _generator := _generator c; _items_impl := Some items;
        invocations := S (invocations c) |}) /\
  fst (__len__ (reset c)) = Ret (length items).
Proof.
  intros Hgen Hlookup. split; [reflexivity|]. split; [reflexivity|].
  unfold __getitem__, __len__, _items, reset. simpl. rewrite Hlookup, Hgen. auto.
Qed.

(** X13. Every item a collection lists can be reached through it: indexing
    with the name of a listed item returns a listed item of that name, and
    indexing with its object id a listed item of that id, never
    [NameError]. An [int] index only ever returns an item whose id equals
    it, so an item without id is out of reach of every [int] index. The
    length of the collection is the number of items listed. *)
Theorem listed_items_are_found (c c' : NodeCollection) (items : list NodeObject) :
  _items c = (Ret items, c') ->
  (forall x, x ∈ items ->
     exists y, __getitem__ c (str_ (name x)) = (Ret y, c') /\
               name y = name x /\ y ∈ items) /\
  (forall x z, x ∈ items -> oid x = Some z ->
     exists y, __getitem__ c (int_ z) = (Ret y, c') /\
               oid y = Some z /\ y ∈ items) /\
  (forall z y, fst (__getitem__ c (int_ z)) = Ret y -> oid y = Some z) /\
  __len__ c = (Ret (length items), c') /\
  __iter__ c = (Ret items, c').
Proof.
  intros Hitems. split; [|split; [|split; [|split]]].
  - intros x Hx. unfold __getitem__. simpl. rewrite Hitems.
    destruct (look_up_some (fun y => bool_decide (name y = name x)) items x Hx)
      as [y Hy]; [now apply bool_decide_eq_true|].
    exists y. rewrite Hy. split; [reflexivity|].
    apply look_up_found in Hy as [Hn Hin]. apply bool_decide_eq_true in Hn. auto.
  - intros x z Hx Hz. unfold __getitem__. simpl. rewrite Hitems.
    destruct (look_up_some (fun y => bool_decide (oid y = Some z)) items x Hx)
      as [y Hy]; [now apply bool_decide_eq_true|].
    exists y. rewrite Hy. split; [reflexivity|].
    apply look_up_found in Hy as [Hn Hin]. apply bool_decide_eq_true in Hn. auto.
  - intros z y. unfold __getitem__. simpl. rewrite Hitems. simpl. intros Hy.
    apply look_up_found in Hy as [Hn _]. now apply bool_decide_eq_true in Hn.
  - unfold __len__. now rewrite Hitems.
  - exact Hitems.
Qed.

Lemma generator_invoked_at_most_once_witness :
  (_items_impl (indexed Samples.views [str_ "viewname"; other "view"; int_ 7]) = None /\
   invocations (indexed Samples.views [str_ "viewname"; other "view"; int_ 7]) = 0) \/
  (_items_impl (indexed Samples.views [str_ "viewname"; other "view"; int_ 7]) =
     Some [Samples.table; Samples.view; Samples.shadow] /\
   invocations (indexed Samples.views [str_ "viewname"; other "view"; int_ 7]) = 1).
Proof.
  exact (generator_invoked_at_most_once Samples.views
           [Samples.table; Samples.view; Samples.shadow]
           [str_ "viewname"; other "view"; int_ 7] eq_refl eq_refl).
Defined.

Lemma failed_load_is_retried_witness :
  exists c',
    __getitem__ Samples.views_after_outage (str_ "viewname") =
      (Raise (Exc RuntimeError "connection lost"), c') /\
    _items_impl c' = None /\
    fst (__getitem__ c' (str_ "viewname")) = Ret Samples.view /\
    fst (__len__ c') = Ret 2.
Proof.
  destruct (failed_load_is_retried Samples.views_after_outage
              (Exc RuntimeError "connection lost") (str_ "viewname")
              (fun x => bool_decide (name x = "viewname")) eq_refl eq_refl eq_refl)
    as (c' & Hget & _ & Hunloaded & _ & Hnext).
  exists c'. split; [exact Hget|]. split; [exact Hunloaded|].
  exact (Hnext [Samples.table; Samples.view] eq_refl).
Defined.

Lemma reset_reloads_witness :
  invocations (reset Samples.views_outdated) = 1 /\
  fst (__getitem__ (reset Samples.views_outdated) (str_ "viewname")) = Ret Samples.view /\
  fst (__len__ (reset Samples.views_outdated)) = Ret 2.
Proof.
  destruct (reset_reloads Samples.views_outdated [Samples.table; Samples.view]
              (str_ "viewname") (fun x => bool_decide (name x = "viewname"))
              eq_refl eq_refl) as (Hinv & _ & Hget & Hlen).
  split; [exact Hinv|]. split; [|exact Hlen].
  rewrite Hget. reflexivity.
Defined.

Lemma listed_items_are_found_witness :
  (exists y, __getitem__ Samples.views (str_ "viewname") = (Ret y, Samples.views_loaded) /\
             name y = "viewname" /\
             y ∈ [Samples.table; Samples.view; Samples.shadow]) /\
  (exists y, __getitem__ Samples.views (int_ 7) = (Ret y, Samples.views_loaded) /\
             oid y = Some 7%Z /\
             y ∈ [Samples.table; Samples.view; Samples.shadow]) /\
  __len__ Samples.views = (Ret 3, Samples.views_loaded).
Proof.
  destruct (listed_items_are_found Samples.views Samples.views_loaded
              [Samples.table; Samples.view; Samples.shadow] eq_refl)
    as (Hname & Hoid & _ & Hlen & _).
  split; [|split; [|exact Hlen]].
  - apply (Hname Samples.view). apply elem_of_cons. right. apply elem_of_cons. now left.
  - apply (Hoid Samples.table 7%Z); [|reflexivity]. apply elem_of_cons. now left.
Defined.

End NodesExtras.

(** * Further properties of lazy property collections and node objects *)

Module PropertiesExtras.

Import LazyProperties.

Lemma unanswered_stays_unloaded (c : NodeLazyPropertyCollection) (keys : list string) :
  _items_impl c = None ->
  (forall k, _generator c k = Ret None) ->
  _items_impl (looked_up c keys) = None /\
  _generator (looked_up c keys) = _generator c /\
  invocations (looked_up c keys) = invocations c + length keys.
Proof.
  revert c. induction keys as [|key keys IH]; intros c Hunloaded Hnone.
  - simpl. auto.
  - unfold looked_up. simpl.
    fold (looked_up (snd (__getitem__ c (Nodes.str_ key))) keys).
    assert (Hstep : snd (__getitem__ c (Nodes.str_ key)) =
                    {| _generator := _generator c; _items_impl := None;
                       invocations := S (invocations c) |}).
    { unfold __getitem__, _items. simpl. now rewrite Hunloaded, Hnone. }
    rewrite Hstep.
    destruct (IH {| _generator := _generator c; _items_impl := None;
                    invocations := S (invocations c) |} eq_refl Hnone)
      as (H1 & H2 & H3).
    split; [exact H1|]. split; [exact H2|]. rewrite H3. simpl. lia.
Qed.

(** X14. A property collection is indexed with strings only: any other
    index, an [int] included, raises [TypeError] and leaves the collection
    untouched. With the properties loaded, a key that is present gives its
    value and a key that is absent raises [KeyError]. *)
Theorem property_by_key (c : NodeLazyPropertyCollection) (index : Nodes.value) :
  (Nodes.as_str index = None ->
   exists msg, __getitem__ c index = (Raise (Exc TypeError msg), c)) /\
  (forall (key : string) (items : properties) (c' : NodeLazyPropertyCollection),
      Nodes.as_str index = Some key ->
      _items c = (Ret (Some items), c') ->
      (forall v, items !! key = Some v -> __getitem__ c index = (Ret v, c')) /\
      (items !! key = None ->
       exists msg, __getitem__ c index = (Raise (Exc KeyError msg), c'))).
Proof.
  split.
  - intros Hs. unfold __getitem__. rewrite Hs. eauto.
  - intros key items c' Hs Hitems. unfold __getitem__, dict_getitem.
    rewrite Hs, Hitems. split.
    + intros v ->. reflexivity.
    + intros ->. eauto.
Qed.

(** X15. [get] never raises for a key that is missing: with the properties
    loaded it returns the value wherever [__getitem__] returns one, and the
    default exactly where [__getitem__] raises [KeyError]; a property whose
    value is [None] is returned as [None], not replaced by the default. *)
Theorem get_or_default (c c' : NodeLazyPropertyCollection) (items : properties)
    (key : string) (default_ : Nodes.value) :
  _items c = (Ret (Some items), c') ->
  (forall v, __getitem__ c (Nodes.str_ key) = (Ret v, c') <->
             get c key default_ = (Ret v, c') /\ items !! key = Some v) /\
  ((exists msg, __getitem__ c (Nodes.str_ key) = (Raise (Exc KeyError msg), c')) <->
   get c key default_ = (Ret default_, c') /\ items !! key = None) /\
  (items !! key = Some Nodes.none_ -> get c key default_ = (Ret Nodes.none_, c')).
Proof.
  intros Hitems. unfold __getitem__, get, dict_getitem. simpl. rewrite Hitems.
  destruct (items !! key) as [w|] eqn:Hkey; simpl.
  - split; [|split].
    + intros v. split; [intros [= ->]; auto|intros [[= ->] _]; reflexivity].
    + split; [intros [msg [=]]|intros [_ [=]]].
    + now intros [= ->].
  - split; [|split].
    + intros v. split; [intros [=]|intros [_ [=]]].
    + split; [auto|eauto].
    + intros [=].
Qed.

(** X16. A generator that returns [None] is never cached, since [None]
    is also the mark of a collection not loaded yet: every lookup invokes
    the generator again, raises [TypeError], and leaves the collection
    unloaded, so after [n] lookups the generator has run [n] times. *)
Theorem none_is_never_cached (c : NodeLazyPropertyCollection) (keys : list string)
    (key : string) :
  _items_impl c = None ->
  (forall k, _generator c k = Ret None) ->
  _items_impl (looked_up c keys) = None /\
  invocations (looked_up c keys) = invocations c + length keys /\
  (exists msg, fst (__getitem__ (looked_up c keys) (Nodes.str_ key)) =
               Raise (Exc TypeError msg)) /\
  invocations (snd (__getitem__ (looked_up c keys) (Nodes.str_ key))) =
    S (invocations c + length keys).
Proof.
  intros Hunloaded Hnone.
  destruct (unanswered_stays_unloaded c keys Hunloaded Hnone) as (H1 & H2 & H3).
  split; [exact H1|]. split; [exact H3|].
  unfold __getitem__, _items. simpl. rewrite H1, H2, Hnone, H3. simpl. eauto.
Qed.

(** X17. A dict returned by the generator is kept: the first lookup of a
    key invokes the generator, and no further lookup does, whatever keys
    are looked up and whether they are present or not. *)
Theorem properties_loaded_once (c : NodeLazyPropertyCollection) (items : properties)
    (key : string) (keys : list string) :
  _items_impl c = None ->
  _generator c (invocations c) = Ret (Some items) ->
  _items_impl (looked_up c (key :: keys)) = Some items /\
  invocations (looked_up c (key :: keys)) = S (invocations c).
Proof.
  intros Hunloaded Hgen.
  assert (Hloaded : forall (l : list string) (d : NodeLazyPropertyCollection),
            _items_impl d = Some items -> looked_up d l = d).
  { induction l as [|k l IH]; intros d Hd; [reflexivity|].
    unfold looked_up in *. simpl.
    assert (Hsame : snd (__getitem__ d (Nodes.str_ k)) = d).
    { unfold __getitem__, _items. simpl. now rewrite Hd. }
    rewrite Hsame. now apply IH. }
  unfold looked_up. simpl.
  fold (looked_up (snd (__getitem__ c (Nodes.str_ key))) keys).
  assert (Hstep : snd (__getitem__ c (Nodes.str_ key)) =
                  {| _generator := _generator c; _items_impl := Some items;
                     invocations := S (invocations c) |}).
  { unfold __getitem__, _items. simpl. now rewrite Hunloaded, Hgen. }
  rewrite Hstep, Hloaded by reflexivity. auto.
Qed.

Lemma property_by_key_witness :
  (exists msg, __getitem__ Samples.full_properties (Nodes.int_ 7) =
               (Raise (Exc TypeError msg), Samples.full_properties)) /\
  __getitem__ Samples.full_properties (Nodes.str_ "oid") =
    (Ret (Nodes.int_ 7), Samples.full_properties_loaded) /\
  (exists msg, __getitem__ Samples.full_properties (Nodes.str_ "owner") =
               (Raise (Exc KeyError msg), Samples.full_properties_loaded)).
Proof.
  split; [|split].
  - exact (proj1 (property_by_key Samples.full_properties (Nodes.int_ 7)) eq_refl).
  - destruct (proj2 (property_by_key Samples.full_properties (Nodes.str_ "oid"))
                "oid" Samples.person_properties Samples.full_properties_loaded
                eq_refl eq_refl) as [Hpresent _].
    apply Hpresent. vm_compute. reflexivity.
  - destruct (proj2 (property_by_key Samples.full_properties (Nodes.str_ "owner"))
                "owner" Samples.person_properties Samples.full_properties_loaded
                eq_refl eq_refl) as [_ Habsent].
    apply Habsent. vm_compute. reflexivity.
Defined.

Lemma get_or_default_witness :
  get Samples.full_properties "owner" (Nodes.str_ "postgres") =
    (Ret (Nodes.str_ "postgres"), Samples.full_properties_loaded) /\
  get Samples.full_properties "comment" (Nodes.str_ "no comment") =
    (Ret Nodes.none_, Samples.full_properties_loaded).
Proof.
  split.
  - destruct (get_or_default Samples.full_properties Samples.full_properties_loaded
                Samples.person_properties "owner" (Nodes.str_ "postgres") eq_refl)
      as (_ & Hmissing & _).
    apply (proj1 Hmissing). eexists. vm_compute. reflexivity.
  - destruct (get_or_default Samples.full_properties Samples.full_properties_loaded
                Samples.person_properties "comment" (Nodes.str_ "no comment") eq_refl)
      as (_ & _ & Hnone).
    apply Hnone. vm_compute. reflexivity.
Defined.

Lemma none_is_never_cached_witness :
  _items_impl (looked_up Samples.no_properties ["name"; "oid"]) = None /\
  invocations (looked_up Samples.no_properties ["name"; "oid"]) = 2 /\
  (exists msg, fst (__getitem__ (looked_up Samples.no_properties ["name"; "oid"])
                      (Nodes.str_ "name")) = Raise (Exc TypeError msg)) /\
  invocations (snd (__getitem__ (looked_up Samples.no_properties ["name"; "oid"])
                      (Nodes.str_ "name"))) = 3.
Proof.
  exact (none_is_never_cached Samples.no_properties ["name"; "oid"] "name"
           eq_refl (fun _ => eq_refl)).
Defined.

Lemma properties_loaded_once_witness :
  _items_impl (looked_up Samples.full_properties ["name"; "owner"; "oid"]) =
    Some Samples.person_properties /\
  invocations (looked_up Samples.full_properties ["name"; "owner"; "oid"]) = 1.
Proof.
  exact (properties_loaded_once Samples.full_properties Samples.person_properties
           "name" ["owner"; "oid"] eq_refl eq_refl).
Defined.

End PropertiesExtras.

Module ObjectsExtras.

Import Objects.

Lemma NodeObject_chain (P : NodeObject -> Prop) :
  (forall cls name_ oid_, P (Node cls name_ oid_ None)) ->
  (forall cls name_ oid_ p, P p -> P (Node cls name_ oid_ (Some p))) ->
  forall self, P self.
Proof.
  intros Hroot Hchild. fix IH 1. intros [cls name_ oid_ [p|]].
  - apply Hchild, IH.
  - apply Hroot.
Qed.

Lemma root_has_no_parent (self : NodeObject) : parent (root self) = None.
Proof. induction self using NodeObject_chain; auto. Qed.

Lemma database_node_of_root (self : NodeObject) :
  get_database_node self =
  if String.eqb (class_name (root self)) "Database" then Some (root self) else None.
Proof. induction self using NodeObject_chain; auto. Qed.

(** X18. The database node of a node is the node at the top of its chain
    of parents when that node is of class [Database], and [None]
    otherwise: the classes of the nodes below the top play no part, so a
    [Database] that has a parent is not its own database node, and all the
    nodes of one chain have the same database node. *)
Theorem database_node_is_the_root (self : NodeObject) :
  get_database_node self =
    (if String.eqb (class_name (root self)) "Database" then Some (root self) else None) /\
  (forall d, get_database_node self = Some d ->
             parent d = None /\ class_name d = "Database" /\ d = root self) /\
  (forall p, parent self = Some p -> get_database_node self = get_database_node p).
Proof.
  split; [apply database_node_of_root|]. split.
  - intros d. rewrite database_node_of_root.
    destruct (String.eqb (class_name (root self)) "Database") eqn:Hcls; [|discriminate].
    intros [= <-]. split; [apply root_has_no_parent|].
    split; [now apply String.eqb_eq|reflexivity].
  - destruct self as [cls name_ oid_ [q|]]; simpl; [|discriminate].
    now intros p [= ->].
Qed.

Lemma comprehension_rows {A B} (f : A -> res B) (rows : list A) (built : list B) :
  comprehension f rows = Ret built ->
  Forall2 (fun row b => f row = Ret b) rows built.
Proof.
  revert built. induction rows as [|row rows IH]; intros built; simpl.
  - intros [= <-]. constructor.
  - destruct (f row) as [b|e] eqn:Hrow; [|discriminate].
    destruct (comprehension f rows) as [bs|e]; [|discriminate].
    intros [= <-]. constructor; auto.
Qed.

Lemma comprehension_raises {A B} (f : A -> res B) (rows : list A) (e : exc) :
  comprehension f rows = Raise e ->
  exists before row after,
    rows = before ++ row :: after /\ f row = Raise e /\
    Forall (fun r => exists b, f r = Ret b) before.
Proof.
  induction rows as [|row rows IH]; simpl; [discriminate|].
  destruct (f row) as [b|e'] eqn:Hrow.
  - destruct (comprehension f rows) as [bs|e'] eqn:Hrest; [discriminate|].
    intros [= ->]. destruct (IH eq_refl) as (before & r & after & -> & Hr & Hb).
    exists (row :: before), r, after. repeat split; auto.
    constructor; eauto.
  - intros [= ->]. exists [], row, rows. repeat split; auto.
Qed.

(** X19. [get_nodes_for_parent] runs its query once, and on one
    connection: that of the server when no parent is given, that of the
    node at the top of the parent's chain when this is a [Database]. For a
    parent whose chain does not end in a [Database] no query is run and
    [AttributeError] is raised. With a parent the context arguments are
    ignored, and without one an empty dict of context arguments is the
    same as none. *)
Theorem nodes_query_connection (B : Backend) (parent_obj : option NodeObject)
    (context_args : option (gmap string Nodes.value)) (sql : string) :
  render_nodes B (nodes_template_vars parent_obj context_args) = Ret sql ->
  snd (get_nodes_for_parent B parent_obj context_args) =
    match parent_obj with
    | None => [(server_connection B, sql)]
    | Some p =>
        if String.eqb (class_name (root p)) "Database"
        then [(connection_of B (root p), sql)]
        else []
    end /\
  (forall p, parent_obj = Some p ->
     String.eqb (class_name (root p)) "Database" = false ->
     exists msg, fst (get_nodes_for_parent B parent_obj context_args) =
                 Raise (Exc AttributeError msg)) /\
  (forall p other, parent_obj = Some p ->
     get_nodes_for_parent B parent_obj other =
     get_nodes_for_parent B parent_obj context_args) /\
  (parent_obj = None ->
   get_nodes_for_parent B None (Some ∅) = get_nodes_for_parent B None None).
Proof.
  intros Hrender. unfold get_nodes_for_parent. rewrite Hrender.
  split; [|split; [|split]].
  - destruct parent_obj as [p|].
    + rewrite database_node_of_root.
      destruct (String.eqb (class_name (root p)) "Database"); [|reflexivity].
      now destruct (execute_dict B (connection_of B (root p)) sql).
    + now destruct (execute_dict B (server_connection B) sql).
  - intros p -> Hcls. rewrite database_node_of_root, Hcls. eauto.
  - intros p other ->.
    change (nodes_template_vars (Some p) other)
      with (nodes_template_vars (Some p) context_args).
    now rewrite Hrender.
  - intros _. reflexivity.
Qed.

(** X20. What [get_nodes_for_parent] returns is made row by row, in the
    order of the rows: a result has one object for every row of the query,
    each made by [_from_node_query] from its row, and when the class
    rejects a row the exception of the first such row is raised and no
    list is returned. *)
Theorem one_object_per_row (B : Backend) (parent_obj : option NodeObject)
    (context_args : option (gmap string Nodes.value))
    (connection : Connection B) (sql : string) (rows : list LazyProperties.properties) :
  snd (get_nodes_for_parent B parent_obj context_args) = [(connection, sql)] ->
  execute_dict B connection sql = Ret rows ->
  (forall built, fst (get_nodes_for_parent B parent_obj context_args) = Ret built ->
     Forall2 (fun row b => _from_node_query B parent_obj row = Ret b) rows built) /\
  (forall e, fst (get_nodes_for_parent B parent_obj context_args) = Raise e ->
     exists before row after,
       rows = before ++ row :: after /\
       _from_node_query B parent_obj row = Raise e /\
       Forall (fun r => exists b, _from_node_query B parent_obj r = Ret b) before) /\
  ((exists built, fst (get_nodes_for_parent B parent_obj context_args) = Ret built) <->
   Forall (fun r => exists b, _from_node_query B parent_obj r = Ret b) rows).
Proof.
  unfold get_nodes_for_parent.
  destruct (render_nodes B (nodes_template_vars parent_obj context_args)) as [sql'|e];
    [|discriminate].
  assert (Hall : forall rs : list LazyProperties.properties,
            (exists built, comprehension (_from_node_query B parent_obj) rs = Ret built) <->
            Forall (fun r => exists b, _from_node_query B parent_obj r = Ret b) rs).
  { induction rs as [|r rs IH]; simpl.
    - split; [constructor|eauto].
    - destruct (_from_node_query B parent_obj r) as [b|e] eqn:Hr.
      + destruct (comprehension (_from_node_query B parent_obj) rs) as [bs|e] eqn:Hrs.
        * split; [|eauto]. intros _. constructor; [eauto|]. apply IH. eauto.
        * split; [intros [? [=]]|].
          intros H. apply Forall_cons in H as [_ H]. apply IH in H as [x Hx].
          congruence.
      + split; [intros [? [=]]|].
        intros H. apply Forall_cons in H as [[x Hx] _]. congruence. }
  destruct parent_obj as [p|].
  - destruct (get_database_node p) as [d|]; [|discriminate].
    destruct (execute_dict B (connection_of B d) sql') as [rows'|e] eqn:Hexec; simpl;
      intros [= <- <-] Hrows; rewrite Hrows in Hexec; [|discriminate].
    injection Hexec as <-.
    split; [intros built; apply comprehension_rows|].
    split; [intros e; apply comprehension_raises|apply Hall].
  - destruct (execute_dict B (server_connection B) sql') as [rows'|e] eqn:Hexec; simpl;
      intros [= <- <-] Hrows; rewrite Hrows in Hexec; [|discriminate].
    injection Hexec as <-.
    split; [intros built; apply comprehension_rows|].
    split; [intros e; apply comprehension_raises|apply Hall].
Qed.

(** X21. The properties of a node whose properties query has no row are
    never loaded: [_property_generator] returns [None], so every lookup in
    [_full_properties] runs the query again, on the connection of the
    server, and raises [TypeError]. *)
Theorem properties_without_row (B : nat -> Backend) (self : NodeObject)
    (keys : list string) (key : string) :
  (forall k, exists sql,
      render_properties (B k) (template_vars (B k) self) = Ret sql /\
      execute_dict (B k) (server_connection (B k)) sql = Ret []) ->
  (forall k, exists sql, _property_generator (B k) self =
                         (Ret None, [(server_connection (B k), sql)])) /\
  LazyProperties.invocations
    (LazyProperties.looked_up (_full_properties B self) keys) = length keys /\
  (exists msg,
      fst (LazyProperties.__getitem__
             (LazyProperties.looked_up (_full_properties B self) keys)
             (Nodes.str_ key)) = Raise (Exc TypeError msg)).
Proof.
  intros Hempty.
  assert (Hgen : forall k, exists sql, _property_generator (B k) self =
                             (Ret None, [(server_connection (B k), sql)])).
  { intros k. destruct (Hempty k) as (sql & Hrender & Hexec).
    exists sql. unfold _property_generator. now rewrite Hrender, Hexec. }
  split; [exact Hgen|].
  assert (Hnone : forall k, LazyProperties._generator (_full_properties B self) k = Ret None).
  { intros k. simpl. destruct (Hgen k) as [sql ->]. reflexivity. }
  destruct (PropertiesExtras.unanswered_stays_unloaded (_full_properties B self) keys
              eq_refl Hnone) as (H1 & H2 & H3).
  split; [exact H3|].
  unfold LazyProperties.__getitem__, LazyProperties._items. simpl Nodes.as_str. cbv iota.
  rewrite H1, H2, Hnone. eauto.
Qed.

(** X22. [refresh] keeps every registration and invokes no generator: each
    child collection is still registered under its class name, with its
    generator and its count of invocations, but unloaded, and so is each
    property collection; the first access after it invokes the generator
    again. *)
Theorem refresh_unloads_everything (self : Collections) :
  (forall class_ c, _child_collections self !! class_ = Some c ->
     exists c', _child_collections (refresh self) !! class_ = Some c' /\
       Nodes._items_impl c' = None /\
       Nodes._generator c' = Nodes._generator c /\
       Nodes.invocations c' = Nodes.invocations c /\
       Nodes.invocations (snd (Nodes.__len__ c')) = S (Nodes.invocations c)) /\
  (forall class_, _child_collections self !! class_ = None ->
     _child_collections (refresh self) !! class_ = None) /\
  length (_property_collections (refresh self)) = length (_property_collections self) /\
  (forall i p, _property_collections self !! i = Some p ->
     exists p', _property_collections (refresh self) !! i = Some p' /\
       LazyProperties._items_impl p' = None /\
       LazyProperties._generator p' = LazyProperties._generator p /\
       LazyProperties.invocations p' = LazyProperties.invocations p) /\
  refresh (refresh self) = refresh self.
Proof.
  unfold refresh, _refresh_child_collections. simpl.
  split; [|split; [|split; [|split]]].
  - intros class_ c Hc. exists (Nodes.reset c). rewrite lookup_fmap, Hc. simpl.
    repeat split. unfold Nodes.__len__, Nodes._items. simpl.
    now destruct (Nodes._generator c (Nodes.invocations c)).
  - intros class_ Hc. now rewrite lookup_fmap, Hc.
  - apply length_fmap.
  - intros i p Hp. exists (LazyProperties.reset p). rewrite list_lookup_fmap, Hp. auto.
  - f_equal.
    + rewrite <- map_fmap_compose. apply map_fmap_ext. now intros k [g i n] _.
    + rewrite <- list_fmap_compose. apply list_fmap_ext. now intros k [g i n] _.
Qed.

Lemma database_node_is_the_root_witness :
  get_database_node Samples.person = Some Samples.database /\
  get_database_node Samples.role_setting = None /\
  (parent Samples.database = None /\ class_name Samples.database = "Database" /\
   Samples.database = root Samples.person) /\
  get_database_node Samples.person = get_database_node Samples.schema.
Proof.
  destruct (database_node_is_the_root Samples.person) as (Hnode & Htop & Hparent).
  split; [exact Hnode|].
  split; [exact (proj1 (database_node_is_the_root Samples.role_setting))|].
  split; [exact (Htop Samples.database eq_refl)|exact (Hparent Samples.schema eq_refl)].
Defined.

Lemma nodes_query_connection_witness :
  snd (get_nodes_for_parent (Samples.answering [Samples.view_row]) (Some Samples.person) None) =
    [("postgres", "SELECT oid, name FROM nodes WHERE parent = %s")] /\
  snd (get_nodes_for_parent (Samples.answering [Samples.view_row]) None None) =
    [("maintenance", "SELECT oid, name FROM nodes")] /\
  snd (get_nodes_for_parent (Samples.answering [Samples.view_row])
         (Some Samples.role_setting) None) = [] /\
  (exists msg,
      fst (get_nodes_for_parent (Samples.answering [Samples.view_row])
             (Some Samples.role_setting) None) = Raise (Exc AttributeError msg)).
Proof.
  split; [|split; [|split]].
  - exact (proj1 (nodes_query_connection (Samples.answering [Samples.view_row])
                    (Some Samples.person) None
                    "SELECT oid, name FROM nodes WHERE parent = %s" eq_refl)).
  - exact (proj1 (nodes_query_connection (Samples.answering [Samples.view_row])
                    None None "SELECT oid, name FROM nodes" eq_refl)).
  - exact (proj1 (nodes_query_connection (Samples.answering [Samples.view_row])
                    (Some Samples.role_setting) None
                    "SELECT oid, name FROM nodes WHERE parent = %s" eq_refl)).
  - destruct (nodes_query_connection (Samples.answering [Samples.view_row])
                (Some Samples.role_setting) None
                "SELECT oid, name FROM nodes WHERE parent = %s" eq_refl)
      as (_ & Hraise & _).
    exact (Hraise Samples.role_setting eq_refl eq_refl).
Defined.

Lemma one_object_per_row_witness :
  Forall2 (fun row b =>
             _from_node_query (Samples.answering [Samples.view_row; Samples.table_row])
               None row = Ret b)
    [Samples.view_row; Samples.table_row] [Samples.view; Samples.table] /\
  (exists before row after,
      [Samples.view_row; Samples.nameless_row; Samples.table_row] = before ++ row :: after /\
      _from_node_query
        (Samples.answering [Samples.view_row; Samples.nameless_row; Samples.table_row])
        None row = Raise (Exc KeyError "name") /\
      Forall (fun r => exists b,
                _from_node_query
                  (Samples.answering
                     [Samples.view_row; Samples.nameless_row; Samples.table_row])
                  None r = Ret b) before).
Proof.
  split.
  - destruct (one_object_per_row (Samples.answering [Samples.view_row; Samples.table_row])
                None None "maintenance" "SELECT oid, name FROM nodes"
                [Samples.view_row; Samples.table_row] eq_refl eq_refl) as (Hbuilt & _).
    apply Hbuilt. vm_compute. reflexivity.
  - destruct (one_object_per_row
                (Samples.answering
                   [Samples.view_row; Samples.nameless_row; Samples.table_row])
                None None "maintenance" "SELECT oid, name FROM nodes"
                [Samples.view_row; Samples.nameless_row; Samples.table_row]
                eq_refl eq_refl) as (_ & Hraise & _).
    apply Hraise. vm_compute. reflexivity.
Defined.

Lemma properties_without_row_witness :
  LazyProperties.invocations
    (LazyProperties.looked_up
       (_full_properties (fun _ => Samples.answering []) Samples.person) ["name"; "oid"]) = 2 /\
  (exists msg,
      fst (LazyProperties.__getitem__
             (LazyProperties.looked_up
                (_full_properties (fun _ => Samples.answering []) Samples.person)
                ["name"; "oid"])
             (Nodes.str_ "name")) = Raise (Exc TypeError msg)).
Proof.
  exact (proj2 (properties_without_row (fun _ => Samples.answering []) Samples.person
                  ["name"; "oid"] "name"
                  (fun _ => ex_intro _ "SELECT * FROM properties"
                              (conj eq_refl eq_refl)))).
Defined.

Lemma refresh_unloads_everything_witness :
  (exists c', _child_collections (refresh Samples.loaded_collections) !! "View" = Some c' /\
     Nodes._items_impl c' = None /\
     Nodes._generator c' = Nodes._generator Samples.views_loaded /\
     Nodes.invocations c' = 1 /\
     Nodes.invocations (snd (Nodes.__len__ c')) = 2) /\
  _child_collections (refresh Samples.loaded_collections) !! "Table" = None /\
  (exists p', _property_collections (refresh Samples.loaded_collections) !! 0 = Some p' /\
     LazyProperties._items_impl p' = None /\
     LazyProperties._generator p' =
       LazyProperties._generator Samples.full_properties_loaded /\
     LazyProperties.invocations p' = 1).
Proof.
  destruct (refresh_unloads_everything Samples.loaded_collections)
    as (Hchild & Hnone & _ & Hprop & _).
  split; [|split].
  - apply (Hchild "View" Samples.views_loaded). vm_compute. reflexivity.
  - apply (Hnone "Table"). vm_compute. reflexivity.
  - exact (Hprop 0 Samples.full_properties_loaded eq_refl).
Defined.

End ObjectsExtras.

(** * Further properties of the entry point *)

Module MainExtras.

Import Main MainFacts.

Local Open Scope proc_scope.

Section Script.

Context (I : Imports) (o : Outside).

Lemma main_of_parse_exit (t : list event) (x : exit) :
  parse_args I o = (t, Exit x) -> main I o = ([], Exit x).
Proof.
  intros H. pose proof (parse_args_silent I o) as Hsilent.
  rewrite H in Hsilent. simpl in Hsilent. subst t.
  unfold main, startup, prepare, configure. now rewrite H.
Qed.

(** X23. The text that the environment or the config file gives for the
    listen port is converted before the command line is looked at: when it
    is no integer the run ends with that exception before anything else is
    done, also when a valid [--listen-port] is given. *)
Theorem malformed_port_default_is_fatal (b : bool) (e : exc) :
  str_to_bool I (enable_web_server_env o) = Ret b ->
  int I (listen_port_env o) = Raise e ->
  main I o = ([], Exit (uncaught e)).
Proof.
  intros Hweb Hport. apply (main_of_parse_exit []).
  unfold parse_args. now rewrite Hweb, Hport.
Qed.

(** X24. How the script ends on texts it cannot convert: when one of the
    texts for the defaults cannot be converted the run ends with that
    exception; when they can but a text given for an argument of type
    [int] cannot, it ends with the parser's error; otherwise the arguments
    resolve. In no case is anything done before. *)
Theorem arguments_resolve_or_end :
  (defaults_convert I o -> given_integers_convert I o ->
   exists args, parse_args I o = ([], Done args)) /\
  (defaults_convert I o -> ~ given_integers_convert I o ->
   exists msg, main I o = ([], Exit (parser_error msg))) /\
  (~ defaults_convert I o -> exists e, main I o = ([], Exit (uncaught e))).
Proof.
  split; [|split].
  - intros (Hweb & Hport & Hkeep & Hcors & Hconsole) Hgiven.
    apply parse_args_returns.
    + intros s Hs. rewrite !elem_of_cons in Hs.
      destruct Hs as [->|[->|[->|[->|Hs]]]]; auto. inversion Hs.
    + exact Hport.
    + intros raw Hraw s ->. apply Hgiven. rewrite !elem_of_cons in Hraw.
      destruct Hraw as [<-|[Hraw|[Hraw|Hraw]]]; [now left| | |inversion Hraw].
      * right. left. destruct (opt_enable_remote_debugging (command_line o)) as [[r|]|];
          simpl in Hraw; congruence.
      * right. right.
        destruct (opt_enable_remote_debugging_wait (command_line o)) as [[r|]|];
          simpl in Hraw; congruence.
  - intros ([web Hweb] & [port Hport] & [keep Hkeep] & [cors Hcors] & [console Hconsole])
           Hgiven.
    assert (Hexit : exists msg, parse_args I o = ([], Exit (parser_error msg))).
    { unfold parse_args, optional_port, int_argument.
      rewrite Hweb, Hport, Hkeep, Hcors, Hconsole. simpl.
      destruct (opt_listen_port (command_line o)) as [raw|] eqn:E1; simpl.
      1: destruct (int I raw) as [z1|] eqn:Hz1; simpl; [|eauto].
      all: destruct (opt_enable_remote_debugging (command_line o)) as [[raw1|]|] eqn:E2;
        simpl.
      all: try (destruct (int I raw1) as [z2|] eqn:Hz2; simpl; [|eauto]).
      all: destruct (opt_enable_remote_debugging_wait (command_line o)) as [[raw2|]|] eqn:E3;
        simpl.
      all: try (destruct (int I raw2) as [z3|] eqn:Hz3; simpl; [|eauto]).
      all: exfalso; apply Hgiven; intros s [Hs|[Hs|Hs]];
        first [rewrite E1 in Hs|rewrite E2 in Hs|rewrite E3 in Hs];
        try discriminate Hs; injection Hs as <-; eauto. }
    destruct Hexit as [msg Hexit]. exists msg. now apply (main_of_parse_exit []).
  - intros Hbad.
    assert (Hexit : exists e, parse_args I o = ([], Exit (uncaught e))).
    { unfold parse_args.
      destruct (str_to_bool I (enable_web_server_env o)) as [web|] eqn:Hweb; [|simpl; eauto].
      destruct (int I (listen_port_env o)) as [port|] eqn:Hport; [|simpl; eauto].
      destruct (str_to_bool I (disable_keep_alive_env o)) as [keep|] eqn:Hkeep; [|simpl; eauto].
      destruct (str_to_bool I (enable_dynamic_cors_env o)) as [cors|] eqn:Hcors; [|simpl; eauto].
      destruct (str_to_bool I (console_logging_env o)) as [console|] eqn:Hconsole;
        [|simpl; eauto].
      exfalso. apply Hbad. unfold defaults_convert.
      rewrite Hweb, Hport, Hkeep, Hcors, Hconsole. eauto 10. }
    destruct Hexit as [e Hexit]. exists e. now apply (main_of_parse_exit []).
Qed.

Lemma input_file_events (P : event -> Prop) (args : Args) :
  (forall path, P (open_input path)) -> Forall P (trace (handle_input_file o args)).
Proof.
  intros H. unfold handle_input_file. destruct (truthy_str (input args)); [|apply all_ret].
  apply all_bind; [now apply all_attempt|intros; apply all_ret].
Qed.

Lemma remote_debugging_events (P : event -> Prop) (args : Args) :
  (forall port, P (debugpy_listen port)) ->
  Forall P (trace (handle_remote_debugging o args)).
Proof.
  intros H. unfold handle_remote_debugging.
  destruct (truthy_int (enable_remote_debugging args)
            || truthy_int (enable_remote_debugging_wait args)); [|apply all_ret].
  apply all_bind; [|intros; apply all_ret].
  destruct (debugpy_listen_raises o _); [|now apply all_emit].
  apply all_bind; [now apply all_emit|intros; now apply all_attempt].
Qed.

(** X25. A provider that is not among the supported ones ends the run:
    the script exits, no log handler was attached and no server was
    created by then, and when the input file and the debugger's port can
    be opened the exit is the AssertionError that names the provider. *)
Theorem unsupported_provider_ends_the_run (t : list event) (args : Args) :
  parse_args I o = (t, Done args) ->
  truthy_str (provider args) = true ->
  default "" (provider args) ∉ SUPPORTED_PROVIDERS I ->
  (exists x, result (main I o) = Exit x) /\
  Forall (fun e => attaches_handler e = false /\ concerns_server e = false)
    (trace (main I o)) /\
  ((forall path, open_input_raises o path = None) ->
   (forall port, debugpy_listen_raises o port = None) ->
   result (main I o) =
     Exit (uncaught (Exc AssertionError
                       (default "" (provider args) +:+ " is not a supported provider")))).
Proof.
  intros Hparse Htruthy Hnot.
  assert (Hprov : handle_provider I args =
                  ([], Exit (uncaught (Exc AssertionError
                     (default "" (provider args) +:+ " is not a supported provider"))))).
  { unfold handle_provider. rewrite Htruthy.
    now rewrite (bool_decide_eq_false_2 _ Hnot). }
  pose proof (parse_args_silent I o) as Hsilent.
  rewrite Hparse in Hsilent. simpl in Hsilent. subst t.
  pose proof (input_file_events
                (fun e => attaches_handler e = false /\ concerns_server e = false) args
                (fun _ => conj eq_refl eq_refl)) as Hin.
  pose proof (remote_debugging_events
                (fun e => attaches_handler e = false /\ concerns_server e = false) args
                (fun _ => conj eq_refl eq_refl)) as Hdbg.
  assert (Hconf : exists tc x,
             configure I o = (tc, Exit x) /\
             Forall (fun e => attaches_handler e = false /\ concerns_server e = false) tc /\
             ((forall path, open_input_raises o path = None) ->
              (forall port, debugpy_listen_raises o port = None) ->
              x = uncaught (Exc AssertionError
                     (default "" (provider args) +:+ " is not a supported provider")))).
  { unfold configure. rewrite Hparse. simpl.
    destruct (handle_input_file o args) as [ti [stdin|xi]] eqn:Hi; simpl in *.
    - destruct (handle_remote_debugging o args) as [td [w|xd]] eqn:Hd; simpl in *.
      + rewrite Hprov. simpl. exists (ti ++ td ++ []), (uncaught (Exc AssertionError
                     (default "" (provider args) +:+ " is not a supported provider"))).
        split; [reflexivity|]. split; [|reflexivity].
        rewrite app_nil_r. apply Forall_app. now split.
      + exists (ti ++ td), xd. split; [reflexivity|].
        split; [apply Forall_app; now split|].
        intros _ Hlisten. exfalso. revert Hd. unfold handle_remote_debugging.
        destruct (_ || _); [|discriminate]. rewrite Hlisten. discriminate.
    - exists ti, xi. split; [reflexivity|]. split; [exact Hin|].
      intros Hopen _. exfalso. revert Hi. unfold handle_input_file.
      destruct (truthy_str (input args)); [|discriminate]. rewrite Hopen. discriminate. }
  destruct Hconf as (tc & x & Hconf & Hall & Hx).
  rewrite (main_of_configure_exit I o tc x Hconf). simpl.
  split; [eauto|]. split; [exact Hall|].
  intros Hopen Hlisten. now rewrite (Hx Hopen Hlisten).
Qed.

End Script.

Lemma relabel_bind {A B} (f : event -> event) (m : Proc A) (k : A -> Proc B) :
  relabel f (bind m k) = bind (relabel f m) (fun a => relabel f (k a)).
Proof.
  destruct m as [t [a|x]]; unfold relabel; simpl; [|reflexivity].
  destruct (k a) as [t' r]. simpl. now rewrite map_app.
Qed.

Lemma relabel_fixed {A} (f : event -> event) (m : Proc A) :
  Forall (fun e => f e = e) (trace m) -> relabel f m = m.
Proof.
  destruct m as [t r]. unfold relabel. simpl. intros H. f_equal.
  induction H as [|e t He _ IH]; simpl; [reflexivity|]. now rewrite He, IH.
Qed.

Lemma bind_ext {A B} (m m' : Proc A) (k k' : A -> Proc B) :
  m = m' -> (forall a, k a = k' a) -> bind m k = bind m' k'.
Proof. intros -> H. destruct m' as [t [a|x]]; simpl; [|reflexivity]. now rewrite H. Qed.

Lemma phase_fixed (call : string -> service_class -> event)
    (raises : string -> service_class -> option exc)
    (entries : list (string * service_class)) :
  (forall name cls, null_for_file (call name cls) = call name cls) ->
  Forall (fun e => null_for_file e = e) (trace (phase call raises entries)).
Proof.
  intros H. induction entries as [|[name cls] rest IH]; simpl; [constructor|].
  apply all_bind; [now apply all_attempt|intros _; exact IH].
Qed.

(** X26. Whether the log file can be opened changes nothing else: the
    run in which it cannot be opened ends as the run in which it can, and
    makes the same calls in the same order, but for the null handler that
    is attached where the file handler was. *)
Theorem log_file_failure_changes_nothing_else (I : Imports) (o : Outside) :
  main I (with_log_file o true) = relabel null_for_file (main I (with_log_file o false)).
Proof.
  set (f := null_for_file).
  assert (Hfix : forall {A} (m : Proc A),
             Forall (fun e => f e = e) (trace m) -> m = relabel f m).
  { intros A m H. symmetry. now apply relabel_fixed. }
  unfold main, startup, prepare, configure.
  repeat (rewrite ?relabel_bind;
          match goal with
          | |- bind _ _ = bind _ _ => apply bind_ext; [|intros ?]
          end);
    try reflexivity;
    try (match goal with
         | |- ?l = relabel f ?r => transitivity r; [reflexivity|apply Hfix]
         end).
  - rewrite parse_args_silent. constructor.
  - now apply input_file_events.
  - now apply remote_debugging_events.
  - unfold handle_provider.
    destruct (truthy_str _); [|constructor]. destruct (bool_decide _); constructor.
  - unfold add_console_logging.
    destruct (console_logging _); [|constructor].
    apply all_bind; [destruct (negb _); constructor|intros; now apply all_emit].
  - unfold announce, await_debugger, wrap_streams.
    apply all_bind.
    { destruct (c_wait_for_debugger _); [|constructor].
      apply all_bind; [now apply all_emit|intros; now apply all_emit]. }
    intros _. apply all_bind.
    { apply all_bind.
      - destruct (c_stdin _); [constructor|].
        apply all_bind; [now apply all_emit|intros; constructor].
      - intros. apply all_bind; [now apply all_emit|intros; constructor]. }
    intros. apply all_bind; [now apply all_emit|intros; constructor].
  - unfold create_server, _create_web_server, _create_server, _create_server_init,
      ServiceProvider_initialize.
    destruct (enable_web_server _);
      (apply all_bind; [now apply all_emit|intros _]);
      (apply all_bind; [now apply phase_fixed|intros _; now apply phase_fixed]).
  - unfold serve.
    destruct (generate_markdown _); [now apply all_emit|].
    apply all_bind; [now apply all_emit|intros; now apply all_emit].
Qed.

Lemma malformed_port_default_is_fatal_witness :
  opt_listen_port (command_line Samples.bad_port_run) = Some "8080" /\
  main Samples.imports Samples.bad_port_run =
    ([], Exit (uncaught (Exc ValueError "invalid literal for int()"))).
Proof.
  split; [reflexivity|].
  apply (malformed_port_default_is_fatal Samples.imports Samples.bad_port_run false);
    vm_compute; reflexivity.
Defined.

Lemma arguments_resolve_or_end_witness :
  (exists args, parse_args Samples.imports Samples.plain_run = ([], Done args)) /\
  (exists msg, main Samples.imports Samples.bad_argument_run =
               ([], Exit (parser_error msg))) /\
  (exists e, main Samples.imports Samples.bad_port_run = ([], Exit (uncaught e))).
Proof.
  assert (Hdefaults : forall cl, defaults_convert Samples.imports (Samples.run_with ∅ ∅ cl)).
  { intros cl. repeat split; eexists; vm_compute; reflexivity. }
  split; [|split].
  - apply (proj1 (arguments_resolve_or_end Samples.imports Samples.plain_run)).
    + apply Hdefaults.
    + intros raw [H|[H|H]]; discriminate H.
  - apply (proj1 (proj2 (arguments_resolve_or_end Samples.imports Samples.bad_argument_run))).
    + apply Hdefaults.
    + intros H. destruct (H "http" (or_introl eq_refl)) as [z Hz]. discriminate Hz.
  - apply (proj2 (proj2 (arguments_resolve_or_end Samples.imports Samples.bad_port_run))).
    intros (_ & [z Hz] & _). vm_compute in Hz. discriminate Hz.
Defined.

Lemma unsupported_provider_ends_the_run_witness :
  main Samples.imports Samples.other_provider_run =
    ([open_input "session.json"],
     Exit (uncaught (Exc AssertionError "MYSQL is not a supported provider"))) /\
  Forall (fun e => attaches_handler e = false /\ concerns_server e = false)
    (trace (main Samples.imports Samples.other_provider_run)).
Proof.
  destruct (parse_args Samples.imports Samples.other_provider_run) as [t out] eqn:Hparse.
  pose proof Hparse as Hrun. vm_compute in Hrun. injection Hrun as <- <-.
  assert (Hnot : "MYSQL" ∉ SUPPORTED_PROVIDERS Samples.imports).
  { intros H. apply elem_of_cons in H as [H|H]; [discriminate H|inversion H]. }
  destruct (unsupported_provider_ends_the_run Samples.imports Samples.other_provider_run
              _ _ Hparse eq_refl Hnot) as (_ & Hquiet & Hexit).
  split; [|exact Hquiet].
  specialize (Hexit (fun _ => eq_refl) (fun _ => eq_refl)).
  destruct (main Samples.imports Samples.other_provider_run) as [tm outm] eqn:Hmain.
  simpl in Hexit. subst outm.
  pose proof Hmain as Hrun. vm_compute in Hrun. injection Hrun as <-. reflexivity.
Defined.

End MainExtras.

Module Examples.

Import Scripting.

Example script_sent :
  request_context (snd (Samples.handle Samples.all_well Samples.with_logger (Some Samples.script_table))) =
  [send_response {| response_owner_uri := "file:///query.sql";
                    response_script := "CREATE TABLE public.person();" |}].
Proof. reflexivity. Qed.

Example missing_params_reported :
  fst (Samples.handle Samples.all_well Samples.with_logger None) = Some (Ret tt) /\
  request_context (snd (Samples.handle Samples.all_well Samples.with_logger None)) =
  [send_error "Invalid value for params" None].
Proof. split; reflexivity. Qed.

Example retry_succeeds :
  fst (Samples.handle Samples.server_restarted Samples.with_logger (Some Samples.script_table)) =
    Some (Ret tt) /\
  request_context
    (snd (Samples.handle Samples.server_restarted Samples.with_logger (Some Samples.script_table))) =
  [send_response {| response_owner_uri := "file:///query.sql";
                    response_script := "CREATE TABLE public.person();" |}].
Proof. split; reflexivity. Qed.

Example second_scripting_failure_reported :
  request_context
    (snd (Samples.handle Samples.scripting_keeps_failing Samples.with_logger
            (Some Samples.script_table))) =
  [send_error "server closed the connection" (Some Samples.script_table)].
Proof. reflexivity. Qed.

Example retry_without_logger :
  exists msg st,
    Samples.handle Samples.scripting_keeps_failing Samples.without_logger
      (Some Samples.script_table) = (Some (Raise (Exc AttributeError msg)), st) /\
    request_context st = [].
Proof. do 2 eexists. split; reflexivity. Qed.

Example debug_flag_off_despite_environment :
  exists args,
    Main.parse_args Samples.imports (Samples.debug_in_environment "DEBUG_WEB_SERVER") =
      ([], Main.Done args) /\
    Main.debug_web_server args = false /\
    Main.str_to_bool Samples.imports "1" = Ret true.
Proof. eexists. split; [vm_compute; reflexivity|split; reflexivity]. Qed.

End Examples.
